(** * LTM-CLINE memory lifecycle: a shallow embedding and its properties

    The development follows the JavaScript sources of the memory core:
    [models/Conversation.js], [models/Memory.js], [models/Persona.js],
    [models/DreamstateUpdate.js], [services/MemoryProcessor.js],
    [services/PersonaEvolver.js], [services/AwakeningService.js],
    [core/LTMSQL.js] and the [ltm_record_message] tool of [mcp/server.js].

    Conventions of the embedding.
    - A JavaScript string is a [string]; one [ascii] stands for one
      character of the source string, so [String.length] is [.length].
      Case conversion is modelled on the letters A-Z and a-z only.
    - A [Date] is its [getTime()] value, an integer number of milliseconds.
      A time column holds an ISO string in the source and the time it
      denotes here.  [ORDER BY] on a time column compares the strings
      ([toISOString], [SQL.order_by_text_desc]); for the years 0000-9999
      that is the order of the times.
    - A JavaScript number that the program computes with is a rational; the
      results of [+] and [/] are rounded to the nearest binary64 value
      (ties to even), see [JS.fl].  Infinities, the negative zero and
      subnormal numbers are outside of what the program reaches.
    - The SQLite tables are lists of rows in rowid order.  A column that
      holds serialized JSON is kept as the value it was serialized from
      (also a [NaN], which JSON would write as [null]), and is serialized
      again where a query inspects the text ([LIKE]).
    - A character above 127 is taken as one of U+0080 to U+00FF, which
      UTF-8 writes in two bytes.
    - An [async] method that is awaited is run to completion at the point
      where it is called.  The one call that is not awaited, in
      [LTMSQL.awaken], is run up to the point where it has to wait, see
      [LTMSQL.startConversation_begin].  A statement takes effect on the
      tables when it is issued.
    - Of the failures of the storage layer, those that the arguments of a
      call decide are modelled: a foreign key without its row
      ([SQL.references]), a [LIMIT] that is no 64-bit integer
      ([SQL.bindable]) and a [LIKE] pattern of more than 50000 bytes
      ([SQL.too_complex]).  Failures of the file system are not. *)

From Stdlib Require Import ZArith QArith Qround Qabs Qpower.
From Stdlib Require Import String Ascii List Bool Lia Sorted Permutation.
Import ListNotations.
Open Scope string_scope.
Open Scope Z_scope.

(** ** JavaScript primitives *)

Module JS.

(** *** Numbers *)

(** Nearest integer, ties to even. *)
Definition round_half_even (x : Q) : Z :=
  let f := Qfloor x in
  match Qcompare (x - inject_Z f) (1 # 2) with
  | Lt => f
  | Gt => f + 1
  | Eq => if Z.even f then f else f + 1
  end.

(** Exponent of the leading binary digit of a positive rational:
    [2^(ilog2 x) <= x < 2^(ilog2 x + 1)]. *)
Definition ilog2 (x : Q) : Z :=
  let e := Z.log2 (Qnum x) - Z.log2 (Zpos (Qden x)) in
  if Qle_bool (2 ^ e)%Q x then e else e - 1.

(** Rounding of a non-negative rational to binary64: a 53-bit significand,
    round to nearest, ties to even. *)
Definition fl_pos (x : Q) : Q :=
  let e := ilog2 x - 52 in
  (inject_Z (round_half_even (x / 2 ^ e)) * 2 ^ e)%Q.

Definition fl (x : Q) : Q :=
  match Qcompare x 0 with
  | Eq => 0%Q
  | Gt => fl_pos x
  | Lt => (- fl_pos (- x))%Q
  end.

(** A decimal literal of the source, and the operators [+], [-] and [/]. *)
Definition lit (x : Q) : Q := fl x.
Definition add (a b : Q) : Q := fl (a + b).
Definition sub (a b : Q) : Q := fl (a - b).
Definition div (a b : Q) : Q := fl (a / b).

(** [Math.floor], [Math.min], [Math.max] and [<] on numbers. *)
Definition floor (x : Q) : Z := Qfloor x.
Definition qmin (a b : Q) : Q := if Qle_bool a b then a else b.
Definition qlt (a b : Q) : bool := negb (Qle_bool b a).

(** A number that may be [NaN] (from arithmetic on [undefined]). *)
Inductive number : Type :=
| Num (q : Q)
| NaN.

(** [Math.min(c, x)] for a finite constant [c]. *)
Definition number_min (c : Q) (x : number) : number :=
  match x with
  | Num q => Num (qmin c q)
  | NaN => NaN
  end.

(** [x + c] where [x] is a property that may be [undefined]. *)
Definition number_add_opt (x : option number) (c : Q) : number :=
  match x with
  | Some (Num q) => Num (add q c)
  | Some NaN | None => NaN
  end.

(** [x < c] where [x] is a property that may be [undefined]. *)
Definition number_lt_opt (x : option number) (c : Q) : bool :=
  match x with
  | Some (Num q) => qlt q c
  | Some NaN | None => false
  end.

(** [a !== b] on numbers. *)
Definition number_sne (a b : number) : bool :=
  match a, b with
  | Num p, Num q => negb (Qeq_bool p q)
  | _, _ => true
  end.

(** *** Decimal rendering *)

Definition digit (d : Z) : ascii := ascii_of_nat (48 + Z.to_nat d).

Fixpoint digits_fuel (fuel : nat) (n : Z) (acc : string) : string :=
  match fuel with
  | O => acc
  | S fuel' =>
      let acc' := String (digit (n mod 10)) acc in
      if n <? 10 then acc' else digits_fuel fuel' (n / 10) acc'
  end.

(** Decimal digits of a non-negative integer. *)
Definition digits (n : Z) : string :=
  digits_fuel (S (Z.to_nat (Z.log2 n))) n "".

(** Digits padded with zeros on the left to [w] characters. *)
Definition pad (w : nat) (s : string) : string :=
  String.concat "" (repeat "0" (w - String.length s)) ++ s.

(** [x.toFixed(1)] for [|x| < 1e21]: the integer [n] nearest to [10 x],
    the larger one on a tie, rendered with one decimal. *)
Definition toFixed1 (x : Q) : string :=
  let neg := qlt x 0 in
  let a := Qabs x in
  let n := Qfloor (a * 10 + (1 # 2)) in
  (if neg then "-" else "") ++ digits (n / 10) ++ "." ++ digits (n mod 10).

(** *** Dates *)

(** The proleptic Gregorian date (year, month, day) of a day number
    counted from 1970-01-01. *)
Definition civil_from_days (days : Z) : Z * Z * Z :=
  let z := days + 719468 in
  let era := z / 146097 in
  let doe := z - era * 146097 in
  let yoe := (doe - doe / 1460 + doe / 36524 - doe / 146096) / 365 in
  let doy := doe - (365 * yoe + yoe / 4 - yoe / 100) in
  let mp := (5 * doy + 2) / 153 in
  let d := doy - (153 * mp + 2) / 5 + 1 in
  let m := if mp <? 10 then mp + 3 else mp - 9 in
  let y := yoe + era * 400 + (if m <=? 2 then 1 else 0) in
  (y, m, d).

(** [d.toISOString().split('T')[0]]: four digits for the years 0-9999, a
    sign and six digits for the others. *)
Definition iso_date (ms : Z) : string :=
  let '(y, m, d) := civil_from_days (ms / 86400000) in
  let year :=
    if (0 <=? y) && (y <=? 9999) then pad 4 (digits y)
    else (if y <? 0 then "-" else "+") ++ pad 6 (digits (Z.abs y)) in
  year ++ "-" ++ pad 2 (digits m) ++ "-" ++ pad 2 (digits d).

(** *** Strings *)

(** [s.substring(0, e)]: a negative end is taken as 0, an end beyond the
    length as the length. *)
Definition substring0 (s : string) (e : Z) : string :=
  String.substring 0 (Z.to_nat (Z.min (Z.max e 0) (Z.of_nat (String.length s)))) s.

(** [s.lastIndexOf(c)] for a one-character needle, scanning from index [i]. *)
Fixpoint lastIndexOf_from (c : ascii) (s : string) (i : Z) (found : Z) : Z :=
  match s with
  | EmptyString => found
  | String a s' =>
      lastIndexOf_from c s' (i + 1) (if Ascii.eqb a c then i else found)
  end.

Definition lastIndexOf (s : string) (c : ascii) : Z :=
  lastIndexOf_from c s 0 (-1).

(** [s.includes(t)]. *)
Fixpoint includes (s t : string) : bool :=
  String.prefix t s ||
  match s with
  | EmptyString => false
  | String _ s' => includes s' t
  end.

Definition lower (a : ascii) : ascii :=
  let n := nat_of_ascii a in
  if ((65 <=? n) && (n <=? 90))%nat then ascii_of_nat (n + 32) else a.

Fixpoint toLowerCase (s : string) : string :=
  match s with
  | EmptyString => EmptyString
  | String a s' => String (lower a) (toLowerCase s')
  end.

(** [xs.join(sep)]. *)
Fixpoint join (sep : string) (xs : list string) : string :=
  match xs with
  | [] => ""
  | [x] => x
  | x :: xs' => x ++ sep ++ join sep xs'
  end.

Definition mem (x : string) (xs : list string) : bool :=
  existsb (String.eqb x) xs.

(** [[...new Set(xs)]]: the first occurrence of every element, in order. *)
Fixpoint dedupe_from (seen xs : list string) : list string :=
  match xs with
  | [] => []
  | x :: xs' =>
      if mem x seen then dedupe_from seen xs'
      else x :: dedupe_from (x :: seen) xs'
  end.

Definition dedupe (xs : list string) : list string := dedupe_from [] xs.

(** *** Values passed where a string is expected *)

Inductive arg : Type :=
| Undefined
| Null
| Str (s : string).

(** Truthiness: [undefined], [null] and the empty string are falsy. *)
Definition truthy (a : arg) : bool :=
  match a with
  | Str s => negb (String.eqb s "")
  | _ => false
  end.

(** Interpolation in a template string. *)
Definition to_string (a : arg) : string :=
  match a with
  | Undefined => "undefined"
  | Null => "null"
  | Str s => s
  end.

(** *** Array.prototype.sort *)

Section Sort.
Context {A : Type}.
Variable cmp : A -> A -> Z.

(** [cmp a b > 0] places [a] after [b].  The sort is stable: an element
    stays before the later elements that the comparator does not put
    before it. *)
Fixpoint insert (x : A) (l : list A) : list A :=
  match l with
  | [] => [x]
  | y :: l' => if 0 <? cmp x y then y :: insert x l' else x :: l
  end.

Definition sort (l : list A) : list A := fold_right insert [] l.

End Sort.

(** [xs.slice(0, n)]: a negative [n] counts from the end. *)
Definition slice0 {A : Type} (xs : list A) (n : Z) : list A :=
  if n <? 0 then firstn (Z.to_nat (Z.max (Z.of_nat (List.length xs) + n) 0)) xs
  else firstn (Z.to_nat n) xs.

(** *** Objects used as maps *)

Definition is_digit (a : ascii) : bool :=
  let n := nat_of_ascii a in ((48 <=? n) && (n <=? 57))%nat.

Fixpoint all_digits (s : string) : bool :=
  match s with
  | EmptyString => true
  | String a s' => is_digit a && all_digits s'
  end.

Fixpoint decimal_value (s : string) (acc : Z) : Z :=
  match s with
  | EmptyString => acc
  | String a s' => decimal_value s' (10 * acc + Z.of_nat (nat_of_ascii a - 48))
  end.

(** A property key that is an array index: a canonical numeric string of
    an integer below [2^32 - 1]. *)
Definition array_index (k : string) : option Z :=
  match k with
  | EmptyString => None
  | String a rest =>
      if all_digits k && (negb (Ascii.eqb a "0") || String.eqb rest "")
      then (let v := decimal_value k 0 in
            if v <? 4294967295 then Some v else None)
      else None
  end.

(** An object is the list of its own properties in the order in which
    [Object.keys], [Object.entries] and the spread syntax enumerate them:
    array-index keys in ascending order first, then the other keys in
    insertion order. *)
Definition obj (V : Type) : Type := list (string * V).

Fixpoint get {V : Type} (o : obj V) (k : string) : option V :=
  match o with
  | [] => None
  | (k', v) :: o' => if String.eqb k' k then Some v else get o' k
  end.

Definition has {V : Type} (o : obj V) (k : string) : bool :=
  match get o k with Some _ => true | None => false end.

(** An existing property keeps its place. *)
Fixpoint replace {V : Type} (o : obj V) (k : string) (v : V) : obj V :=
  match o with
  | [] => []
  | (k', v') :: o' =>
      if String.eqb k' k then (k', v) :: o' else (k', v') :: replace o' k v
  end.

(** A new property goes to its place in the enumeration order. *)
Fixpoint insert_key {V : Type} (o : obj V) (k : string) (v : V) : obj V :=
  match o with
  | [] => [(k, v)]
  | (k', v') :: o' =>
      match array_index k, array_index k' with
      | Some i, Some j =>
          if i <? j then (k, v) :: o else (k', v') :: insert_key o' k v
      | Some _, None => (k, v) :: o
      | None, _ => (k', v') :: insert_key o' k v
      end
  end.

(** [o[k] = v]. *)
Definition set {V : Type} (o : obj V) (k : string) (v : V) : obj V :=
  if has o k then replace o k v else insert_key o k v.

(** [{ ...a, ...b }]: a copy of [a] that receives the properties of [b]. *)
Definition spread {V : Type} (a b : obj V) : obj V :=
  fold_left (fun o kv => set o (fst kv) (snd kv)) b a.

Definition entries {V : Type} (o : obj V) : list (string * V) := o.

Definition keys {V : Type} (o : obj V) : list string := map fst o.

(** *** JSON.stringify on an array of strings *)

Definition hex_digit (n : nat) : ascii :=
  if (n <? 10)%nat then ascii_of_nat (48 + n) else ascii_of_nat (87 + n).

Definition dquote : ascii := ascii_of_nat 34.
Definition backslash : ascii := ascii_of_nat 92.

Definition escape (c : string) : string := String backslash c.

Definition json_char (a : ascii) : string :=
  let n := nat_of_ascii a in
  if (n =? 34)%nat then escape (String dquote "")
  else if (n =? 92)%nat then escape (String backslash "")
  else if (n =? 8)%nat then escape "b"
  else if (n =? 9)%nat then escape "t"
  else if (n =? 10)%nat then escape "n"
  else if (n =? 12)%nat then escape "f"
  else if (n =? 13)%nat then escape "r"
  else if (n <? 32)%nat
       then escape ("u00" ++ String (hex_digit (n / 16)) (String (hex_digit (n mod 16)) ""))
  else String a "".

Fixpoint json_chars (s : string) : string :=
  match s with
  | EmptyString => ""
  | String a s' => json_char a ++ json_chars s'
  end.

Definition json_string (s : string) : string :=
  String dquote (json_chars s ++ String dquote "").

Definition stringify (xs : list string) : string :=
  "[" ++ join "," (map json_string xs) ++ "]".

End JS.

(** [d.toISOString()]: the text that a time column holds. *)
Definition toISOString (ms : Z) : string :=
  let t := ms mod 86400000 in
  JS.iso_date ms ++ "T" ++ JS.pad 2 (JS.digits (t / 3600000)) ++ ":"
  ++ JS.pad 2 (JS.digits (t / 60000 mod 60)) ++ ":"
  ++ JS.pad 2 (JS.digits (t / 1000 mod 60)) ++ "."
  ++ JS.pad 3 (JS.digits (t mod 1000)) ++ "Z".

(** ** The storage layer ([utils/db.js]) *)

Module SQL.

(** [text LIKE pattern] as SQLite evaluates it: [%] matches any run of
    characters, [_] matches one character, and the letters A-Z match in
    either case.  There is no escape character. *)
Fixpoint like_chars (p : list ascii) (s : list ascii) {struct p} : bool :=
  match p with
  | [] => match s with [] => true | _ :: _ => false end
  | c :: p' =>
      if Ascii.eqb c "%" then
        (fix any (s : list ascii) : bool :=
           like_chars p' s || match s with [] => false | _ :: s' => any s' end) s
      else
        match s with
        | [] => false
        | d :: s' =>
            (Ascii.eqb c "_" || Ascii.eqb (JS.lower c) (JS.lower d))
            && like_chars p' s'
        end
  end.

(** SQLite reads both operands as C strings: up to the first character
    with code 0. *)
Fixpoint c_string (s : list ascii) : list ascii :=
  match s with
  | [] => []
  | a :: s' => if (nat_of_ascii a =? 0)%nat then [] else a :: c_string s'
  end.

Definition like (text pattern : string) : bool :=
  like_chars (c_string (list_ascii_of_string pattern))
    (c_string (list_ascii_of_string text)).

(** The length of a string in bytes. *)
Fixpoint utf8_length (s : string) : Z :=
  match s with
  | EmptyString => 0
  | String a s' => (if (nat_of_ascii a <? 128)%nat then 1 else 2) + utf8_length s'
  end.

(** A pattern of more than 50000 bytes makes [LIKE] fail on the first row
    that it is evaluated on. *)
Definition too_complex (pattern : string) : bool := 50000 <? utf8_length pattern.

(** A number bound to [LIMIT ?] has to be an integer of 64 bits; the
    driver binds an integer outside of 32 bits as a double, which SQLite
    converts back if it lies strictly between [-2^63] and [2^63]. *)
Definition bindable (n : Z) : bool := (- 2 ^ 63 <? n) && (n <? 2 ^ 63).

(** [LIMIT n] for a bindable [n]: a negative limit is no limit. *)
Definition limit {A : Type} (n : Z) (rows : list A) : list A :=
  if n <? 0 then rows else firstn (Z.to_nat n) rows.

(** The order of two texts as SQLite compares them (the collation
    [BINARY]): negative, zero or positive. *)
Definition text_compare (a b : string) : Z :=
  match String.compare a b with
  | Lt => -1
  | Eq => 0
  | Gt => 1
  end.

(** [ORDER BY k DESC] on a text column, rows with equal keys in rowid
    order. *)
Definition order_by_text_desc {A : Type} (k : A -> string) (rows : list A)
    : list A :=
  JS.sort (fun a b => text_compare (k b) (k a)) rows.

(** [ORDER BY k DESC] by the times that the column denotes, rows with equal
    keys in rowid order.  It stands for the order of the texts on the table
    of personas, whose rows are dated by the system clock. *)
Definition order_by_desc {A : Type} (k : A -> Z) (rows : list A) : list A :=
  JS.sort (fun a b => k b - k a) rows.

(** [INSERT OR REPLACE]: a row with the same primary key is deleted and
    the new row is added at the end. *)
Definition insert_or_replace {A : Type} (key : A -> string) (row : A)
    (rows : list A) : list A :=
  filter (fun r => negb (String.eqb (key r) (key row))) rows ++ [row].

(** A foreign key: [NULL], or the primary key of a row of the table that
    is referred to.  Foreign keys are enforced ([PRAGMA foreign_keys = ON]). *)
Definition references {A : Type} (key : A -> string) (id : option string)
    (rows : list A) : bool :=
  match id with
  | None => true
  | Some id => existsb (fun r => String.eqb (key r) id) rows
  end.

(** The messages of the errors that the driver reports. *)
Definition SQLITE_CONSTRAINT : string :=
  "SQLITE_CONSTRAINT: FOREIGN KEY constraint failed".
Definition SQLITE_MISMATCH : string := "SQLITE_MISMATCH: datatype mismatch".
Definition SQLITE_ERROR : string :=
  "SQLITE_ERROR: LIKE or GLOB pattern too complex".

End SQL.

(** The snapshot of a persona that a dreamstate update records. *)
Record PersonaState : Type := mkPersonaState {
  st_traits : JS.obj JS.number;
  st_values : JS.obj JS.number;
  st_preferences : JS.obj string;
  st_biography : string
}.

Module DB.

Record persona_row : Type := mkPersonaRow {
  p_persona_id : string;
  p_traits : JS.obj JS.number;
  p_values : JS.obj JS.number;
  p_preferences : JS.obj string;
  p_biography : string;
  p_last_updated : Z
}.

Record conversation_row : Type := mkConversationRow {
  c_conversation_id : string;
  c_start_time : Z;
  c_end_time : option Z;
  c_participants : list string;
  c_raw_text : string;
  c_context : string
}.

Record memory_row : Type := mkMemoryRow {
  memory_id : string;
  conversation_id : option string;
  summary : string;
  importance : Z;
  timestamp : Z;
  tags : list string
}.

Record update_row : Type := mkUpdateRow {
  u_update_id : string;
  u_persona_id : string;
  u_description : string;
  u_justification : string;
  u_previous_state : PersonaState;
  u_new_state : PersonaState;
  u_timestamp : Z
}.

End DB.

(** ** The world outside of the controller *)

Inductive exn : Type := Error (message : string).

Inductive level : Type := LOG | WARN | ERROR.

(** One call of [console.log], [console.warn] or [console.error]: the
    text, and the error object when one is passed after it. *)
Record line : Type := mkLine {
  lvl : level;
  text : string;
  thrown : option exn
}.

(** The four tables, the console, and the two sources of fresh values:
    the system clock ([new Date()]) and [uuidv4()].  The [k]-th reading of
    the clock is [clock k]; the [k]-th identifier drawn is [uuid k]. *)
Record World : Type := mkWorld {
  persona_table : list DB.persona_row;
  conversations : list DB.conversation_row;
  memories : list DB.memory_row;
  dreamstate_updates : list DB.update_row;
  console : list line;
  clock : nat -> Z;
  clock_reads : nat;
  uuid : nat -> string;
  uuid_draws : nat
}.

(** ** Computations that may throw *)

Inductive outcome (A : Type) : Type :=
| Return (a : A)
| Throw (e : exn).
Arguments Return {A} a.
Arguments Throw {A} e.

(** A computation over a state [S]; the state reached is kept when the
    computation throws. *)
Definition M (S A : Type) : Type := S -> outcome A * S.

Definition ret {S A : Type} (a : A) : M S A := fun s => (Return a, s).

Definition throw {S A : Type} (e : exn) : M S A := fun s => (Throw e, s).

Definition bind {S A B : Type} (m : M S A) (k : A -> M S B) : M S B :=
  fun s =>
    match m s with
    | (Return a, s') => k a s'
    | (Throw e, s') => (Throw e, s')
    end.

Definition gets {S A : Type} (f : S -> A) : M S A := fun s => (Return (f s), s).

Definition modify {S : Type} (f : S -> S) : M S unit := fun s => (Return tt, f s).

(** [try { m } catch (error) { h error }]. *)
Definition try_catch {S A : Type} (m : M S A) (h : exn -> M S A) : M S A :=
  fun s =>
    match m s with
    | (Return a, s') => (Return a, s')
    | (Throw e, s') => h e s'
    end.

Declare Scope js_scope.
Delimit Scope js_scope with js.
Notation "x <- c ;; k" := (bind c (fun x => k))
  (at level 61, c at next level, right associativity) : js_scope.
Notation "c ;; k" := (bind c (fun _ => k))
  (at level 61, right associativity) : js_scope.
Open Scope js_scope.

(** [new Date()]. *)
Definition now : M World Z :=
  fun w =>
    (Return (clock w (clock_reads w)),
     mkWorld (persona_table w) (conversations w) (memories w)
       (dreamstate_updates w) (console w) (clock w) (S (clock_reads w))
       (uuid w) (uuid_draws w)).

(** [uuidv4()]. *)
Definition uuidv4 : M World string :=
  fun w =>
    (Return (uuid w (uuid_draws w)),
     mkWorld (persona_table w) (conversations w) (memories w)
       (dreamstate_updates w) (console w) (clock w) (clock_reads w)
       (uuid w) (S (uuid_draws w))).

Definition console_emit (l : line) : M World unit :=
  modify (fun w =>
    mkWorld (persona_table w) (conversations w) (memories w)
      (dreamstate_updates w) (console w ++ [l]) (clock w)
      (clock_reads w) (uuid w) (uuid_draws w)).

Definition console_log (msg : string) : M World unit :=
  console_emit (mkLine LOG msg None).
Definition console_warn (msg : string) : M World unit :=
  console_emit (mkLine WARN msg None).
Definition console_error (msg : string) (e : exn) : M World unit :=
  console_emit (mkLine ERROR msg (Some e)).

Definition set_persona_table (f : list DB.persona_row -> list DB.persona_row)
    : M World unit :=
  modify (fun w =>
    mkWorld (f (persona_table w)) (conversations w) (memories w)
      (dreamstate_updates w) (console w) (clock w) (clock_reads w)
      (uuid w) (uuid_draws w)).

Definition set_conversations
    (f : list DB.conversation_row -> list DB.conversation_row) : M World unit :=
  modify (fun w =>
    mkWorld (persona_table w) (f (conversations w)) (memories w)
      (dreamstate_updates w) (console w) (clock w) (clock_reads w)
      (uuid w) (uuid_draws w)).

Definition set_memories (f : list DB.memory_row -> list DB.memory_row)
    : M World unit :=
  modify (fun w =>
    mkWorld (persona_table w) (conversations w) (f (memories w))
      (dreamstate_updates w) (console w) (clock w) (clock_reads w)
      (uuid w) (uuid_draws w)).

Definition set_dreamstate_updates
    (f : list DB.update_row -> list DB.update_row) : M World unit :=
  modify (fun w =>
    mkWorld (persona_table w) (conversations w) (memories w)
      (f (dreamstate_updates w)) (console w) (clock w) (clock_reads w)
      (uuid w) (uuid_draws w)).

(** [a || b] on an identifier that may be missing or empty. *)
Definition or_else {S : Type} (a : option string) (b : M S string) : M S string :=
  match a with
  | Some s => if String.eqb s "" then b else ret s
  | None => b
  end.

Fixpoint mapM {S A B : Type} (f : A -> M S B) (xs : list A) : M S (list B) :=
  match xs with
  | [] => ret []
  | x :: xs' => y <- f x ;; ys <- mapM f xs' ;; ret (y :: ys)
  end.

Definition nl : string := String (ascii_of_nat 10) "".

(** ** [models/Conversation.js] *)

Module Conversation.

Record message : Type := mkMessage {
  role : JS.arg;
  content : JS.arg;
  timestamp : Z
}.

Record t : Type := mk {
  conversationId : string;
  startTime : Z;
  endTime : option Z;
  participants : list string;
  rawText : string;
  context : string;
  messages : list message
}.

(** The constructor. *)
Definition new (conversationId : option string) (startTime endTime : option Z)
    (participants : list string) (rawText context : string) : M World t :=
  id <- or_else conversationId uuidv4 ;;
  st <- match startTime with Some d => ret d | None => now end ;;
  ret (mk id st endTime participants rawText context []).

Definition addMessage (role content : JS.arg) (this : t) : M World t :=
  d <- now ;;
  ret (mk (conversationId this) (startTime this) (endTime this)
         (participants this)
         (rawText this ++ JS.to_string role ++ ": " ++ JS.to_string content ++ nl)
         (context this)
         (messages this ++ [mkMessage role content d])%list).

Definition end_ (this : t) : M World t :=
  d <- now ;;
  ret (mk (conversationId this) (startTime this) (Some d) (participants this)
         (rawText this) (context this) (messages this)).

Definition to_row (this : t) : DB.conversation_row :=
  DB.mkConversationRow (conversationId this) (startTime this) (endTime this)
    (participants this) (rawText this) (context this).

Definition save (this : t) : M World t :=
  set_conversations (SQL.insert_or_replace DB.c_conversation_id (to_row this)) ;;
  ret this.

Definition getFullText (this : t) : string := rawText this.

(** The duration in minutes, [null] while the conversation is open. *)
Definition getDuration (this : t) : option Q :=
  match endTime this with
  | None => None
  | Some e =>
      let durationMs := JS.sub (inject_Z e) (inject_Z (startTime this)) in
      Some (JS.div durationMs (inject_Z (1000 * 60)))
  end.

(** A conversation read back from its row: the messages are not stored. *)
Definition of_row (row : DB.conversation_row) : M World t :=
  new (Some (DB.c_conversation_id row)) (Some (DB.c_start_time row))
    (DB.c_end_time row) (DB.c_participants row) (DB.c_raw_text row)
    (DB.c_context row).

Definition load (conversationId : string) : M World (option t) :=
  row <- gets (fun w =>
           find (fun r => String.eqb (DB.c_conversation_id r) conversationId)
             (conversations w)) ;;
  match row with
  | None => ret None
  | Some row => c <- of_row row ;; ret (Some c)
  end.

Definition getAll : M World (list t) :=
  rows <- gets (fun w =>
            SQL.order_by_text_desc (fun r => toISOString (DB.c_start_time r))
              (conversations w)) ;;
  mapM of_row rows.

Definition getRecent (limit : Z) : M World (list t) :=
  if negb (SQL.bindable limit) then throw (Error SQL.SQLITE_MISMATCH)
  else
    rows <- gets (fun w =>
              SQL.limit limit
                (SQL.order_by_text_desc
                   (fun r => toISOString (DB.c_start_time r))
                   (conversations w))) ;;
    mapM of_row rows.

End Conversation.

(** ** [models/Memory.js] *)

Module Memory.

Record t : Type := mk {
  memoryId : string;
  conversationId : option string;
  summary : string;
  importance : Z;
  timestamp : Z;
  tags : list string
}.


(** The constructor; [importance] defaults to 5 and is clamped to 1-10.
    The importance of a memory is an integer here, as it is in every memory
    that the program itself builds; on integers [clamp] is
    [Z.min (Z.max i 1) 10]. *)
Definition new (memoryId conversationId : option string) (summary : string)
    (importance : option Z) (timestamp : option Z) (tags : list string)
    : M World t :=
  id <- or_else memoryId uuidv4 ;;
  let imp := match importance with Some i => i | None => 5 end in
  ts <- match timestamp with Some d => ret d | None => now end ;;
  ret (mk id conversationId summary (Z.min (Z.max imp 1) 10) ts tags).

Definition to_row (this : t) : DB.memory_row :=
  DB.mkMemoryRow (memoryId this) (conversationId this) (summary this)
    (importance this) (timestamp this) (tags this).

(** The row refers to its conversation, which has to be stored. *)
Definition save (this : t) : M World t :=
  stored <- gets conversations ;;
  if SQL.references DB.c_conversation_id (conversationId this) stored
  then
    set_memories (SQL.insert_or_replace DB.memory_id (to_row this)) ;;
    ret this
  else throw (Error SQL.SQLITE_CONSTRAINT).

Definition of_row (row : DB.memory_row) : M World t :=
  new (Some (DB.memory_id row)) (DB.conversation_id row) (DB.summary row)
    (Some (DB.importance row)) (Some (DB.timestamp row)) (DB.tags row).

Definition getRecent (limit : Z) : M World (list t) :=
  if negb (SQL.bindable limit) then throw (Error SQL.SQLITE_MISMATCH)
  else
    rows <- gets (fun w =>
              SQL.limit limit
                (SQL.order_by_text_desc (fun r => toISOString (DB.timestamp r))
                   (memories w))) ;;
    mapM of_row rows.

(** The comparator that [searchByTags] sorts with: by importance, and by
    the times that the time stamps denote among equally important rows. *)
Definition by_importance_then_recency (a b : DB.memory_row) : Z :=
  if negb (DB.importance a =? DB.importance b)
  then DB.importance b - DB.importance a
  else DB.timestamp b - DB.timestamp a.

(** The comparator of [ORDER BY importance DESC, timestamp DESC]: by
    importance, and by the texts of the time stamps among equally important
    rows. *)
Definition by_importance_then_text (a b : DB.memory_row) : Z :=
  if negb (DB.importance a =? DB.importance b)
  then DB.importance b - DB.importance a
  else SQL.text_compare (toISOString (DB.timestamp b))
         (toISOString (DB.timestamp a)).

Definition getImportant (threshold limit : Z) : M World (list t) :=
  if negb (SQL.bindable limit) then throw (Error SQL.SQLITE_MISMATCH)
  else
    rows <- gets (fun w =>
              SQL.limit limit
                (JS.sort by_importance_then_text
                   (filter (fun r => threshold <=? DB.importance r) (memories w)))) ;;
    mapM of_row rows.

(** The rows whose serialized tags match [LIKE '%tag%']. *)
Definition rows_like (tag : string) (rows : list DB.memory_row)
    : list DB.memory_row :=
  filter (fun r => SQL.like (JS.stringify (DB.tags r)) ("%" ++ tag ++ "%")) rows.

(** The loop over [tagMatches] that keeps the first row of every id. *)
Fixpoint unique_rows (uniqueIds : list string) (rows : list DB.memory_row)
    : list DB.memory_row :=
  match rows with
  | [] => []
  | row :: rows' =>
      if JS.mem (DB.memory_id row) uniqueIds then unique_rows uniqueIds rows'
      else row :: unique_rows (DB.memory_id row :: uniqueIds) rows'
  end.

(** The rows that [searchByTags] turns into memories. *)
Definition search_rows (tags : list string) (limit : Z)
    (rows : list DB.memory_row) : list DB.memory_row :=
  let tagMatches := flat_map (fun tag => rows_like tag rows) tags in
  let uniqueMemories := unique_rows [] tagMatches in
  JS.slice0 (JS.sort by_importance_then_recency uniqueMemories) limit.

(** The first query whose pattern is too long fails, unless the table is
    empty. *)
Definition searchByTags (tags : list string) (limit : Z) : M World (list t) :=
  stored <- gets memories ;;
  if existsb (fun tag => SQL.too_complex ("%" ++ tag ++ "%")) tags
     && (0 <? List.length stored)%nat
  then throw (Error SQL.SQLITE_ERROR)
  else
    rows <- gets (fun w => search_rows tags limit (memories w)) ;;
    mapM of_row rows.


Definition addTags (newTags : list string) (this : t) : t :=
  mk (memoryId this) (conversationId this) (summary this) (importance this)
    (timestamp this)
    (fold_left (fun ts tag => if JS.mem tag ts then ts else (ts ++ [tag])%list)
       newTags (tags this)).

(** [load]: the row with the identifier, if there is one. *)
Definition load (memoryId : string) : M World (option t) :=
  row <- gets (fun w =>
           find (fun r => String.eqb (DB.memory_id r) memoryId) (memories w)) ;;
  match row with
  | None => ret None
  | Some row => m <- of_row row ;; ret (Some m)
  end.

Definition getByConversation (conversationId : string) : M World (list t) :=
  rows <- gets (fun w =>
            SQL.order_by_text_desc (fun r => toISOString (DB.timestamp r))
              (filter (fun r => match DB.conversation_id r with
                                | Some id => String.eqb id conversationId
                                | None => false
                                end)
                 (memories w))) ;;
  mapM of_row rows.

End Memory.

(** ** [models/Persona.js] *)

Module Persona.

Record t : Type := mk {
  personaId : string;
  traits : JS.obj JS.number;
  values : JS.obj JS.number;
  preferences : JS.obj string;
  biography : string;
  lastUpdated : Z
}.

(** The constructor; [lastUpdated] is the time of construction. *)
Definition new (personaId : option string) (traits values : JS.obj JS.number)
    (preferences : JS.obj string) (biography : string) : M World t :=
  id <- or_else personaId uuidv4 ;;
  d <- now ;;
  ret (mk id traits values preferences biography d).

Definition to_row (this : t) : DB.persona_row :=
  DB.mkPersonaRow (personaId this) (traits this) (values this)
    (preferences this) (biography this) (lastUpdated this).

Definition save (this : t) : M World t :=
  set_persona_table (SQL.insert_or_replace DB.p_persona_id (to_row this)) ;;
  ret this.

Definition of_row (row : DB.persona_row) : M World t :=
  new (Some (DB.p_persona_id row)) (DB.p_traits row) (DB.p_values row)
    (DB.p_preferences row) (DB.p_biography row).

Definition load (personaId : string) : M World (option t) :=
  row <- gets (fun w =>
           find (fun r => String.eqb (DB.p_persona_id r) personaId)
             (persona_table w)) ;;
  match row with
  | None => ret None
  | Some row => p <- of_row row ;; ret (Some p)
  end.

Definition loadMostRecent : M World (option t) :=
  rows <- gets (fun w =>
            SQL.limit 1 (SQL.order_by_desc DB.p_last_updated (persona_table w))) ;;
  match rows with
  | [] => ret None
  | row :: _ => p <- of_row row ;; ret (Some p)
  end.

Definition n (x : Q) : JS.number := JS.Num (JS.lit x).

Definition default_biography : string :=
  "I am Claude 3.7, an AI assistant designed to be helpful, harmless, and honest. I value clarity, accuracy, and providing useful information tailored to users' needs.".

Definition createDefault : M World t :=
  id <- uuidv4 ;;
  defaultPersona <-
    new (Some id)
      [("openness", n (7 # 10)); ("conscientiousness", n (8 # 10));
       ("extraversion", n (6 # 10)); ("agreeableness", n (75 # 100));
       ("neuroticism", n (4 # 10))]
      [("honesty", n (9 # 10)); ("helpfulness", n (85 # 100));
       ("knowledge", n (8 # 10)); ("efficiency", n (75 # 100))]
      [("communicationStyle", "clear and concise");
       ("responseFormat", "structured");
       ("interactionPreference", "friendly professional")]
      default_biography ;;
  save defaultPersona.

Definition ensureExists : M World t :=
  persona <- loadMostRecent ;;
  match persona with
  | None => createDefault
  | Some p => ret p
  end.

Definition updateTraits (newTraits : JS.obj JS.number) (this : t) : M World t :=
  d <- now ;;
  ret (mk (personaId this) (JS.spread (traits this) newTraits) (values this)
         (preferences this) (biography this) d).

Definition updateValues (newValues : JS.obj JS.number) (this : t) : M World t :=
  d <- now ;;
  ret (mk (personaId this) (traits this) (JS.spread (values this) newValues)
         (preferences this) (biography this) d).

Definition updatePreferences (newPreferences : JS.obj string) (this : t)
    : M World t :=
  d <- now ;;
  ret (mk (personaId this) (traits this) (values this)
         (JS.spread (preferences this) newPreferences) (biography this) d).

Definition updateBiography (newBiography : string) (this : t) : M World t :=
  d <- now ;;
  ret (mk (personaId this) (traits this) (values this) (preferences this)
         newBiography d).

Definition snapshot (this : t) : PersonaState :=
  mkPersonaState (JS.spread (traits this) []) (JS.spread (values this) [])
    (JS.spread (preferences this) []) (biography this).

End Persona.

(** ** [models/DreamstateUpdate.js] *)

Module DreamstateUpdate.

Record t : Type := mk {
  updateId : string;
  personaId : string;
  description : string;
  justification : string;
  previousState : PersonaState;
  newState : PersonaState;
  timestamp : Z
}.

Definition new (updateId : option string) (personaId description justification : string)
    (previousState newState : PersonaState) (timestamp : option Z) : M World t :=
  id <- or_else updateId uuidv4 ;;
  ts <- match timestamp with Some d => ret d | None => now end ;;
  ret (mk id personaId description justification previousState newState ts).

Definition to_row (this : t) : DB.update_row :=
  DB.mkUpdateRow (updateId this) (personaId this) (description this)
    (justification this) (previousState this) (newState this) (timestamp this).

(** The row refers to its persona, which has to be stored. *)
Definition save (this : t) : M World t :=
  stored <- gets persona_table ;;
  if SQL.references DB.p_persona_id (Some (personaId this)) stored
  then
    set_dreamstate_updates (SQL.insert_or_replace DB.u_update_id (to_row this)) ;;
    ret this
  else throw (Error SQL.SQLITE_CONSTRAINT).

Definition of_row (row : DB.update_row) : M World t :=
  new (Some (DB.u_update_id row)) (DB.u_persona_id row) (DB.u_description row)
    (DB.u_justification row) (DB.u_previous_state row) (DB.u_new_state row)
    (Some (DB.u_timestamp row)).

Definition load (updateId : string) : M World (option t) :=
  row <- gets (fun w =>
           find (fun r => String.eqb (DB.u_update_id r) updateId)
             (dreamstate_updates w)) ;;
  match row with
  | None => ret None
  | Some row => u <- of_row row ;; ret (Some u)
  end.

Definition getByPersona (personaId : string) (limit : Z) : M World (list t) :=
  if negb (SQL.bindable limit) then throw (Error SQL.SQLITE_MISMATCH)
  else
    rows <- gets (fun w =>
              SQL.limit limit
                (SQL.order_by_text_desc
                   (fun r => toISOString (DB.u_timestamp r))
                   (filter (fun r => String.eqb (DB.u_persona_id r) personaId)
                      (dreamstate_updates w)))) ;;
    mapM of_row rows.

Definition getRecent (limit : Z) : M World (list t) :=
  if negb (SQL.bindable limit) then throw (Error SQL.SQLITE_MISMATCH)
  else
    rows <- gets (fun w =>
              SQL.limit limit
                (SQL.order_by_text_desc
                   (fun r => toISOString (DB.u_timestamp r))
                   (dreamstate_updates w))) ;;
    mapM of_row rows.

(** One entry of a diff: the previous value ([undefined] for a new key)
    and the new value. *)
Record change (V : Type) : Type := mkChange {
  previous : option V;
  new_ : V
}.
Arguments mkChange {V} previous new_.

Record diff : Type := mkDiff {
  d_traits : JS.obj (change JS.number);
  d_values : JS.obj (change JS.number);
  d_preferences : JS.obj (change string);
  d_biography : option (string * string)
}.

(** [previous[k] !== new[k]]. *)
Definition differs {V : Type} (sne : V -> V -> bool) (p : option V) (v : V) : bool :=
  match p with
  | Some u => sne u v
  | None => true
  end.

(** The loop over [Object.keys(new)] that fills one part of the diff. *)
Definition diff_obj {V : Type} (sne : V -> V -> bool) (prev new : JS.obj V)
    : JS.obj (change V) :=
  fold_left
    (fun d kv =>
       if differs sne (JS.get prev (fst kv)) (snd kv)
       then JS.set d (fst kv) (mkChange (JS.get prev (fst kv)) (snd kv))
       else d)
    (JS.entries new) [].

Definition getDiff (this : t) : diff :=
  let p := previousState this in
  let q := newState this in
  mkDiff
    (diff_obj JS.number_sne (st_traits p) (st_traits q))
    (diff_obj JS.number_sne (st_values p) (st_values q))
    (diff_obj (fun a b => negb (String.eqb a b)) (st_preferences p) (st_preferences q))
    (if negb (String.eqb (st_biography p) (st_biography q))
     then Some (st_biography p, st_biography q) else None).

End DreamstateUpdate.

(** ** [services/MemoryProcessor.js] *)

Module MemoryProcessor.

Record options : Type := mkOptions {
  maxLength : option Z
}.

Definition no_options : options := mkOptions None.

(** [if (duration)]: a duration that is [null] or zero is falsy. *)
Definition truthy_duration (duration : option Q) : bool :=
  match duration with
  | Some d => negb (Qeq_bool d 0)
  | None => false
  end.

Definition generateSummary (conversation : Conversation.t) (opts : options)
    : string :=
  let maxLength := match maxLength opts with Some m => m | None => 500 end in
  let fullText := Conversation.getFullText conversation in
  let len := Z.of_nat (String.length fullText) in
  if 0 <? len then
    let textForSummary := JS.substring0 fullText (Z.min maxLength len) in
    if Z.of_nat (String.length textForSummary) <? len
    then JS.substring0 textForSummary (JS.lastIndexOf textForSummary " ") ++ "..."
    else textForSummary
  else
    let participantsStr := JS.join ", " (Conversation.participants conversation) in
    let duration := Conversation.getDuration conversation in
    let summary := "Conversation with " ++ participantsStr in
    match duration with
    | Some d =>
        if truthy_duration duration
        then summary ++ " lasting " ++ JS.toFixed1 d ++ " minutes"
        else summary
    | None => summary
    end.

Definition calculateImportance (conversation : Conversation.t)
    (summary : string) (opts : options) : Z :=
  let importance := 5 in
  let duration := Conversation.getDuration conversation in
  let importance :=
    match duration with
    | Some d =>
        if truthy_duration duration
        then importance + Z.min 2 (JS.floor (JS.div d 10))
        else importance
    | None => importance
    end in
  let importance :=
    if 2 <? Z.of_nat (List.length (Conversation.participants conversation))
    then importance + 1 else importance in
  let textLength := Z.of_nat (String.length (Conversation.rawText conversation)) in
  let importance := if 1000 <? textLength then importance + 1 else importance in
  Z.min (Z.max importance 1) 10.

Definition commonKeywords : list string :=
  ["help"; "question"; "problem"; "solution"; "error"; "fix"; "learn";
   "code"; "program"; "software"; "data"; "api"; "file"; "system";
   "request"; "information"; "explain"; "understand"; "create"; "build"].

Definition generateTags (conversation : Conversation.t) (summary : string)
    (opts : options) : list string :=
  let dateStr := JS.iso_date (Conversation.startTime conversation) in
  let summaryLower := JS.toLowerCase summary in
  let tags :=
    (Conversation.participants conversation ++ [dateStr]
     ++ filter (fun keyword => JS.includes summaryLower keyword) commonKeywords)%list in
  JS.dedupe tags.

Definition processConversation (conversation : option Conversation.t)
    (opts : options) : M World Memory.t :=
  match conversation with
  | None => throw (Error "Conversation cannot be null")
  | Some c =>
      let summary := generateSummary c opts in
      let importance := calculateImportance c summary opts in
      let tags := generateTags c summary opts in
      d <- now ;;
      memory <- Memory.new None (Some (Conversation.conversationId c)) summary
                  (Some importance) (Some d) tags ;;
      Memory.save memory
  end.

End MemoryProcessor.

(** ** [services/PersonaEvolver.js] *)

Module PersonaEvolver.

(** The options object that [sleep] receives and hands on. *)
Record options : Type := mkOptions {
  recentMemoriesLimit : option Z
}.

Definition no_options : options := mkOptions None.

Record changes : Type := mkChanges {
  description : string;
  justification : string;
  traits : JS.obj JS.number;
  values : JS.obj JS.number;
  preferences : JS.obj string;
  biography : option string
}.

(** [tagCounts[tag] = (tagCounts[tag] || 0) + 1] over all tags of all
    memories. *)
Definition countTags (memories : list Memory.t) : JS.obj Z :=
  fold_left
    (fun tagCounts memory =>
       fold_left
         (fun tagCounts tag =>
            JS.set tagCounts tag
              (match JS.get tagCounts tag with Some c => c | None => 0 end + 1))
         (Memory.tags memory) tagCounts)
    memories [].

Definition identifyPersonaChanges (persona : Persona.t)
    (memories : list Memory.t) (opts : options) : changes :=
  match memories with
  | [] =>
      mkChanges "No changes made due to lack of new experiences"
        "No recent memories to process" [] [] [] None
  | _ :: _ =>
      let highImportanceMemories :=
        filter (fun memory => 8 <=? Memory.importance memory) memories in
      let significantExperience :=
        (0 <? List.length highImportanceMemories)%nat in
      let tagCounts := countTags memories in
      let sortedTags :=
        map fst
          (JS.slice0 (JS.sort (fun a b => snd b - snd a) (JS.entries tagCounts)) 3) in
      let justification :=
        "Based on " ++ JS.digits (Z.of_nat (List.length memories))
        ++ " recent memories" in
      let justification :=
        if (0 <? List.length highImportanceMemories)%nat
        then justification ++ ", including "
             ++ JS.digits (Z.of_nat (List.length highImportanceMemories))
             ++ " high-importance experiences"
        else justification in
      let conscientiousness := JS.get (Persona.traits persona) "conscientiousness" in
      let neuroticism := JS.get (Persona.traits persona) "neuroticism" in
      let agreeableness := JS.get (Persona.traits persona) "agreeableness" in
      let helpfulness := JS.get (Persona.values persona) "helpfulness" in
      let traits : JS.obj JS.number := [] in
      let values : JS.obj JS.number := [] in
      let traits :=
        if significantExperience
           && JS.number_lt_opt conscientiousness (JS.lit (9 # 10))
        then JS.set traits "conscientiousness"
               (JS.number_min (JS.lit 1)
                  (JS.number_add_opt conscientiousness (JS.lit (5 # 100))))
        else traits in
      let traits :=
        if (JS.mem "error" sortedTags || JS.mem "problem" sortedTags)
           && JS.number_lt_opt neuroticism (JS.lit (8 # 10))
        then JS.set traits "neuroticism"
               (JS.number_min (JS.lit (8 # 10))
                  (JS.number_add_opt neuroticism (JS.lit (3 # 100))))
        else traits in
      let agree :=
        (JS.mem "solution" sortedTags || JS.mem "help" sortedTags)
        && JS.number_lt_opt agreeableness (JS.lit (95 # 100)) in
      let traits :=
        if agree
        then JS.set traits "agreeableness"
               (JS.number_min (JS.lit (95 # 100))
                  (JS.number_add_opt agreeableness (JS.lit (2 # 100))))
        else traits in
      let values :=
        if agree
        then JS.set values "helpfulness"
               (JS.number_min (JS.lit 1)
                  (JS.number_add_opt helpfulness (JS.lit (1 # 100))))
        else values in
      let biography :=
        match highImportanceMemories with
        | mostImportantMemory :: _ =>
            Some (Persona.biography persona ++ " Recently, I "
                  ++ JS.toLowerCase (Memory.summary mostImportantMemory))
        | [] => None
        end in
      mkChanges "Persona evolved based on recent experiences" justification
        traits values [] biography
  end.

(** [a || b] on strings. *)
Definition str_or (a b : string) : string :=
  if String.eqb a "" then b else a.

(** The persona object is changed in place; the changed persona is
    returned next to the update. *)
Definition evolveDreamstate (persona : option Persona.t)
    (recentMemories : list Memory.t) (opts : options)
    : M World (DreamstateUpdate.t * Persona.t) :=
  match persona with
  | None => throw (Error "Persona cannot be null")
  | Some persona =>
      let previousState := Persona.snapshot persona in
      let changes := identifyPersonaChanges persona recentMemories opts in
      persona <- Persona.updateTraits (traits changes) persona ;;
      persona <- Persona.updateValues (values changes) persona ;;
      persona <- Persona.updatePreferences (preferences changes) persona ;;
      persona <- match biography changes with
                 | Some b =>
                     if String.eqb b "" then ret persona
                     else Persona.updateBiography b persona
                 | None => ret persona
                 end ;;
      Persona.save persona ;;
      let newState := Persona.snapshot persona in
      update <- DreamstateUpdate.new None (Persona.personaId persona)
                  (str_or (description changes)
                     "Persona evolved based on recent experiences")
                  (str_or (justification changes)
                     "Automatic evolution from dreamstate processing")
                  previousState newState None ;;
      update <- DreamstateUpdate.save update ;;
      ret (update, persona)
  end.

End PersonaEvolver.

(** ** [services/AwakeningService.js] *)

Module AwakeningService.

Record options : Type := mkOptions {
  recentMemoriesLimit : option Z;
  importantMemoriesThreshold : option Z;
  importantMemoriesLimit : option Z;
  recentUpdatesLimit : option Z
}.

Definition no_options : options := mkOptions None None None None.

Definition override (a b : option Z) : option Z :=
  match b with Some _ => b | None => a end.

(** [{ ...a, ...b }] on option objects. *)
Definition merge (a b : options) : options :=
  mkOptions
    (override (recentMemoriesLimit a) (recentMemoriesLimit b))
    (override (importantMemoriesThreshold a) (importantMemoriesThreshold b))
    (override (importantMemoriesLimit a) (importantMemoriesLimit b))
    (override (recentUpdatesLimit a) (recentUpdatesLimit b)).

Definition default (d : Z) (o : option Z) : Z :=
  match o with Some v => v | None => d end.

Record persona_view : Type := mkPersonaView {
  pv_id : string;
  pv_traits : JS.obj JS.number;
  pv_values : JS.obj JS.number;
  pv_preferences : JS.obj string;
  pv_biography : string
}.

Record memory_view : Type := mkMemoryView {
  mv_id : string;
  mv_summary : string;
  mv_importance : Z;
  mv_when : Z;
  mv_tags : list string
}.

Record update_view : Type := mkUpdateView {
  uv_when : Z;
  uv_description : string;
  uv_justification : string;
  uv_changes : DreamstateUpdate.diff
}.

Record context : Type := mkContext {
  persona : persona_view;
  recentMemories : list memory_view;
  importantMemories : list memory_view;
  recentUpdates : list update_view;
  awakeningTime : Z
}.

Definition view_memory (memory : Memory.t) : memory_view :=
  mkMemoryView (Memory.memoryId memory) (Memory.summary memory)
    (Memory.importance memory) (Memory.timestamp memory) (Memory.tags memory).

Definition view_update (update : DreamstateUpdate.t) : update_view :=
  mkUpdateView (DreamstateUpdate.timestamp update)
    (DreamstateUpdate.description update)
    (DreamstateUpdate.justification update)
    (DreamstateUpdate.getDiff update).

Definition awaken (opts : options) : M World context :=
  let recentMemoriesLimit := default 5 (recentMemoriesLimit opts) in
  let importantMemoriesThreshold := default 8 (importantMemoriesThreshold opts) in
  let importantMemoriesLimit := default 5 (importantMemoriesLimit opts) in
  let recentUpdatesLimit := default 3 (recentUpdatesLimit opts) in
  persona <- Persona.ensureExists ;;
  recentMemories <- Memory.getRecent recentMemoriesLimit ;;
  importantMemories <-
    Memory.getImportant importantMemoriesThreshold importantMemoriesLimit ;;
  recentUpdates <-
    DreamstateUpdate.getByPersona (Persona.personaId persona) recentUpdatesLimit ;;
  let formattedUpdates := map view_update recentUpdates in
  d <- now ;;
  ret (mkContext
         (mkPersonaView (Persona.personaId persona) (Persona.traits persona)
            (Persona.values persona) (Persona.preferences persona)
            (Persona.biography persona))
         (map view_memory recentMemories)
         (map view_memory importantMemories)
         formattedUpdates d).

Record search_options : Type := mkSearchOptions {
  limit : option Z
}.

(** The text of [query] is not looked at. *)
Definition searchRelevantMemories (query : string) (tags : list string)
    (opts : search_options) : M World (list Memory.t) :=
  let limit := default 5 (limit opts) in
  if (0 <? List.length tags)%nat
  then Memory.searchByTags tags limit
  else Memory.getRecent limit.

End AwakeningService.

(** ** [core/LTMSQL.js]: the lifecycle controller *)

Module LTMSQL.

Record t : Type := mk {
  options : AwakeningService.options;
  persona : option Persona.t;
  currentConversation : option Conversation.t;
  awakeningContext : option AwakeningService.context;
  isAwake : bool
}.

(** The constructor. *)
Definition new (opts : AwakeningService.options) : t :=
  mk (AwakeningService.merge
        (AwakeningService.mkOptions (Some 5) (Some 8) (Some 5) None) opts)
     None None None false.

(** The controller object together with the world it acts on. *)
Definition Sys : Type := t * World.

Definition liftW {A : Type} (m : M World A) : M Sys A :=
  fun s =>
    match m (snd s) with
    | (r, w) => (r, (fst s, w))
    end.

Definition this {A : Type} (f : t -> A) : M Sys A :=
  gets (fun s => f (fst s)).

Definition set_persona (p : option Persona.t) : M Sys unit :=
  modify (fun s : Sys =>
    let c := fst s in
    (mk (options c) p (currentConversation c)
       (awakeningContext c) (isAwake c), snd s)).

Definition set_currentConversation (cv : option Conversation.t) : M Sys unit :=
  modify (fun s : Sys =>
    let c := fst s in
    (mk (options c) (persona c) cv
       (awakeningContext c) (isAwake c), snd s)).

Definition set_awakeningContext (x : option AwakeningService.context)
    : M Sys unit :=
  modify (fun s : Sys =>
    let c := fst s in
    (mk (options c) (persona c)
       (currentConversation c) x (isAwake c), snd s)).

Definition set_isAwake (b : bool) : M Sys unit :=
  modify (fun s : Sys =>
    let c := fst s in
    (mk (options c) (persona c)
       (currentConversation c) (awakeningContext c) b, snd s)).

Definition initialize : M Sys unit :=
  p <- liftW Persona.ensureExists ;;
  set_persona (Some p) ;;
  liftW (console_log ("Initialized with persona ID: " ++ Persona.personaId p)).

Definition endConversation (opts : MemoryProcessor.options)
    : M Sys (option Memory.t) :=
  cur <- this currentConversation ;;
  match cur with
  | None =>
      liftW (console_warn "No active conversation to end") ;;
      ret None
  | Some c =>
      c <- liftW (Conversation.end_ c) ;;
      set_currentConversation (Some c) ;;
      liftW (Conversation.save c) ;;
      liftW (console_log
               ("Ended conversation ID: " ++ Conversation.conversationId c)) ;;
      memory <- liftW (MemoryProcessor.processConversation (Some c) opts) ;;
      liftW (console_log
               ("Created memory ID: " ++ Memory.memoryId memory
                ++ " from conversation")) ;;
      set_currentConversation None ;;
      ret (Some memory)
  end.

Definition startConversation (participants : list string) (context : string)
    : M Sys Conversation.t :=
  cur <- this currentConversation ;;
  match cur with
  | Some _ =>
      liftW (console_warn "Ending existing conversation before starting a new one") ;;
      endConversation MemoryProcessor.no_options ;;
      ret tt
  | None => ret tt
  end ;;
  d <- liftW now ;;
  c <- liftW (Conversation.new None (Some d) None participants "" context) ;;
  set_currentConversation (Some c) ;;
  liftW (Conversation.save c) ;;
  liftW (console_log
           ("Started conversation ID: " ++ Conversation.conversationId c)) ;;
  ret c.

(** [startConversation] up to the point where it has to wait: with a
    conversation open, that is inside [endConversation], when the ended
    conversation is being saved; without one, it is when the new
    conversation is being saved.  What follows in [startConversation] runs
    after the caller has gone on. *)
Definition startConversation_begin (participants : list string)
    (context : string) : M Sys unit :=
  cur <- this currentConversation ;;
  match cur with
  | Some c =>
      liftW (console_warn "Ending existing conversation before starting a new one") ;;
      c <- liftW (Conversation.end_ c) ;;
      set_currentConversation (Some c) ;;
      liftW (Conversation.save c) ;;
      ret tt
  | None =>
      d <- liftW now ;;
      c <- liftW (Conversation.new None (Some d) None participants "" context) ;;
      set_currentConversation (Some c) ;;
      liftW (Conversation.save c) ;;
      ret tt
  end.

(** The source calls [startConversation] and does not await it: [awaken]
    logs its last line and returns as soon as that call has to wait. *)
Definition awaken (opts : AwakeningService.options)
    : M Sys (option AwakeningService.context) :=
  awake <- this isAwake ;;
  if awake then
    liftW (console_warn "System is already awake") ;;
    this awakeningContext
  else
    base <- this options ;;
    let awakeningOptions := AwakeningService.merge base opts in
    ctx <- liftW (AwakeningService.awaken awakeningOptions) ;;
    set_awakeningContext (Some ctx) ;;
    set_isAwake true ;;
    startConversation_begin ["user"; "claude"] "" ;;
    liftW (console_log "System awakened successfully") ;;
    this awakeningContext.

Definition addMessage (role content : JS.arg) : M Sys Conversation.t :=
  cur <- this currentConversation ;;
  match cur with
  | None => throw (Error "No active conversation. Call startConversation() first")
  | Some c =>
      c <- liftW (Conversation.addMessage role content c) ;;
      set_currentConversation (Some c) ;;
      liftW (Conversation.save c) ;;
      ret c
  end.

(** [options.recentMemoriesLimit || 10]. *)
Definition sleep_limit (opts : PersonaEvolver.options) : Z :=
  match PersonaEvolver.recentMemoriesLimit opts with
  | Some l => if l =? 0 then 10 else l
  | None => 10
  end.

(** What [sleep] does once no conversation is open. *)
Definition dreamstate (opts : PersonaEvolver.options)
    : M Sys (option DreamstateUpdate.t) :=
  recentMemories <- liftW (Memory.getRecent (sleep_limit opts)) ;;
  p <- this persona ;;
  r <- liftW (PersonaEvolver.evolveDreamstate p recentMemories opts) ;;
  let dreamstateUpdate := fst r in
  set_persona (Some (snd r)) ;;
  set_awakeningContext None ;;
  set_isAwake false ;;
  liftW (console_log "System entered sleep state") ;;
  liftW (console_log
           ("Created dreamstate update ID: "
            ++ DreamstateUpdate.updateId dreamstateUpdate)) ;;
  ret (Some dreamstateUpdate).

Definition sleep (opts : PersonaEvolver.options)
    : M Sys (option DreamstateUpdate.t) :=
  awake <- this isAwake ;;
  if negb awake then
    liftW (console_warn "System is already asleep") ;;
    ret None
  else
    cur <- this currentConversation ;;
    match cur with
    | Some _ => endConversation MemoryProcessor.no_options ;; ret tt
    | None => ret tt
    end ;;
    dreamstate opts.

Definition searchMemories (query : string) (tags : list string)
    (opts : AwakeningService.search_options) : M Sys (list Memory.t) :=
  liftW (AwakeningService.searchRelevantMemories query tags opts).

(** [this.persona || await Persona.loadMostRecent()]. *)
Definition getPersona : M Sys (option Persona.t) :=
  p <- this persona ;;
  match p with
  | Some p => ret (Some p)
  | None => liftW Persona.loadMostRecent
  end.

Definition getRecentMemories (limit : Z) : M Sys (list Memory.t) :=
  liftW (Memory.getRecent limit).

Definition getImportantMemories (threshold limit : Z) : M Sys (list Memory.t) :=
  liftW (Memory.getImportant threshold limit).

Definition getRecentUpdates (limit : Z) : M Sys (list DreamstateUpdate.t) :=
  liftW (DreamstateUpdate.getRecent limit).

Record status : Type := mkStatus {
  s_isAwake : bool;
  s_hasActiveConversation : bool;
  s_personaId : option string;
  s_conversationId : option string;
  s_lastUpdated : Z
}.

Definition getStatus : M Sys status :=
  c <- this (fun c => c) ;;
  d <- liftW now ;;
  ret (mkStatus (isAwake c)
         (match currentConversation c with Some _ => true | None => false end)
         (option_map Persona.personaId (persona c))
         (option_map Conversation.conversationId (currentConversation c))
         d).

End LTMSQL.

(** ** [mcp/server.js]: the tool that records a message *)

Module LTMClineServer.

Record record_args : Type := mkArgs {
  role : JS.arg;
  content : JS.arg
}.

Inductive response : Type :=
| Recorded (conversationId : string) (messageCount : nat)
| IsError (error : string).

(** The handler of [ltm_record_message], with the [try]/[catch] of the
    request handler around it. *)
Definition ltm_record_message (args : record_args) : M LTMSQL.Sys response :=
  try_catch
    (if negb (JS.truthy (role args)) || negb (JS.truthy (content args))
     then throw (Error "Both role and content are required")
     else
       awake <- LTMSQL.this LTMSQL.isAwake ;;
       if negb awake then throw (Error "System must be awakened first")
       else
         cur <- LTMSQL.this LTMSQL.currentConversation ;;
         match cur with
         | None =>
             LTMSQL.liftW
               (console_log "No active conversation found, starting a new one") ;;
             LTMSQL.startConversation ["user"; "claude"] "" ;;
             ret tt
         | Some _ => ret tt
         end ;;
         conversation <- LTMSQL.addMessage (role args) (content args) ;;
         ret (Recorded (Conversation.conversationId conversation)
                (List.length (Conversation.messages conversation))))
    (fun error =>
       LTMSQL.liftW
         (console_error "Error executing tool ltm_record_message:" error) ;;
       ret (IsError match error with Error message => message end)).

End LTMClineServer.

(** * Specification-side definitions *)

(** The importance as the specification words it: 5, plus
    [min(2, floor(durationMinutes / 10))] when a duration is known, plus 1
    for more than two participants, plus 1 for more than 1000 characters of
    raw text, clamped to 1-10. *)
Definition importance_formula (c : Conversation.t) : Z :=
  let by_duration :=
    match Conversation.getDuration c with
    | Some durationMinutes => Z.min 2 (JS.floor (JS.div durationMinutes 10))
    | None => 0
    end in
  let by_participants :=
    if 2 <? Z.of_nat (List.length (Conversation.participants c)) then 1 else 0 in
  let by_length :=
    if 1000 <? Z.of_nat (String.length (Conversation.rawText c)) then 1 else 0 in
  Z.min (Z.max (5 + by_duration + by_participants + by_length) 1) 10.


(** The conversation that a memory refers to, if any, is stored. *)
Definition conversation_known (id : option string) (w : World) : Prop :=
  SQL.references DB.c_conversation_id id (conversations w) = true.

(** A tag of at most 16000 characters: its pattern stays within the 50000
    bytes that [LIKE] accepts, also if every character takes three bytes. *)
Definition short_tag (tag : string) : Prop :=
  Z.of_nat (String.length tag) <= 16000.

(** The persona that an update refers to is stored. *)
Definition persona_known (id : string) (w : World) : Prop :=
  SQL.references DB.p_persona_id (Some id) (persona_table w) = true.

(** The world once the conversation has been saved. *)
Definition with_conversation (c : Conversation.t) (w : World) : World :=
  snd (Conversation.save c w).

(** A number that can be bound to [LIMIT ?]. *)
Definition bindable (n : Z) : Prop := SQL.bindable n = true.

(** A conversation that is still open, or that ended no earlier than it
    started. *)
Definition ended_in_order (c : Conversation.t) : Prop :=
  match Conversation.endTime c with
  | Some e => Conversation.startTime c <= e
  | None => True
  end.

(** ** Concrete inputs *)

(** A world with empty tables, a clock that shows [1000 k] at its [k]-th
    reading and the identifiers [id-0], [id-1], ... *)
Definition w0 : World :=
  mkWorld [] [] [] [] []
    (fun k => 1000 * Z.of_nat k) 0
    (fun k => "id-" ++ JS.digits (Z.of_nat k)) 0.

(** Two messages over twelve minutes. *)
Definition c12 : Conversation.t :=
  Conversation.mk "c-12" 0 (Some 720000) ["user"; "claude"]
    ("user: hello" ++ nl ++ "claude: hi" ++ nl) ""
    [Conversation.mkMessage (JS.Str "user") (JS.Str "hello") 1;
     Conversation.mkMessage (JS.Str "claude") (JS.Str "hi") 2].

(** A conversation whose end time lies twenty minutes before its start. *)
Definition c_backwards : Conversation.t :=
  Conversation.mk "c-b" 1200000 (Some 0) ["user"; "claude"]
    ("user: hello" ++ nl) ""
    [Conversation.mkMessage (JS.Str "user") (JS.Str "hello") 1200001].

(** The characters that JavaScript counts as white space, among the
    first 128: tab, line feed, vertical tab, form feed, carriage return
    and space. *)
Definition is_whitespace (a : ascii) : bool :=
  let n := nat_of_ascii a in
  ((9 <=? n) && (n <=? 13) || (n =? 32))%nat.

Fixpoint last_whitespace_from (s : string) (i : Z) (found : Z) : Z :=
  match s with
  | EmptyString => found
  | String a s' =>
      last_whitespace_from s' (i + 1) (if is_whitespace a then i else found)
  end.

(** The summary of a transcript longer than [maxLength] as the
    specification words it: the transcript up to the last white space
    before position [maxLength], and an ellipsis. *)
Definition summary_at_whitespace (transcript : string) (maxLength : Z) : string :=
  let head := JS.substring0 transcript maxLength in
  JS.substring0 head (last_whitespace_from head 0 (-1)) ++ "...".

(** The transcript of [c12], cut in the middle of the second speaker. *)
Definition cut_at_14 : MemoryProcessor.options := MemoryProcessor.mkOptions (Some 14).

Definition chars (s : string) : list ascii := list_ascii_of_string s.

(** The first [n] characters. *)
Definition take (n : Z) (s : string) : string :=
  String.substring 0 (Z.to_nat n) s.

(** The world after one more line on the console. *)
Definition printed (l : line) (w : World) : World :=
  mkWorld (persona_table w) (conversations w) (memories w)
    (dreamstate_updates w) (console w ++ [l]) (clock w)
    (clock_reads w) (uuid w) (uuid_draws w).

Definition warned (msg : string) : World -> World :=
  printed (mkLine WARN msg None).

Definition logged (msg : string) : World -> World :=
  printed (mkLine LOG msg None).

(** The persona that [createDefault] builds, with the identifier [p-0]. *)
Definition default_persona : Persona.t :=
  Persona.mk "p-0"
    [("openness", Persona.n (7 # 10)); ("conscientiousness", Persona.n (8 # 10));
     ("extraversion", Persona.n (6 # 10)); ("agreeableness", Persona.n (75 # 100));
     ("neuroticism", Persona.n (4 # 10))]
    [("honesty", Persona.n (9 # 10)); ("helpfulness", Persona.n (85 # 100));
     ("knowledge", Persona.n (8 # 10)); ("efficiency", Persona.n (75 # 100))]
    [("communicationStyle", "clear and concise");
     ("responseFormat", "structured");
     ("interactionPreference", "friendly professional")]
    Persona.default_biography 0.

(** An open conversation with one message. *)
Definition c_open : Conversation.t :=
  Conversation.mk "c-1" 0 None ["user"; "claude"] ("user: hello" ++ nl) ""
    [Conversation.mkMessage (JS.Str "user") (JS.Str "hello") 1].

(** An awake controller with [c_open] as its conversation; no awakening
    context is needed for what follows. *)
Definition ltm_open : LTMSQL.t :=
  LTMSQL.mk (LTMSQL.options (LTMSQL.new AwakeningService.no_options))
    (Some default_persona) (Some c_open) None true.

(** A computation leaves the part [f] of the state alone, however it
    ends. *)
Definition preserves {S A X : Type} (f : S -> X) (m : M S A) : Prop :=
  forall s : S, f (snd (m s)) = f s.

(** A computation returns from every state. *)
Definition returns {S A : Type} (m : M S A) : Prop :=
  forall s : S, exists (a : A) (s' : S), m s = (Return a, s').

(** The order that the comparator of [searchByTags] describes: more
    important first, and the more recent first among equally important
    rows. *)
Definition before (a b : DB.memory_row) : Prop :=
  DB.importance b < DB.importance a
  \/ (DB.importance a = DB.importance b /\ DB.timestamp b <= DB.timestamp a).

(** A table with one memory whose only tag is [decode]. *)
Definition w_decode : World :=
  mkWorld [] []
    [DB.mkMemoryRow "m-1" (Some "c-1") "decode the message" 5 1000 ["decode"]]
    [] [] (clock w0) 0 (uuid w0) 0.

(** The memory object that a row with an identifier is read back as. *)
Definition memory_of_row (r : DB.memory_row) : Memory.t :=
  Memory.mk (DB.memory_id r) (DB.conversation_id r) (DB.summary r)
    (Z.min (Z.max (DB.importance r) 1) 10) (DB.timestamp r) (DB.tags r).

(** Rows as [Memory.save] writes them: with an identifier, and with an
    importance between 1 and 10. *)
Definition saved_row (r : DB.memory_row) : Prop :=
  DB.memory_id r <> "" /\ 1 <= DB.importance r <= 10.

(** The order [before] on memory objects. *)
Definition memory_before (a b : Memory.t) : Prop :=
  Memory.importance b < Memory.importance a
  \/ (Memory.importance a = Memory.importance b
      /\ Memory.timestamp b <= Memory.timestamp a).

(** The conversation once [end()] has set its end time. *)
Definition closed_at (d : Z) (c : Conversation.t) : Conversation.t :=
  Conversation.mk (Conversation.conversationId c) (Conversation.startTime c)
    (Some d) (Conversation.participants c) (Conversation.rawText c)
    (Conversation.context c) (Conversation.messages c).

(** The memory that [MemoryProcessor] derives from a conversation, with a
    given identifier and time. *)
Definition memory_from (id : string) (d : Z) (c : Conversation.t)
    (opts : MemoryProcessor.options) : Memory.t :=
  let summary := MemoryProcessor.generateSummary c opts in
  Memory.mk id (Some (Conversation.conversationId c)) summary
    (Z.min (Z.max (MemoryProcessor.calculateImportance c summary opts) 1) 10)
    d (MemoryProcessor.generateTags c summary opts).

(** The raw text that a list of messages makes. *)
Definition transcript_of (ms : list Conversation.message) : string :=
  String.concat ""
    (map (fun m => JS.to_string (Conversation.role m) ++ ": "
                   ++ JS.to_string (Conversation.content m) ++ nl) ms).

(** * Further definitions used in the statements below *)

(** A memory with two tags. *)
Definition m_tagged : Memory.t :=
  Memory.mk "m-7" (Some "c-1") "asked for help" 6 5000 ["user"; "help"].

(** An object in which no key occurs twice. *)
Definition wf_obj {V : Type} (o : JS.obj V) : Prop := NoDup (map fst o).

(** The property names that every object inherits from
    [Object.prototype]; a lookup of such a name finds the inherited
    property where the object has none of its own. *)
Definition inherited_names : list string :=
  ["constructor"; "__proto__"; "__defineGetter__"; "__defineSetter__";
   "__lookupGetter__"; "__lookupSetter__"; "hasOwnProperty"; "isPrototypeOf";
   "propertyIsEnumerable"; "toLocaleString"; "toString"; "valueOf"].

(** An object none of whose keys is an inherited name. *)
Definition plain_keys {V : Type} (o : JS.obj V) : Prop :=
  Forall (fun k => ~ In k inherited_names) (JS.keys o).

(** An object of numbers that JSON writes and reads back as they are. *)
Definition no_NaN (o : JS.obj JS.number) : Prop :=
  Forall (fun kv => snd kv <> JS.NaN) o.

(** What a diff has to say about the key [k]: nothing when the new state
    lacks the key or holds the value of the previous state, and else the
    previous value (if any) and the new one. *)
Definition diff_entry {V : Type} (sne : V -> V -> bool) (prev new : JS.obj V)
    (k : string) : option (DreamstateUpdate.change V) :=
  match JS.get new k with
  | None => None
  | Some v =>
      match JS.get prev k with
      | None => Some (DreamstateUpdate.mkChange None v)
      | Some u =>
          if sne u v then Some (DreamstateUpdate.mkChange (Some u) v) else None
      end
  end.

(** An update that raised one trait, dropped one and added one. *)
Definition u_changed : DreamstateUpdate.t :=
  DreamstateUpdate.mk "u-1" "p-0" "d" "j"
    (mkPersonaState
       [("openness", Persona.n (7 # 10)); ("humor", Persona.n (1 # 2))]
       [("honesty", Persona.n (9 # 10))] [("style", "plain")] "bio")
    (mkPersonaState
       [("openness", Persona.n (8 # 10)); ("patience", Persona.n (1 # 2))]
       [("honesty", Persona.n (9 # 10))] [("style", "plain")] "bio")
    0.

(** The conversation as its row gives it back: without the messages. *)
Definition without_messages (c : Conversation.t) : Conversation.t :=
  Conversation.mk (Conversation.conversationId c) (Conversation.startTime c)
    (Conversation.endTime c) (Conversation.participants c)
    (Conversation.rawText c) (Conversation.context c) [].

(** The persona with another time of last update. *)
Definition updated_at (d : Z) (p : Persona.t) : Persona.t :=
  Persona.mk (Persona.personaId p) (Persona.traits p) (Persona.values p)
    (Persona.preferences p) (Persona.biography p) d.

(** A world whose persona table holds two personas, the second one
    updated later than the first. *)
Definition w_two_personas : World :=
  mkWorld
    [Persona.to_row default_persona;
     Persona.to_row (Persona.mk "p-1" [] [] [] "second" 50)]
    [] [] [] [] (clock w0) 0 (uuid w0) 0.

(** A time in the years 0000-9999: from 0000-01-01T00:00:00.000Z to
    9999-12-31T23:59:59.999Z. *)
Definition iso_years (ms : Z) : Prop :=
  -62167219200000 <= ms <= 253402300799999.

(** Times whose ISO strings are ordered as the times are. *)
Definition iso_ordered (times : list Z) : Prop :=
  forall a b : Z, In a times -> In b times ->
    SQL.text_compare (toISOString a) (toISOString b) = Z.sgn (a - b).

(** Memories whose time stamps are ordered as their texts are. *)
Definition dated (rows : list DB.memory_row) : Prop :=
  iso_ordered (map DB.timestamp rows).

(** The limits of an awakening: each of them can be bound to its
    query. *)
Definition bindable_limits (opts : AwakeningService.options) : Prop :=
  bindable (AwakeningService.default 5 (AwakeningService.recentMemoriesLimit opts))
  /\ bindable
       (AwakeningService.default 5 (AwakeningService.importantMemoriesLimit opts))
  /\ bindable
       (AwakeningService.default 3 (AwakeningService.recentUpdatesLimit opts)).

(** A tag that JSON writes as it is: no quote, no backslash and no control
    character in it. *)
Definition plain_tag (tag : string) : Prop := JS.json_chars tag = tag.

(** A text without the character of code 0, at which a C string ends. *)
Definition no_nul (s : string) : bool :=
  forallb (fun a => negb (nat_of_ascii a =? 0)%nat) (list_ascii_of_string s).

(** A tag of 50000 characters. *)
Definition long_tag : string := String.concat "" (repeat "a" (Z.to_nat 50000)).

(** A table with three memories, two of them tagged [help]. *)
Definition w_three_memories : World :=
  mkWorld [] []
    [DB.mkMemoryRow "m-1" (Some "c-1") "asked for help" 6 1000 ["user"; "help"];
     DB.mkMemoryRow "m-2" (Some "c-2") "fixed a problem" 8 2000 ["problem"];
     DB.mkMemoryRow "m-3" (Some "c-3") "more help" 6 3000 ["help"]]
    [] [] (clock w0) 0 (uuid w0) 0.

(** What is stored apart from the personas. *)
Definition records (w : World)
    : list DB.conversation_row * list DB.memory_row * list DB.update_row :=
  (conversations w, memories w, dreamstate_updates w).

(** Everything that is stored. *)
Definition stored (w : World)
    : list DB.persona_row
      * (list DB.conversation_row * list DB.memory_row * list DB.update_row) :=
  (persona_table w, records w).

(** [if (b) o[k] = v]. *)
Definition set_if {V : Type} (b : bool) (k : string) (v : V) (o : JS.obj V)
    : JS.obj V :=
  if b then JS.set o k v else o.

(** Every property of the object is a number between 0 and 1. *)
Definition in_unit_range (o : JS.obj JS.number) : Prop :=
  forall (k : string) (v : JS.number),
    In (k, v) o -> exists q : Q, v = JS.Num q /\ (0 <= q)%Q /\ (q <= 1)%Q.

(** The traits that the dreamstate may change. *)
Definition evolving_traits : list string :=
  ["conscientiousness"; "neuroticism"; "agreeableness"].

(** A persona that is agreeable to the full. *)
Definition p_agreeable : Persona.t :=
  Persona.mk "p-0"
    [("agreeableness", Persona.n 1); ("conscientiousness", Persona.n (1 # 2))]
    [("helpfulness", Persona.n (85 # 100))] [] "bio" 0.

(** Two memories, one of them of high importance. *)
Definition ms_two : list Memory.t :=
  [Memory.mk "m-1" (Some "c-1") "Asked for help" 6 1000 ["user"; "help"];
   Memory.mk "m-2" (Some "c-2") "Fixed a problem" 8 2000 ["problem"]].

(** The persona as the dreamstate leaves it. *)
Definition evolved (p : Persona.t) (ms : list Memory.t)
    (opts : PersonaEvolver.options) (w : World) : Persona.t :=
  match fst (PersonaEvolver.evolveDreamstate (Some p) ms opts w) with
  | Return r => snd r
  | Throw _ => p
  end.

(** A persona that has no value for helpfulness. *)
Definition p_no_helpfulness : Persona.t :=
  Persona.mk "p-0" [("agreeableness", Persona.n (1 # 2))]
    [("honesty", Persona.n (9 # 10))] [] "bio" 0.

(** *** The controller under arbitrary use *)

(** The calls that a client can make on the controller and on the tool
    that records a message. *)
Inductive operation : Type :=
| Initialize
| Awaken (opts : AwakeningService.options)
| StartConversation (participants : list string) (context : string)
| AddMessage (role content : JS.arg)
| EndConversation (opts : MemoryProcessor.options)
| Sleep (opts : PersonaEvolver.options)
| SearchMemories (query : string) (tags : list string)
    (opts : AwakeningService.search_options)
| RecordMessage (args : LTMClineServer.record_args).

(** The state that a call leaves, whether it returns or throws. *)
Definition after {A : Type} (m : M LTMSQL.Sys A) (s : LTMSQL.Sys) : LTMSQL.Sys :=
  snd (m s).

Definition step (op : operation) : LTMSQL.Sys -> LTMSQL.Sys :=
  match op with
  | Initialize => after LTMSQL.initialize
  | Awaken opts => after (LTMSQL.awaken opts)
  | StartConversation participants context =>
      after (LTMSQL.startConversation participants context)
  | AddMessage role content => after (LTMSQL.addMessage role content)
  | EndConversation opts => after (LTMSQL.endConversation opts)
  | Sleep opts => after (LTMSQL.sleep opts)
  | SearchMemories query tags opts =>
      after (LTMSQL.searchMemories query tags opts)
  | RecordMessage args => after (LTMClineServer.ltm_record_message args)
  end.

(** One call after the other. *)
Definition run_all (ops : list operation) (s : LTMSQL.Sys) : LTMSQL.Sys :=
  fold_left (fun s op => step op s) ops s.

(** A call that is over when it returns: every call but an [awaken] that
    finds the controller asleep with a conversation open.  What such an
    [awaken] has started and not awaited, the ending of that conversation,
    goes on while the calls that follow are made. *)
Definition settled (op : operation) (s : LTMSQL.Sys) : Prop :=
  match op with
  | Awaken _ =>
      LTMSQL.isAwake (fst s) = false -> LTMSQL.currentConversation (fst s) = None
  | _ => True
  end.

(** Calls made one after the other, each of them settled. *)
Fixpoint all_settled (ops : list operation) (s : LTMSQL.Sys) : Prop :=
  match ops with
  | [] => True
  | op :: ops' => settled op s /\ all_settled ops' (step op s)
  end.

(** The current conversation, if there is one, is open, and its raw text
    is the rendering of its messages. *)
Definition conversation_ok (t : LTMSQL.t) : Prop :=
  match LTMSQL.currentConversation t with
  | Some c =>
      Conversation.endTime c = None
      /\ Conversation.rawText c = transcript_of (Conversation.messages c)
  | None => True
  end.

(** The controller holds an awakening context exactly while it is awake. *)
Definition awake_ok (t : LTMSQL.t) : Prop :=
  LTMSQL.isAwake t = true <-> LTMSQL.awakeningContext t <> None.

(** Rows as [Memory.save] writes them, with pairwise different
    identifiers. *)
Definition wf_rows (rows : list DB.memory_row) : Prop :=
  Forall saved_row rows /\ NoDup (map DB.memory_id rows).

(** The generator of identifiers never gives the empty string. *)
Definition fresh_ids (w : World) : Prop := forall k : nat, uuid w k <> "".

(** What the memories of a world depend on. *)
Definition kept (w : World) : list DB.memory_row * (nat -> string) :=
  (memories w, uuid w).

Definition sound (w : World) : Prop := fresh_ids w /\ wf_rows (memories w).

Definition invariant (s : LTMSQL.Sys) : Prop :=
  conversation_ok (fst s) /\ awake_ok (fst s) /\ sound (snd s).

(** The update that a row with an identifier is read back as. *)
Definition update_of_row (r : DB.update_row) : DreamstateUpdate.t :=
  DreamstateUpdate.mk (DB.u_update_id r) (DB.u_persona_id r)
    (DB.u_description r) (DB.u_justification r) (DB.u_previous_state r)
    (DB.u_new_state r) (DB.u_timestamp r).

(** Every stored update has an identifier. *)
Definition updates_named (w : World) : Prop :=
  Forall (fun r => DB.u_update_id r <> "") (dreamstate_updates w).

(** *** The awakening prompt

    [AwakeningService.generateAwakeningPrompt] and
    [LTMSQL.getAwakeningPrompt] have no effect on the controller or on the
    tables; they are functions of the context.  A [TypeError], whose message
    is that of the engine, is kept apart from the errors that the program
    throws itself. *)

Inductive failure : Type :=
| Thrown (e : exn)
| TypeError.

(** [x.toFixed(2)] for [|x| < 1e21]: the integer [n] nearest to [100 x],
    the larger one on a tie, rendered with two decimals. *)
Definition toFixed2 (x : Q) : string :=
  let neg := JS.qlt x 0 in
  let a := Qabs x in
  let n := Qfloor (a * 100 + (1 # 2)) in
  (if neg then "-" else "") ++ JS.digits (n / 100) ++ "."
  ++ JS.pad 2 (JS.digits (n mod 100)).

(** [v.toFixed(2)] on a property that may be missing: a [TypeError] on
    [undefined]. *)
Definition toFixed2_opt (v : option JS.number) : option string :=
  match v with
  | Some (JS.Num q) => Some (toFixed2 q)
  | Some JS.NaN => Some "NaN"
  | None => None
  end.

(** An integer in a template string. *)
Definition integer_string (z : Z) : string :=
  if z <? 0 then "-" ++ JS.digits (- z) else JS.digits z.

Definition value_line (kv : string * JS.number) : string :=
  "- " ++ fst kv ++ ": "
  ++ match snd kv with
     | JS.Num q => toFixed2 q
     | JS.NaN => "NaN"
     end.

Definition preference_line (kv : string * string) : string :=
  "- " ++ fst kv ++ ": " ++ snd kv.

Definition memory_line (memory : AwakeningService.memory_view) : string :=
  "- " ++ AwakeningService.mv_summary memory ++ " (Importance: "
  ++ integer_string (AwakeningService.mv_importance memory) ++ ")".

Definition update_line (update : AwakeningService.update_view) : string :=
  "- " ++ AwakeningService.uv_description update ++ ": "
  ++ AwakeningService.uv_justification update.

(** The description of the persona; [None] stands for the [TypeError]
    that a missing trait raises. *)
Definition personaDesc (persona : AwakeningService.persona_view)
    : option string :=
  let traits := AwakeningService.pv_traits persona in
  match toFixed2_opt (JS.get traits "openness"),
        toFixed2_opt (JS.get traits "conscientiousness"),
        toFixed2_opt (JS.get traits "extraversion"),
        toFixed2_opt (JS.get traits "agreeableness"),
        toFixed2_opt (JS.get traits "neuroticism") with
  | Some openness, Some conscientiousness, Some extraversion,
    Some agreeableness, Some neuroticism =>
      Some ("You are Claude 3.7 with the following traits:" ++ nl
            ++ "- Openness: " ++ openness ++ nl
            ++ "- Conscientiousness: " ++ conscientiousness ++ nl
            ++ "- Extraversion: " ++ extraversion ++ nl
            ++ "- Agreeableness: " ++ agreeableness ++ nl
            ++ "- Neuroticism: " ++ neuroticism ++ nl
            ++ nl
            ++ "Your core values:" ++ nl
            ++ JS.join nl
                 (map value_line (JS.entries (AwakeningService.pv_values persona)))
            ++ nl ++ nl
            ++ "Your preferences:" ++ nl
            ++ JS.join nl
                 (map preference_line
                    (JS.entries (AwakeningService.pv_preferences persona)))
            ++ nl ++ nl
            ++ "Your biography:" ++ nl
            ++ AwakeningService.pv_biography persona ++ nl)
  | _, _, _, _, _ => None
  end.

(** A list under its heading, or the sentence that stands for the empty
    list. *)
Definition listing {A : Type} (heading none : string) (line : A -> string)
    (xs : list A) : string :=
  if (0 <? List.length xs)%nat
  then heading ++ nl ++ JS.join nl (map line xs)
  else none.

Definition generateAwakeningPrompt (context : AwakeningService.context)
    : failure + string :=
  match personaDesc (AwakeningService.persona context) with
  | None => inl TypeError
  | Some personaDesc =>
      let recentMemoriesDesc :=
        listing "Recent experiences:" "You have no recent memories."
          memory_line (AwakeningService.recentMemories context) in
      let importantMemoriesDesc :=
        listing "Important memories:" "You have no significant memories."
          memory_line (AwakeningService.importantMemories context) in
      let updatesDesc :=
        listing "Recent personality developments:"
          "Your personality has been stable recently."
          update_line (AwakeningService.recentUpdates context) in
      inr (nl ++ personaDesc ++ nl ++ nl
           ++ recentMemoriesDesc ++ nl ++ nl
           ++ importantMemoriesDesc ++ nl ++ nl
           ++ updatesDesc ++ nl ++ nl
           ++ "It is now "
           ++ toISOString (AwakeningService.awakeningTime context) ++ "." ++ nl
           ++ "You are awakening and ready to assist." ++ nl)
  end.

(** [LTMSQL.getAwakeningPrompt]. *)
Definition getAwakeningPrompt (this : LTMSQL.t) : failure + string :=
  match LTMSQL.isAwake this, LTMSQL.awakeningContext this with
  | true, Some context => generateAwakeningPrompt context
  | _, _ => inl (Thrown (Error "System is not awake. Call awaken() first"))
  end.

(** The five traits that the prompt prints. *)
Definition printed_traits : list string :=
  ["openness"; "conscientiousness"; "extraversion"; "agreeableness";
   "neuroticism"].

(** One text occurs in another. *)
Definition occurs (part whole : string) : Prop :=
  exists pre post : string, whole = pre ++ part ++ post.

(** An awakening context with the default persona and two memories. *)
Definition ctx_default : AwakeningService.context :=
  AwakeningService.mkContext
    (AwakeningService.mkPersonaView "p-0" (Persona.traits default_persona)
       (Persona.values default_persona) (Persona.preferences default_persona)
       (Persona.biography default_persona))
    [AwakeningService.view_memory (memory_of_row
       (DB.mkMemoryRow "m-1" (Some "c-1") "asked for help" 6 1000 ["help"]))]
    [] [] 5000.

(** What a computation returns, where it returns, satisfies [Q]. *)
Definition ensures {S A : Type} (Q : A -> Prop) (m : M S A) : Prop :=
  forall (s : S) (a : A) (s' : S), m s = (Return a, s') -> Q a.

(** A computation on the controller that leaves the controller and
    everything that is stored as they are, whether it returns or throws. *)
Definition harmless {A : Type} (m : M LTMSQL.Sys A) : Prop :=
  forall s : LTMSQL.Sys,
    fst (snd (m s)) = fst s /\ stored (snd (snd (m s))) = stored (snd s).

(** A computation on the controller that returns, and leaves the
    controller and everything that is stored as they are. *)
Definition read_only {A : Type} (m : M LTMSQL.Sys A) : Prop :=
  forall s : LTMSQL.Sys,
    exists (a : A) (w' : World),
      m s = (Return a, (fst s, w')) /\ stored w' = stored (snd s).

(** * Properties *)

(** ** Numbers *)

Lemma inject_Z_minus (a b : Z) :
  (inject_Z a - inject_Z b)%Q = inject_Z (a - b).
Proof.
  unfold Qminus, Qplus, Qopp, inject_Z; simpl.
  f_equal. lia.
Qed.

Lemma round_half_even_nonneg (x : Q) : (0 <= x)%Q -> 0 <= JS.round_half_even x.
Proof.
  intros Hx. unfold JS.round_half_even.
  assert (Hf : 0 <= Qfloor x).
  { change 0 with (Qfloor 0). now apply Qfloor_resp_le. }
  destruct (Qcompare _ _); [destruct (Z.even _) | |]; lia.
Qed.

Lemma fl_pos_nonneg (x : Q) : (0 <= x)%Q -> (0 <= JS.fl_pos x)%Q.
Proof.
  intros Hx. unfold JS.fl_pos.
  assert (Hp : forall e : Z, (0 <= 2 ^ e)%Q) by (intros e; now apply Qpower_0_le).
  apply Qmult_le_0_compat; [| apply Hp].
  change 0%Q with (inject_Z 0). rewrite <- Zle_Qle.
  apply round_half_even_nonneg.
  unfold Qdiv. apply Qmult_le_0_compat; [assumption |].
  apply Qinv_le_0_compat, Hp.
Qed.

Lemma fl_nonneg (x : Q) : (0 <= x)%Q -> (0 <= JS.fl x)%Q.
Proof.
  intros Hx. unfold JS.fl.
  destruct (Qcompare_spec x 0) as [H | H | H].
  - apply Qle_refl.
  - exfalso. apply (Qlt_irrefl x). eapply Qlt_le_trans; eassumption.
  - now apply fl_pos_nonneg.
Qed.

Lemma fl_zero (x : Q) : x == 0 -> JS.fl x = 0%Q.
Proof.
  intros H. unfold JS.fl. apply Qeq_alt in H. now rewrite H.
Qed.

Lemma div_nonneg (a b : Q) : (0 <= a)%Q -> (0 <= b)%Q -> (0 <= JS.div a b)%Q.
Proof.
  intros Ha Hb. apply fl_nonneg. unfold Qdiv.
  apply Qmult_le_0_compat; [assumption | now apply Qinv_le_0_compat].
Qed.

Lemma floor_nonneg (x : Q) : (0 <= x)%Q -> 0 <= JS.floor x.
Proof.
  intros H. unfold JS.floor. change 0 with (Qfloor 0). now apply Qfloor_resp_le.
Qed.

(** A duration that is zero adds nothing, whether or not the guard
    [if (duration)] lets it through. *)
Lemma floor_div_zero (d : Q) : Qeq_bool d 0 = true -> JS.floor (JS.div d 10) = 0.
Proof.
  intros H. apply Qeq_bool_eq in H.
  unfold JS.div. rewrite fl_zero; [reflexivity |].
  rewrite H. reflexivity.
Qed.

(** The duration of a conversation that did not end before it started is
    not negative. *)
Lemma getDuration_nonneg (c : Conversation.t) (e : Z) (d : Q) :
  Conversation.endTime c = Some e ->
  Conversation.startTime c <= e ->
  Conversation.getDuration c = Some d ->
  (0 <= d)%Q.
Proof.
  unfold Conversation.getDuration. intros -> Hle [= <-].
  apply div_nonneg; [| discriminate].
  apply fl_nonneg. rewrite inject_Z_minus.
  change 0%Q with (inject_Z 0). rewrite <- Zle_Qle. lia.
Qed.

(** ** The importance heuristic *)

Lemma calculateImportance_formula (c : Conversation.t) (summary : string)
    (opts : MemoryProcessor.options) :
  MemoryProcessor.calculateImportance c summary opts = importance_formula c.
Proof.
  unfold MemoryProcessor.calculateImportance, importance_formula,
    MemoryProcessor.truthy_duration.
  destruct (Conversation.getDuration c) as [d |].
  - destruct (Qeq_bool d 0) eqn:Hd; cbv beta iota zeta delta [negb].
    + rewrite (floor_div_zero d Hd).
      repeat match goal with |- context [if ?b then _ else _] => destruct b end; lia.
    + repeat match goal with |- context [if ?b then _ else _] => destruct b end; lia.
  - repeat match goal with |- context [if ?b then _ else _] => destruct b end; lia.
Qed.



(** ** Running the memory processor *)

Lemma references_insert_or_replace {A : Type} (key : A -> string) (row : A)
    (rows : list A) (id : string) :
  key row = id ->
  SQL.references key (Some id) (SQL.insert_or_replace key row rows) = true.
Proof.
  intros <-. unfold SQL.references, SQL.insert_or_replace.
  rewrite existsb_app. simpl. rewrite String.eqb_refl. apply orb_true_r.
Qed.

(** [save] stores the memory when its conversation is stored, and else
    fails on the foreign key and stores nothing. *)
Lemma Memory_save_run (m : Memory.t) (w : World) :
  conversation_known (Memory.conversationId m) w ->
  Memory.save m w
  = (Return m,
     mkWorld (persona_table w) (conversations w)
       (SQL.insert_or_replace DB.memory_id (Memory.to_row m) (memories w))
       (dreamstate_updates w) (console w) (clock w) (clock_reads w)
       (uuid w) (uuid_draws w)).
Proof.
  intros H. unfold Memory.save, bind, gets. rewrite H. reflexivity.
Qed.

Lemma Memory_save_refused (m : Memory.t) (w : World) :
  ~ conversation_known (Memory.conversationId m) w ->
  Memory.save m w = (Throw (Error SQL.SQLITE_CONSTRAINT), w).
Proof.
  intros H. unfold Memory.save, bind, gets. unfold conversation_known in H.
  destruct (SQL.references _ _ _); [contradiction H; reflexivity | reflexivity].
Qed.

(** [processConversation] on a conversation that is stored returns: it
    reads the clock once, draws one identifier and adds one row. *)
Lemma processConversation_run (c : Conversation.t)
    (opts : MemoryProcessor.options) (w : World) :
  let summary := MemoryProcessor.generateSummary c opts in
  let m :=
    Memory.mk (uuid w (uuid_draws w)) (Some (Conversation.conversationId c))
      summary
      (Z.min (Z.max (MemoryProcessor.calculateImportance c summary opts) 1) 10)
      (clock w (clock_reads w))
      (MemoryProcessor.generateTags c summary opts) in
  conversation_known (Some (Conversation.conversationId c)) w ->
  MemoryProcessor.processConversation (Some c) opts w =
  (Return m,
   mkWorld (persona_table w) (conversations w)
     (SQL.insert_or_replace DB.memory_id (Memory.to_row m) (memories w))
     (dreamstate_updates w) (console w) (clock w) (S (clock_reads w))
     (uuid w) (S (uuid_draws w))).
Proof.
  intros summary m H.
  unfold MemoryProcessor.processConversation, Memory.new, or_else, bind, now,
    uuidv4, ret.
  rewrite Memory_save_run by exact H. reflexivity.
Qed.

(** On a conversation that is not stored [processConversation] fails on
    the foreign key of the memory, and no memory is stored. *)
Lemma processConversation_refused (c : Conversation.t)
    (opts : MemoryProcessor.options) (w : World) :
  ~ conversation_known (Some (Conversation.conversationId c)) w ->
  MemoryProcessor.processConversation (Some c) opts w =
  (Throw (Error SQL.SQLITE_CONSTRAINT),
   mkWorld (persona_table w) (conversations w) (memories w)
     (dreamstate_updates w) (console w) (clock w) (S (clock_reads w))
     (uuid w) (S (uuid_draws w))).
Proof.
  intros H.
  unfold MemoryProcessor.processConversation, Memory.new, or_else, bind, now,
    uuidv4, ret.
  rewrite Memory_save_refused by exact H. reflexivity.
Qed.

Lemma insert_or_replace_In {A : Type} (key : A -> string) (row : A)
    (rows : list A) :
  In row (SQL.insert_or_replace key row rows).
Proof.
  unfold SQL.insert_or_replace. apply in_or_app. right. now left.
Qed.

Lemma calculateImportance_range (c : Conversation.t) (summary : string)
    (opts : MemoryProcessor.options) :
  1 <= MemoryProcessor.calculateImportance c summary opts <= 10.
Proof. rewrite calculateImportance_formula. unfold importance_formula. lia. Qed.





(** The importance of a conversation that did not end before it started
    is 5 plus what the three rules add. *)
Lemma calculateImportance_5_9 (c : Conversation.t) (summary : string)
    (opts : MemoryProcessor.options) :
  ended_in_order c ->
  5 <= MemoryProcessor.calculateImportance c summary opts <= 9.
Proof.
  intros Hord. rewrite calculateImportance_formula. unfold importance_formula.
  assert (Hd : match Conversation.getDuration c with
               | Some d => 0 <= JS.floor (JS.div d 10)
               | None => True
               end).
  { destruct (Conversation.getDuration c) as [d |] eqn:Hdur; [| exact I].
    unfold ended_in_order in Hord.
    destruct (Conversation.endTime c) as [e |] eqn:He.
    - apply floor_nonneg, div_nonneg; [| discriminate].
      eapply getDuration_nonneg; eassumption.
    - unfold Conversation.getDuration in Hdur. rewrite He in Hdur. discriminate. }
  destruct (Conversation.getDuration c) as [d |];
    repeat match goal with |- context [if ?b then _ else _] => destruct b end; lia.
Qed.

(** C10, as amended.  For every conversation that is open or whose end is
    not earlier than its start, the importance that [processConversation]
    computes lies between 5 and 9; where the conversation is stored, which
    the foreign key of the memory asks for, [processConversation] returns a
    memory of that importance. *)
Theorem processConversation_importance_5_9 (c : Conversation.t)
    (opts : MemoryProcessor.options) (w : World) :
  ended_in_order c ->
  conversation_known (Some (Conversation.conversationId c)) w ->
  let summary := MemoryProcessor.generateSummary c opts in
  5 <= MemoryProcessor.calculateImportance c summary opts <= 9
  /\ exists (m : Memory.t) (w' : World),
       MemoryProcessor.processConversation (Some c) opts w = (Return m, w')
       /\ Memory.importance m
          = MemoryProcessor.calculateImportance c summary opts
       /\ 5 <= Memory.importance m <= 9.
Proof.
  intros Hord Hknown summary.
  pose proof (calculateImportance_5_9 c summary opts Hord) as H.
  split; [exact H |]. eexists; eexists.
  split; [apply processConversation_run; exact Hknown |].
  cbn [Memory.importance]. fold summary. lia.
Qed.



(** C10, as amended, at the conversation [c12], once it is saved. *)
Lemma processConversation_importance_5_9_witness :
  5 <= MemoryProcessor.calculateImportance c12
         (MemoryProcessor.generateSummary c12 MemoryProcessor.no_options)
         MemoryProcessor.no_options <= 9
  /\ exists (m : Memory.t) (w' : World),
       MemoryProcessor.processConversation (Some c12) MemoryProcessor.no_options
         (with_conversation c12 w0)
       = (Return m, w')
       /\ Memory.importance m
          = MemoryProcessor.calculateImportance c12
              (MemoryProcessor.generateSummary c12 MemoryProcessor.no_options)
              MemoryProcessor.no_options
       /\ 5 <= Memory.importance m <= 9.
Proof.
  apply (processConversation_importance_5_9 c12 MemoryProcessor.no_options
           (with_conversation c12 w0)).
  - unfold ended_in_order; simpl; lia.
  - reflexivity.
Defined.

(** C10, as stated, fails: the memory of a conversation whose end time is
    earlier than its start time gets importance 3.  The conversation is
    saved before it is processed. *)
Lemma processConversation_importance_below_5 :
  exists (m : Memory.t) (w' : World),
    MemoryProcessor.processConversation (Some c_backwards)
      MemoryProcessor.no_options (with_conversation c_backwards w0)
    = (Return m, w')
    /\ Memory.importance m = 3
    /\ ~ (5 <= Memory.importance m <= 9).
Proof.
  eexists; eexists.
  split; [apply processConversation_run; reflexivity |].
  split; [vm_compute; reflexivity |].
  vm_compute. intros [H _]. apply H. reflexivity.
Qed.

(** ** Summaries *)

Lemma substring_0_length (n : nat) (s : string) :
  String.length (String.substring 0 n s) = Nat.min n (String.length s).
Proof.
  revert n. induction s as [| a s IH]; intros [| n]; simpl; auto.
Qed.

Lemma substring_0_all (n : nat) (s : string) :
  (String.length s <= n)%nat -> String.substring 0 n s = s.
Proof.
  revert n. induction s as [| a s IH]; intros [| n] H; simpl in *;
    try reflexivity; try lia.
  f_equal. apply IH. lia.
Qed.

Lemma substring_0_app (p q : string) :
  String.substring 0 (String.length p) (p ++ q) = p.
Proof.
  induction p as [| a p IH]; simpl.
  - destruct q; reflexivity.
  - now rewrite IH.
Qed.

Lemma lastIndexOf_from_spec (c : ascii) (s : string) :
  forall i found : Z,
    (~ In c (chars s) /\ JS.lastIndexOf_from c s i found = found)
    \/ (exists p q : string,
           s = p ++ String c q
           /\ ~ In c (chars q)
           /\ JS.lastIndexOf_from c s i found = i + Z.of_nat (String.length p)).
Proof.
  induction s as [| a s IH]; intros i found; simpl.
  - left. split; [intros [] | reflexivity].
  - destruct (IH (i + 1) (if Ascii.eqb a c then i else found))
      as [[Hnot Hres] | (p & q & Hs & Hq & Hres)].
    + destruct (Ascii.eqb_spec a c) as [-> | Hne].
      * right. exists "", s. simpl. repeat split; auto. rewrite Hres. lia.
      * left. split; [| exact Hres].
        intros [H | H]; [now apply Hne | now apply Hnot].
    + right. exists (String a p), q. simpl.
      repeat split; [now rewrite Hs | assumption | rewrite Hres; lia].
Qed.

Lemma lastIndexOf_spec (s : string) (c : ascii) :
  (~ In c (chars s) /\ JS.lastIndexOf s c = -1)
  \/ (exists p q : string,
         s = p ++ String c q
         /\ ~ In c (chars q)
         /\ JS.lastIndexOf s c = Z.of_nat (String.length p)).
Proof.
  unfold JS.lastIndexOf.
  destruct (lastIndexOf_from_spec c s 0 (-1)) as [H | (p & q & H1 & H2 & H3)].
  - now left.
  - right. exists p, q. repeat split; auto.
Qed.

Lemma string_app_nil_r (s : string) : s ++ "" = s.
Proof. induction s; simpl; congruence. Qed.

Lemma string_app_length (p q : string) :
  String.length (p ++ q) = (String.length p + String.length q)%nat.
Proof. induction p; simpl; auto. Qed.

(** A transcript longer than [maxLength]: the summary is cut at the last
    space among the first [maxLength] characters; without a space nothing
    but the three dots is left. *)
Lemma generateSummary_long (c : Conversation.t) (opts : MemoryProcessor.options) :
  let maxLength :=
    match MemoryProcessor.maxLength opts with Some m => m | None => 500 end in
  let transcript := Conversation.rawText c in
  let len := Z.of_nat (String.length transcript) in
  let head := take (Z.max maxLength 0) transcript in
  0 < len -> maxLength < len ->
  (~ In " "%char (chars head)
   /\ MemoryProcessor.generateSummary c opts = "...")
  \/ (exists p q : string,
         head = p ++ " " ++ q
         /\ ~ In " "%char (chars q)
         /\ MemoryProcessor.generateSummary c opts = p ++ "...").
Proof.
  intros maxLength transcript len head Hpos Hlong.
  unfold MemoryProcessor.generateSummary, Conversation.getFullText.
  fold maxLength. fold transcript. fold len.
  replace (0 <? len) with true by (symmetry; apply Z.ltb_lt; lia).
  assert (Hhead : JS.substring0 transcript (Z.min maxLength len) = head).
  { unfold JS.substring0, head, take. fold len. do 2 f_equal. lia. }
  rewrite Hhead.
  assert (Hlen : Z.of_nat (String.length head) < len).
  { unfold head, take. rewrite substring_0_length. unfold len in *. lia. }
  replace (Z.of_nat (String.length head) <? len) with true
    by (symmetry; apply Z.ltb_lt; lia).
  destruct (lastIndexOf_spec head " ") as [[Hno Hidx] | (p & q & Hs & Hq & Hidx)];
    rewrite Hidx.
  - left. split; [assumption |].
    unfold JS.substring0. simpl. destruct head; reflexivity.
  - right. exists p, q. repeat split; [exact Hs | exact Hq |].
    f_equal. unfold JS.substring0.
    replace (Z.to_nat _) with (String.length p).
    + rewrite Hs at 1. apply substring_0_app.
    + rewrite Hs, string_app_length. simpl. lia.
Qed.

(** C5, as amended.  A transcript that is not empty and longer than
    [maxLength] is summarized, when there is a space among its first
    [maxLength] characters, by what stands before the last such space,
    followed by three dots.  A transcript that is not empty and not longer
    than [maxLength] is its own summary.  An empty transcript gets the
    summary made of the participants and, when it is known and not zero,
    the duration. *)
Theorem generateSummary_spec (c : Conversation.t) (opts : MemoryProcessor.options) :
  let maxLength :=
    match MemoryProcessor.maxLength opts with Some m => m | None => 500 end in
  let transcript := Conversation.rawText c in
  let len := Z.of_nat (String.length transcript) in
  let summary := MemoryProcessor.generateSummary c opts in
  (0 < len -> maxLength < len ->
     In " "%char (chars (take (Z.max maxLength 0) transcript)) ->
     exists p q : string,
       take (Z.max maxLength 0) transcript = p ++ " " ++ q
       /\ ~ In " "%char (chars q)
       /\ summary = p ++ "...")
  /\ (0 < len -> len <= maxLength -> summary = transcript)
  /\ (len = 0 ->
      summary =
      "Conversation with " ++ JS.join ", " (Conversation.participants c)
      ++ match Conversation.getDuration c with
         | Some d =>
             if Qeq_bool d 0 then ""
             else " lasting " ++ JS.toFixed1 d ++ " minutes"
         | None => ""
         end).
Proof.
  intros maxLength transcript len summary.
  split; [| split].
  - intros Hpos Hlong Hspace.
    destruct (generateSummary_long c opts Hpos Hlong)
      as [[Hno _] | H]; [contradiction | exact H].
  - intros Hpos Hshort.
    unfold summary, MemoryProcessor.generateSummary, Conversation.getFullText.
    fold maxLength. fold transcript. fold len.
    replace (0 <? len) with true by (symmetry; apply Z.ltb_lt; lia).
    assert (Hall : JS.substring0 transcript (Z.min maxLength len) = transcript).
    { unfold JS.substring0. apply substring_0_all. fold len. lia. }
    rewrite Hall. fold len.
    now replace (len <? len) with false by (symmetry; apply Z.ltb_ge; lia).
  - intros Hempty.
    unfold summary, MemoryProcessor.generateSummary, Conversation.getFullText.
    fold maxLength. fold transcript. fold len.
    replace (0 <? len) with false by (symmetry; apply Z.ltb_ge; lia).
    unfold MemoryProcessor.truthy_duration.
    destruct (Conversation.getDuration c) as [d |]; [destruct (Qeq_bool d 0) |];
      simpl; rewrite ?string_app_nil_r; reflexivity.
Qed.

(** C5, as stated, fails where the last white space before the cut is a
    line end: the summary stops at the last space, which comes earlier. *)
Lemma generateSummary_not_at_whitespace :
  MemoryProcessor.generateSummary c12 cut_at_14 = "user:..."
  /\ summary_at_whitespace (Conversation.rawText c12) 14 = "user: hello..."
  /\ MemoryProcessor.generateSummary c12 cut_at_14
     <> summary_at_whitespace (Conversation.rawText c12) 14.
Proof.
  split; [reflexivity | split; [reflexivity | discriminate]].
Qed.

(** C5, as amended, at the transcript of [c12] cut after 14 characters. *)
Lemma generateSummary_spec_witness :
  exists p q : string,
    take (Z.max 14 0) (Conversation.rawText c12) = p ++ " " ++ q
    /\ ~ In " "%char (chars q)
    /\ MemoryProcessor.generateSummary c12 cut_at_14 = p ++ "...".
Proof.
  apply (proj1 (generateSummary_spec c12 cut_at_14)).
  - vm_compute; reflexivity.
  - vm_compute; reflexivity.
  - vm_compute. do 5 right. left. reflexivity.
Defined.

(** ** The forgiving operations of the controller *)

(** C3. When the system is awake, [awaken] with any options returns the
    awakening context that the controller holds and does not throw; the
    controller, its open conversation included, and the tables are as
    before, and the console has one more warning. *)
Theorem awaken_twice (opts o : AwakeningService.options)
    (p : option Persona.t) (cur : option Conversation.t)
    (ctx : option AwakeningService.context) (w : World) :
  let ltm := LTMSQL.mk o p cur ctx true in
  LTMSQL.awaken opts (ltm, w)
  = (Return ctx, (ltm, warned "System is already awake" w)).
Proof. reflexivity. Qed.

(** C7. [endConversation] without an open conversation and [sleep] while
    asleep return [null] and do not throw; the controller and the tables
    are as before, and the console has one more warning. *)
Theorem forgiving_operations :
  (forall (opts : MemoryProcessor.options) (o : AwakeningService.options)
          (p : option Persona.t) (ctx : option AwakeningService.context)
          (awake : bool) (w : World),
      let ltm := LTMSQL.mk o p None ctx awake in
      LTMSQL.endConversation opts (ltm, w)
      = (Return None, (ltm, warned "No active conversation to end" w)))
  /\
  (forall (opts : PersonaEvolver.options) (o : AwakeningService.options)
          (p : option Persona.t) (cur : option Conversation.t)
          (ctx : option AwakeningService.context) (w : World),
      let ltm := LTMSQL.mk o p cur ctx false in
      LTMSQL.sleep opts (ltm, w)
      = (Return None, (ltm, warned "System is already asleep" w))).
Proof. split; reflexivity. Qed.

(** ** Dreamstate evolution without memories *)

(** [save] stores the update when its persona is stored, and else fails
    on the foreign key and stores nothing. *)
Lemma DreamstateUpdate_save_run (u : DreamstateUpdate.t) (w : World) :
  persona_known (DreamstateUpdate.personaId u) w ->
  DreamstateUpdate.save u w
  = (Return u,
     mkWorld (persona_table w) (conversations w) (memories w)
       (SQL.insert_or_replace DB.u_update_id (DreamstateUpdate.to_row u)
          (dreamstate_updates w))
       (console w) (clock w) (clock_reads w) (uuid w) (uuid_draws w)).
Proof.
  intros H. unfold DreamstateUpdate.save, bind, gets. rewrite H. reflexivity.
Qed.

(** With no memories the persona keeps its content, is saved, and one
    update with equal states is stored: three readings of the clock for the
    three [update...] calls, one for the update, and one identifier. *)
Lemma evolveDreamstate_empty_run (p : Persona.t)
    (opts : PersonaEvolver.options) (w : World) :
  let k := clock_reads w in
  let p' := Persona.mk (Persona.personaId p) (Persona.traits p)
              (Persona.values p) (Persona.preferences p)
              (Persona.biography p) (clock w (S (S k))) in
  let u := DreamstateUpdate.mk (uuid w (uuid_draws w)) (Persona.personaId p)
             "No changes made due to lack of new experiences"
             "No recent memories to process"
             (Persona.snapshot p) (Persona.snapshot p)
             (clock w (S (S (S k)))) in
  PersonaEvolver.evolveDreamstate (Some p) [] opts w
  = (Return (u, p'),
     mkWorld
       (SQL.insert_or_replace DB.p_persona_id (Persona.to_row p') (persona_table w))
       (conversations w) (memories w)
       (SQL.insert_or_replace DB.u_update_id (DreamstateUpdate.to_row u)
          (dreamstate_updates w))
       (console w) (clock w) (S (S (S (S k)))) (uuid w) (S (uuid_draws w))).
Proof.
  intros k p' u.
  unfold PersonaEvolver.evolveDreamstate.
  cbn -[DreamstateUpdate.save SQL.insert_or_replace].
  unfold bind at 1.
  rewrite DreamstateUpdate_save_run.
  - reflexivity.
  - apply references_insert_or_replace. reflexivity.
Qed.

(** C8, as amended.  For every persona, [evolveDreamstate] with no
    memories returns; traits, values, preferences and biography of the
    persona are as before; the persona is saved and a dreamstate update is
    stored whose previous state equals its new state, with the description
    "No changes made due to lack of new experiences" and the justification
    "No recent memories to process". *)
Theorem evolveDreamstate_no_memories (p : Persona.t)
    (opts : PersonaEvolver.options) (w : World) :
  exists (u : DreamstateUpdate.t) (p' : Persona.t) (w' : World),
    PersonaEvolver.evolveDreamstate (Some p) [] opts w = (Return (u, p'), w')
    /\ Persona.personaId p' = Persona.personaId p
    /\ Persona.traits p' = Persona.traits p
    /\ Persona.values p' = Persona.values p
    /\ Persona.preferences p' = Persona.preferences p
    /\ Persona.biography p' = Persona.biography p
    /\ In (Persona.to_row p') (persona_table w')
    /\ In (DreamstateUpdate.to_row u) (dreamstate_updates w')
    /\ DreamstateUpdate.personaId u = Persona.personaId p
    /\ DreamstateUpdate.previousState u = DreamstateUpdate.newState u
    /\ DreamstateUpdate.previousState u = Persona.snapshot p
    /\ DreamstateUpdate.description u
       = "No changes made due to lack of new experiences"
    /\ DreamstateUpdate.justification u = "No recent memories to process"
    /\ memories w' = memories w
    /\ conversations w' = conversations w.
Proof.
  do 3 eexists. split; [apply evolveDreamstate_empty_run |].
  repeat split; apply insert_or_replace_In.
Qed.

(** C8, as stated, fails on the two texts: the update that is stored for
    the default persona has neither the description "no changes made" nor
    the justification "no recent memories to process". *)
Lemma evolveDreamstate_no_memories_texts :
  exists (u : DreamstateUpdate.t) (p' : Persona.t) (w' : World),
    PersonaEvolver.evolveDreamstate (Some default_persona) []
      PersonaEvolver.no_options w0 = (Return (u, p'), w')
    /\ DreamstateUpdate.description u <> "no changes made"
    /\ DreamstateUpdate.justification u <> "no recent memories to process".
Proof.
  do 3 eexists. split; [apply evolveDreamstate_empty_run |].
  split; discriminate.
Qed.

(** ** Recording a message *)

(** [addMessage] with an open conversation: the message is appended with
    the time of the call, and the conversation is saved. *)
Lemma addMessage_run (role content : JS.arg) (o : AwakeningService.options)
    (p : option Persona.t) (c : Conversation.t)
    (ctx : option AwakeningService.context) (awake : bool) (w : World) :
  let c' :=
    Conversation.mk (Conversation.conversationId c) (Conversation.startTime c)
      (Conversation.endTime c) (Conversation.participants c)
      (Conversation.rawText c ++ JS.to_string role ++ ": "
       ++ JS.to_string content ++ nl)
      (Conversation.context c)
      (Conversation.messages c
       ++ [Conversation.mkMessage role content (clock w (clock_reads w))]) in
  LTMSQL.addMessage role content (LTMSQL.mk o p (Some c) ctx awake, w)
  = (Return c',
     (LTMSQL.mk o p (Some c') ctx awake,
      mkWorld (persona_table w)
        (SQL.insert_or_replace DB.c_conversation_id (Conversation.to_row c')
           (conversations w))
        (memories w) (dreamstate_updates w) (console w) (clock w)
        (S (clock_reads w)) (uuid w) (uuid_draws w))).
Proof. reflexivity. Qed.

(** C9, as amended.  The tool [ltm_record_message] answers a call whose
    role or content is missing, [null] or empty with the error "Both role
    and content are required": nothing is appended, the controller and the
    tables are as before, and the console has one more error line.
    [LTMSQL.addMessage] itself looks at neither argument: with an open
    conversation it appends the message it is given and saves the
    conversation, and without one it throws. *)
Theorem record_message_validation :
  (forall (args : LTMClineServer.record_args) (ltm : LTMSQL.t) (w : World),
      JS.truthy (LTMClineServer.role args) = false
      \/ JS.truthy (LTMClineServer.content args) = false ->
      LTMClineServer.ltm_record_message args (ltm, w)
      = (Return (LTMClineServer.IsError "Both role and content are required"),
         (ltm,
          printed
            (mkLine ERROR "Error executing tool ltm_record_message:"
               (Some (Error "Both role and content are required")))
            w)))
  /\
  (forall (role content : JS.arg) (o : AwakeningService.options)
          (p : option Persona.t) (c : Conversation.t)
          (ctx : option AwakeningService.context) (awake : bool) (w : World),
      exists (c' : Conversation.t) (w' : World),
        LTMSQL.addMessage role content (LTMSQL.mk o p (Some c) ctx awake, w)
        = (Return c', (LTMSQL.mk o p (Some c') ctx awake, w'))
        /\ Conversation.rawText c'
           = Conversation.rawText c ++ JS.to_string role ++ ": "
             ++ JS.to_string content ++ nl
        /\ Conversation.messages c'
           = (Conversation.messages c
              ++ [Conversation.mkMessage role content (clock w (clock_reads w))])%list
        /\ In (Conversation.to_row c') (conversations w'))
  /\
  (forall (role content : JS.arg) (o : AwakeningService.options)
          (p : option Persona.t) (ctx : option AwakeningService.context)
          (awake : bool) (w : World),
      let ltm := LTMSQL.mk o p None ctx awake in
      LTMSQL.addMessage role content (ltm, w)
      = (Throw (Error "No active conversation. Call startConversation() first"),
         (ltm, w))).
Proof.
  split; [| split].
  - intros args ltm w H. unfold LTMClineServer.ltm_record_message, try_catch.
    destruct ltm as [o p cur ctx awake].
    destruct H as [H | H]; rewrite H; cbn; [| rewrite orb_true_r]; reflexivity.
  - intros role content o p c ctx awake w. do 2 eexists.
    split; [apply addMessage_run |].
    repeat split. apply insert_or_replace_In.
  - reflexivity.
Qed.

(** C9, as amended, at a call without a role. *)
Lemma record_message_validation_witness :
  LTMClineServer.ltm_record_message
    (LTMClineServer.mkArgs JS.Undefined (JS.Str "hello")) (ltm_open, w0)
  = (Return (LTMClineServer.IsError "Both role and content are required"),
     (ltm_open,
      printed
        (mkLine ERROR "Error executing tool ltm_record_message:"
           (Some (Error "Both role and content are required")))
        w0)).
Proof.
  apply (proj1 record_message_validation
           (LTMClineServer.mkArgs JS.Undefined (JS.Str "hello")) ltm_open w0).
  left. reflexivity.
Defined.

(** C9, as stated, fails on the controller: [addMessage] with a missing
    role does not throw and appends a message to the open conversation. *)
Lemma addMessage_accepts_missing_role :
  exists (c' : Conversation.t) (s' : LTMSQL.Sys),
    LTMSQL.addMessage JS.Undefined (JS.Str "hello") (ltm_open, w0)
    = (Return c', s')
    /\ LTMSQL.currentConversation (fst s') = Some c'
    /\ Conversation.rawText c'
       = "user: hello" ++ nl ++ "undefined: hello" ++ nl
    /\ List.length (Conversation.messages c') = 2%nat.
Proof.
  do 2 eexists. split; [apply addMessage_run |]. repeat split.
Qed.

(** ** Sorting *)

Section SortFacts.
Context {A : Type}.
Variable cmp : A -> A -> Z.
Hypothesis cmp_total : forall a b : A, 0 < cmp a b -> cmp b a <= 0.
Hypothesis cmp_trans :
  forall a b c : A, cmp a b <= 0 -> cmp b c <= 0 -> cmp a c <= 0.

Lemma insert_In (x z : A) (l : list A) :
  In z (JS.insert cmp x l) <-> z = x \/ In z l.
Proof.
  induction l as [| y l IH]; simpl.
  - intuition.
  - destruct (0 <? cmp x y); simpl; rewrite ?IH; intuition.
Qed.

Lemma insert_sorted (x : A) (l : list A) :
  StronglySorted (fun a b => cmp a b <= 0) l ->
  StronglySorted (fun a b => cmp a b <= 0) (JS.insert cmp x l).
Proof.
  induction 1 as [| y l Hs IH Hall]; simpl.
  - constructor; [constructor | constructor].
  - destruct (0 <? cmp x y) eqn:Hc.
    + apply Z.ltb_lt in Hc. constructor; [exact IH |].
      apply Forall_forall. intros z Hz. apply insert_In in Hz.
      destruct Hz as [-> | Hz].
      * now apply cmp_total.
      * rewrite Forall_forall in Hall. now apply Hall.
    + apply Z.ltb_ge in Hc. constructor; [now constructor |].
      constructor; [exact Hc |].
      rewrite Forall_forall in Hall |- *. intros z Hz.
      apply cmp_trans with y; [exact Hc | now apply Hall].
Qed.

Lemma sort_sorted (l : list A) :
  StronglySorted (fun a b => cmp a b <= 0) (JS.sort cmp l).
Proof.
  induction l as [| x l IH]; simpl; [constructor | now apply insert_sorted].
Qed.

Lemma insert_perm (x : A) (l : list A) : Permutation (JS.insert cmp x l) (x :: l).
Proof.
  induction l as [| y l IH]; simpl; [reflexivity |].
  destruct (0 <? cmp x y); [| reflexivity].
  rewrite IH. apply perm_swap.
Qed.

Lemma sort_perm (l : list A) : Permutation (JS.sort cmp l) l.
Proof.
  induction l as [| x l IH]; simpl; [reflexivity |].
  rewrite insert_perm. now constructor.
Qed.

End SortFacts.

Lemma slice0_prefix {A : Type} (xs : list A) (n : Z) :
  exists k : nat, JS.slice0 xs n = firstn k xs.
Proof. unfold JS.slice0. destruct (n <? 0); eexists; reflexivity. Qed.

Lemma firstn_In {A : Type} (k : nat) (l : list A) (x : A) :
  In x (firstn k l) -> In x l.
Proof.
  revert k. induction l as [| y l IH]; intros [| k]; simpl; try tauto.
  intros [H | H]; [now left | right; eauto].
Qed.

Lemma firstn_sorted {A : Type} (R : A -> A -> Prop) (k : nat) (l : list A) :
  StronglySorted R l -> StronglySorted R (firstn k l).
Proof.
  revert k. induction l as [| x l IH]; intros [| k] H; simpl; try constructor.
  - apply IH. now inversion H.
  - inversion H as [| ? ? _ Hall]; subst.
    rewrite Forall_forall in Hall |- *. intros z Hz.
    apply Hall. eapply firstn_In; eassumption.
Qed.

Lemma firstn_NoDup {A : Type} (k : nat) (l : list A) :
  NoDup l -> NoDup (firstn k l).
Proof.
  revert k. induction l as [| x l IH]; intros [| k] H; simpl; try constructor.
  - inversion H; subst. intros Hin. apply firstn_In in Hin. contradiction.
  - apply IH. now inversion H.
Qed.

(** ** Tag search *)

Lemma mem_In (x : string) (xs : list string) : JS.mem x xs = true <-> In x xs.
Proof.
  unfold JS.mem. rewrite existsb_exists. split.
  - intros (y & Hy & He). apply String.eqb_eq in He. now subst.
  - intros H. exists x. split; [assumption | apply String.eqb_refl].
Qed.

Lemma unique_rows_spec (rows : list DB.memory_row) :
  forall seen : list string,
    NoDup (map DB.memory_id (Memory.unique_rows seen rows))
    /\ (forall r, In r (Memory.unique_rows seen rows) ->
                  In r rows /\ ~ In (DB.memory_id r) seen).
Proof.
  induction rows as [| row rows IH]; intros seen; simpl.
  - split; [constructor | intros r []].
  - destruct (JS.mem (DB.memory_id row) seen) eqn:Hm.
    + destruct (IH seen) as [Hnd Hin]. split; [exact Hnd |].
      intros r Hr. destruct (Hin r Hr). auto.
    + destruct (IH (DB.memory_id row :: seen)) as [Hnd Hin]. split.
      * simpl. constructor; [| exact Hnd].
        intros Hid. apply in_map_iff in Hid. destruct Hid as (r & Heq & Hr).
        destruct (Hin r Hr) as [_ Hnot]. apply Hnot. left. now symmetry.
      * intros r [<- | Hr].
        -- split; [now left |]. intros Hc. apply mem_In in Hc. congruence.
        -- destruct (Hin r Hr) as [H1 H2]. split; [now right |].
           intros Hc. apply H2. now right.
Qed.

Lemma by_importance_then_recency_before (a b : DB.memory_row) :
  Memory.by_importance_then_recency a b <= 0 <-> before a b.
Proof.
  unfold Memory.by_importance_then_recency, before.
  destruct (Z.eqb_spec (DB.importance a) (DB.importance b)); simpl; lia.
Qed.

(** What holds of every tag search: the rows that are returned carry
    pairwise different identifiers, come in the order [before], and each of
    them is a row of the table whose serialized tags match the pattern of
    one of the queried tags. *)
Lemma search_rows_spec (tags : list string) (limit : Z)
    (rows : list DB.memory_row) :
  let found := Memory.search_rows tags limit rows in
  NoDup (map DB.memory_id found)
  /\ StronglySorted before found
  /\ (forall r, In r found ->
        In r rows
        /\ exists tag, In tag tags
             /\ SQL.like (JS.stringify (DB.tags r)) ("%" ++ tag ++ "%") = true).
Proof.
  intros found. unfold found, Memory.search_rows.
  set (matches := flat_map (fun tag => Memory.rows_like tag rows) tags).
  set (sorted := JS.sort Memory.by_importance_then_recency
                   (Memory.unique_rows [] matches)).
  destruct (slice0_prefix sorted limit) as [k ->].
  destruct (unique_rows_spec matches []) as [Hnd Hin].
  assert (Hperm : Permutation sorted (Memory.unique_rows [] matches))
    by apply sort_perm.
  split; [| split].
  - rewrite <- firstn_map. apply firstn_NoDup.
    eapply Permutation_NoDup; [| exact Hnd].
    apply Permutation_map. now symmetry.
  - apply firstn_sorted.
    eapply StronglySorted_ind with
      (P := fun l => StronglySorted before l);
      [constructor | | apply (sort_sorted Memory.by_importance_then_recency)].
    + intros a l _ IH Hall. constructor; [exact IH |].
      eapply Forall_impl; [| exact Hall].
      intros b Hb. now apply by_importance_then_recency_before.
    + unfold Memory.by_importance_then_recency. intros a b.
      destruct (Z.eqb_spec (DB.importance a) (DB.importance b)),
               (Z.eqb_spec (DB.importance b) (DB.importance a)); simpl; lia.
    + unfold Memory.by_importance_then_recency. intros a b c.
      destruct (Z.eqb_spec (DB.importance a) (DB.importance b)),
               (Z.eqb_spec (DB.importance b) (DB.importance c)),
               (Z.eqb_spec (DB.importance a) (DB.importance c)); simpl; lia.
  - intros r Hr. apply firstn_In in Hr.
    apply (Permutation_in _ Hperm) in Hr.
    destruct (Hin r Hr) as [Hm _].
    unfold matches in Hm. apply in_flat_map in Hm.
    destruct Hm as (tag & Htag & Hrow).
    unfold Memory.rows_like in Hrow. apply filter_In in Hrow.
    destruct Hrow as [Hrow Hlike]. split; [exact Hrow |].
    exists tag. split; assumption.
Qed.

Lemma of_row_saved (r : DB.memory_row) (w : World) :
  DB.memory_id r <> "" ->
  Memory.of_row r w = (Return (memory_of_row r), w).
Proof.
  intros Hid. unfold Memory.of_row, Memory.new, bind, or_else.
  destruct (String.eqb_spec (DB.memory_id r) ""); [contradiction | reflexivity].
Qed.

Lemma mapM_of_row_saved (rows : list DB.memory_row) (w : World) :
  Forall (fun r => DB.memory_id r <> "") rows ->
  mapM Memory.of_row rows w = (Return (map memory_of_row rows), w).
Proof.
  induction 1 as [| r rows Hr _ IH]; simpl; [reflexivity |].
  unfold bind. rewrite (of_row_saved r w Hr), IH. reflexivity.
Qed.

Lemma utf8_length_app (a b : string) :
  SQL.utf8_length (a ++ b) = SQL.utf8_length a + SQL.utf8_length b.
Proof. induction a as [| c a IH]; simpl; [reflexivity | rewrite IH; lia]. Qed.

Lemma utf8_length_bound (s : string) :
  SQL.utf8_length s <= 2 * Z.of_nat (String.length s).
Proof.
  induction s as [| c s IH]; [simpl; lia |].
  cbn [SQL.utf8_length String.length].
  destruct (nat_of_ascii c <? 128)%nat; lia.
Qed.

(** The pattern of a short tag is not too long for [LIKE]. *)
Lemma short_tag_accepted (tag : string) :
  short_tag tag -> SQL.too_complex ("%" ++ tag ++ "%") = false.
Proof.
  unfold short_tag, SQL.too_complex. intros H. apply Z.ltb_ge.
  rewrite !utf8_length_app. pose proof (utf8_length_bound tag).
  change (SQL.utf8_length "%") with 1. lia.
Qed.

Lemma short_tags_accepted (tags : list string) :
  Forall short_tag tags ->
  existsb (fun tag => SQL.too_complex ("%" ++ tag ++ "%")) tags = false.
Proof.
  induction 1 as [| tag tags Ht _ IH]; [reflexivity |].
  cbn [existsb]. rewrite (short_tag_accepted tag Ht). exact IH.
Qed.

(** A tag search with short tags is the search through the rows. *)
Lemma searchByTags_rows (tags : list string) (limit : Z) (w : World) :
  Forall short_tag tags ->
  Memory.searchByTags tags limit w
  = mapM Memory.of_row (Memory.search_rows tags limit (memories w)) w.
Proof.
  intros Hshort. unfold Memory.searchByTags, bind, gets.
  rewrite (short_tags_accepted tags Hshort). reflexivity.
Qed.

(** On a table written by [Memory.save], a search for short tags returns,
    changes nothing, and its result has no identifier twice, is ordered by
    importance and then by recency, and holds only memories whose
    serialized tags match the pattern of a queried tag. *)
Lemma searchByTags_spec (tags : list string) (limit : Z) (w : World) :
  Forall short_tag tags ->
  Forall saved_row (memories w) ->
  exists ms : list Memory.t,
    Memory.searchByTags tags limit w = (Return ms, w)
    /\ NoDup (map Memory.memoryId ms)
    /\ StronglySorted memory_before ms
    /\ (forall m, In m ms ->
          exists tag, In tag tags
            /\ SQL.like (JS.stringify (Memory.tags m)) ("%" ++ tag ++ "%") = true).
Proof.
  intros Hshort Hsaved.
  destruct (search_rows_spec tags limit (memories w)) as (Hnd & Hsorted & Hin).
  set (found := Memory.search_rows tags limit (memories w)) in *.
  assert (Hfound : Forall saved_row found).
  { apply Forall_forall. intros r Hr. rewrite Forall_forall in Hsaved.
    apply Hsaved. now apply Hin. }
  exists (map memory_of_row found). split; [| split; [| split]].
  - rewrite (searchByTags_rows tags limit w Hshort). fold found.
    apply mapM_of_row_saved. eapply Forall_impl; [| exact Hfound].
    now intros r [H _].
  - now rewrite map_map.
  - clear Hnd Hin. induction Hsorted as [| a l Hs IH Hall]; simpl.
    + constructor.
    + inversion Hfound as [| ? ? Ha Hl]; subst.
      constructor; [now apply IH |].
      rewrite Forall_forall in Hall, Hl. apply Forall_forall.
      intros m Hm. apply in_map_iff in Hm. destruct Hm as (b & <- & Hb).
      specialize (Hall b Hb). specialize (Hl b Hb).
      destruct Ha as [_ Ha], Hl as [_ Hl].
      unfold memory_before, before in *. simpl. lia.
  - intros m Hm. apply in_map_iff in Hm. destruct Hm as (r & <- & Hr).
    destruct (Hin r Hr) as [_ H]. exact H.
Qed.

(** C1, where the code departs from it.  A search for the tag [code]
    returns the memory whose only tag is [decode]: the serialized tag list
    contains the text [code], the tag list does not contain the tag. *)
Theorem searchMemories_substring_match (ltm : LTMSQL.t) :
  let m := Memory.mk "m-1" (Some "c-1") "decode the message" 5 1000 ["decode"] in
  LTMSQL.searchMemories "" ["code"] (AwakeningService.mkSearchOptions None)
    (ltm, w_decode)
  = (Return [m], (ltm, w_decode))
  /\ ~ In "code" (Memory.tags m).
Proof.
  split; [reflexivity |].
  simpl. intros [H | []]. discriminate.
Qed.

(** ** Frames *)

Lemma preserves_ret {S A X : Type} (f : S -> X) (a : A) : preserves f (ret a).
Proof. intros s. reflexivity. Qed.

Lemma preserves_throw {S A X : Type} (f : S -> X) (e : exn) :
  preserves f (@throw S A e).
Proof. intros s. reflexivity. Qed.

Lemma preserves_gets {S A X : Type} (f : S -> X) (g : S -> A) :
  preserves f (gets g).
Proof. intros s. reflexivity. Qed.

Lemma preserves_bind {S A B X : Type} (f : S -> X) (m : M S A) (k : A -> M S B) :
  preserves f m -> (forall a, preserves f (k a)) -> preserves f (bind m k).
Proof.
  intros Hm Hk s. unfold bind. specialize (Hm s).
  destruct (m s) as [[a | e] s']; simpl in *; [| exact Hm].
  rewrite (Hk a s'). exact Hm.
Qed.

Lemma preserves_mapM {S A B X : Type} (f : S -> X) (g : A -> M S B)
    (xs : list A) :
  (forall a, preserves f (g a)) -> preserves f (mapM g xs).
Proof.
  intros Hg. induction xs as [| x xs IH]; simpl.
  - apply preserves_ret.
  - apply preserves_bind; [apply Hg | intros y].
    apply preserves_bind; [exact IH | intros ys; apply preserves_ret].
Qed.

Lemma preserves_liftW {A X : Type} (f : World -> X) (m : M World A) :
  preserves f m -> preserves (fun s : LTMSQL.Sys => f (snd s)) (LTMSQL.liftW m).
Proof.
  intros Hm [c w]. unfold LTMSQL.liftW. simpl. specialize (Hm w).
  destruct (m w) as [r w']. exact Hm.
Qed.

Lemma preserves_liftW_this {A X : Type} (f : LTMSQL.t -> X) (m : M World A) :
  preserves (fun s : LTMSQL.Sys => f (fst s)) (LTMSQL.liftW m).
Proof.
  intros [c w]. unfold LTMSQL.liftW. simpl. destruct (m w); reflexivity.
Qed.

Lemma returns_ret {S A : Type} (a : A) : returns (@ret S A a).
Proof. intros s. now exists a, s. Qed.

Lemma returns_bind {S A B : Type} (m : M S A) (k : A -> M S B) :
  returns m -> (forall a, returns (k a)) -> returns (bind m k).
Proof.
  intros Hm Hk s. destruct (Hm s) as (a & s' & Ha).
  destruct (Hk a s') as (b & s'' & Hb).
  exists b, s''. unfold bind. now rewrite Ha.
Qed.

Lemma returns_mapM {S A B : Type} (g : A -> M S B) (xs : list A) :
  (forall a, returns (g a)) -> returns (mapM g xs).
Proof.
  intros Hg. induction xs as [| x xs IH]; simpl.
  - apply returns_ret.
  - apply returns_bind; [apply Hg | intros y].
    apply returns_bind; [exact IH | intros ys; apply returns_ret].
Qed.

Lemma returns_liftW {A : Type} (m : M World A) :
  returns m -> returns (LTMSQL.liftW m).
Proof.
  intros Hm [c w]. destruct (Hm w) as (a & w' & Ha).
  exists a, (c, w'). unfold LTMSQL.liftW. simpl. now rewrite Ha.
Qed.

(** A step that computes its result and next state without a case
    distinction. *)
Ltac leaf := intros ?; first [reflexivity | do 2 eexists; reflexivity].

(** Goes through a computation along its binds and case distinctions;
    [known] closes the steps that have a lemma of their own. *)
Ltac frame_with known :=
  repeat first
    [ known
    | apply preserves_ret | apply preserves_throw | apply preserves_gets
    | apply returns_ret
    | apply preserves_bind; [| intros ?]
    | apply returns_bind; [| intros ?]
    | apply preserves_mapM; intros ?
    | apply returns_mapM; intros ?
    | apply preserves_liftW_this
    | apply preserves_liftW
    | apply returns_liftW
    | match goal with
      | |- preserves _ (match ?x with _ => _ end) => destruct x
      | |- returns (match ?x with _ => _ end) => destruct x
      end
    | leaf ].


Lemma or_else_preserves {S X : Type} (f : S -> X) (a : option string)
    (b : M S string) :
  preserves f b -> preserves f (or_else a b).
Proof. intros Hb. unfold or_else. frame_with ltac:(exact Hb). Qed.

Lemma or_else_returns {S : Type} (a : option string) (b : M S string) :
  returns b -> returns (or_else a b).
Proof. intros Hb. unfold or_else. frame_with ltac:(exact Hb). Qed.

(** Reading memories back draws at most identifiers. *)
Lemma getRecent_preserves {X : Type} (f : World -> X) (limit : Z) :
  preserves f uuidv4 -> preserves f (Memory.getRecent limit).
Proof.
  intros Hf. unfold Memory.getRecent, Memory.of_row, Memory.new.
  frame_with ltac:(apply or_else_preserves; exact Hf).
Qed.

Lemma getRecent_returns (limit : Z) :
  bindable limit -> returns (Memory.getRecent limit).
Proof.
  intros H. unfold Memory.getRecent. rewrite H. cbn [negb].
  unfold Memory.of_row, Memory.new.
  frame_with ltac:(apply or_else_returns; leaf).
Qed.

(** A limit that cannot be bound makes the query fail; nothing is
    changed. *)
Lemma getRecent_mismatch (limit : Z) (w : World) :
  ~ bindable limit ->
  Memory.getRecent limit w = (Throw (Error SQL.SQLITE_MISMATCH), w).
Proof.
  unfold bindable, Memory.getRecent. intros H.
  destruct (SQL.bindable limit); [contradiction H; reflexivity | reflexivity].
Qed.



Lemma evolveDreamstate_returns (p : Persona.t) (ms : list Memory.t)
    (opts : PersonaEvolver.options) :
  returns (PersonaEvolver.evolveDreamstate (Some p) ms opts).
Proof.
  intros w. unfold PersonaEvolver.evolveDreamstate.
  set (ch := PersonaEvolver.identifyPersonaChanges p ms opts). clearbody ch.
  unfold Persona.updateTraits, Persona.updateValues, Persona.updatePreferences,
    Persona.updateBiography, Persona.save, DreamstateUpdate.new, or_else.
  destruct (PersonaEvolver.biography ch) as [b |]; [destruct (String.eqb b "") |];
    cbn -[DreamstateUpdate.save SQL.insert_or_replace JS.spread];
    unfold bind at 1;
    (rewrite DreamstateUpdate_save_run
       by (apply references_insert_or_replace; reflexivity));
    do 2 eexists; reflexivity.
Qed.

(** ** Going to sleep *)

(** [endConversation] with an open conversation: the conversation gets
    its end time and is saved, the memory derived from it is stored, and
    the controller has no conversation any more. *)
Lemma endConversation_run (opts : MemoryProcessor.options)
    (o : AwakeningService.options) (p : option Persona.t) (c : Conversation.t)
    (ctx : option AwakeningService.context) (awake : bool) (w : World) :
  let k := clock_reads w in
  let c' := closed_at (clock w k) c in
  let m := memory_from (uuid w (uuid_draws w)) (clock w (S k)) c' opts in
  LTMSQL.endConversation opts (LTMSQL.mk o p (Some c) ctx awake, w)
  = (Return (Some m),
     (LTMSQL.mk o p None ctx awake,
      mkWorld (persona_table w)
        (SQL.insert_or_replace DB.c_conversation_id (Conversation.to_row c')
           (conversations w))
        (SQL.insert_or_replace DB.memory_id (Memory.to_row m) (memories w))
        (dreamstate_updates w)
        ((console w
          ++ [mkLine LOG
                ("Ended conversation ID: " ++ Conversation.conversationId c) None])
         ++ [mkLine LOG
               ("Created memory ID: " ++ uuid w (uuid_draws w)
                ++ " from conversation") None])
        (clock w) (S (S k)) (uuid w) (S (uuid_draws w)))).
Proof.
  intros k c' m.
  unfold LTMSQL.endConversation.
  cbn -[MemoryProcessor.processConversation SQL.insert_or_replace].
  unfold bind at 1, LTMSQL.liftW at 1. cbn [snd].
  rewrite processConversation_run
    by (apply references_insert_or_replace; reflexivity).
  reflexivity.
Qed.




(** With a persona, the dreamstate step returns an update and leaves the
    system asleep, without an awakening context. *)
Lemma dreamstate_run (opts : PersonaEvolver.options)
    (o : AwakeningService.options) (persona p' : Persona.t)
    (cur : option Conversation.t) (ctx : option AwakeningService.context)
    (awake : bool) (w w1 w2 : World) (ms : list Memory.t)
    (u : DreamstateUpdate.t) :
  Memory.getRecent (LTMSQL.sleep_limit opts) w = (Return ms, w1) ->
  PersonaEvolver.evolveDreamstate (Some persona) ms opts w1
  = (Return (u, p'), w2) ->
  LTMSQL.dreamstate opts (LTMSQL.mk o (Some persona) cur ctx awake, w)
  = (Return (Some u),
     (LTMSQL.mk o (Some p') cur None false,
      logged ("Created dreamstate update ID: " ++ DreamstateUpdate.updateId u)
        (logged "System entered sleep state" w2))).
Proof.
  intros Hms Hu.
  unfold LTMSQL.dreamstate, bind, LTMSQL.liftW, LTMSQL.this, gets.
  cbn [fst snd]. rewrite Hms. cbn [fst snd LTMSQL.persona]. rewrite Hu.
  reflexivity.
Qed.


(** [sleep] of an awake controller with an open conversation is the
    dreamstate step, run from the state that [endConversation] reaches. *)
Lemma sleep_ends_first (opts : PersonaEvolver.options)
    (o : AwakeningService.options) (p : option Persona.t) (c : Conversation.t)
    (ctx : option AwakeningService.context) (w : World) :
  let s := (LTMSQL.mk o p (Some c) ctx true, w) in
  LTMSQL.sleep opts s
  = LTMSQL.dreamstate opts
      (snd (LTMSQL.endConversation MemoryProcessor.no_options s)).
Proof.
  intros s. unfold LTMSQL.sleep, LTMSQL.this, gets, bind, s.
  cbn [fst snd LTMSQL.isAwake LTMSQL.currentConversation negb].
  rewrite endConversation_run. cbv beta iota zeta delta [ret snd].
  reflexivity.
Qed.



(** ** The transcript *)

Lemma string_app_assoc (a b c : string) : (a ++ b) ++ c = a ++ b ++ c.
Proof. induction a; simpl; congruence. Qed.

Lemma concat_app (xs ys : list string) :
  String.concat "" (xs ++ ys) = String.concat "" xs ++ String.concat "" ys.
Proof.
  induction xs as [| x xs IH]; simpl; [reflexivity |].
  destruct xs as [| x' xs].
  - simpl in *. destruct ys; simpl; [now rewrite string_app_nil_r | reflexivity].
  - simpl in *. rewrite IH. now rewrite string_app_assoc.
Qed.

(** [addMessage] appends the line of the message to the raw text and the
    message to the list of messages: a conversation whose raw text is the
    rendering of its messages stays so. *)
Lemma addMessage_transcript (role content : JS.arg) (c : Conversation.t)
    (w : World) :
  Conversation.rawText c = transcript_of (Conversation.messages c) ->
  exists (c' : Conversation.t) (w' : World),
    Conversation.addMessage role content c w = (Return c', w')
    /\ Conversation.rawText c' = transcript_of (Conversation.messages c')
    /\ Conversation.rawText c'
       = Conversation.rawText c ++ JS.to_string role ++ ": "
         ++ JS.to_string content ++ nl.
Proof.
  intros H. do 2 eexists. split; [reflexivity |].
  cbn [Conversation.rawText Conversation.messages].
  split; [| reflexivity].
  rewrite H. unfold transcript_of. rewrite map_app, concat_app.
  reflexivity.
Qed.

(** * Further properties of the code *)

(** ** Tags of a memory *)

Lemma mem_false_In (x : string) (xs : list string) :
  JS.mem x xs = false <-> ~ In x xs.
Proof.
  rewrite <- mem_In. destruct (JS.mem x xs); split; congruence.
Qed.

(** The loop of [addTags], from any list of tags. *)
Lemma addTags_loop (newTags : list string) :
  forall tags : list string,
    let result :=
      fold_left (fun ts tag => if JS.mem tag ts then ts else (ts ++ [tag])%list)
        newTags tags in
    (exists added : list string, result = (tags ++ added)%list)
    /\ (forall t, In t result <-> In t tags \/ In t newTags)
    /\ (NoDup tags -> NoDup result).
Proof.
  induction newTags as [| tag newTags IH]; intros tags; simpl.
  - split; [exists []; now rewrite app_nil_r |].
    split; [intros t; tauto | auto].
  - destruct (JS.mem tag tags) eqn:Hm.
    + destruct (IH tags) as ((added & Ha) & Hin & Hnd).
      split; [now exists added |].
      split; [| exact Hnd].
      intros t. rewrite Hin. apply mem_In in Hm.
      split; [tauto |]. intros [H | [<- | H]]; auto.
    + destruct (IH (tags ++ [tag])%list) as ((added & Ha) & Hin & Hnd).
      split; [exists (tag :: added); rewrite Ha, <- app_assoc; reflexivity |].
      split.
      * intros t. rewrite Hin, in_app_iff. simpl. tauto.
      * intros H. apply Hnd. apply mem_false_In in Hm.
        apply NoDup_app; [exact H | repeat constructor; simpl; tauto |].
        intros x Hx [<- | []]. contradiction.
Qed.

Lemma addTags_loop_known (newTags tags : list string) :
  (forall t, In t newTags -> In t tags) ->
  fold_left (fun ts tag => if JS.mem tag ts then ts else (ts ++ [tag])%list)
    newTags tags = tags.
Proof.
  revert tags. induction newTags as [| tag newTags IH]; intros tags H; simpl.
  - reflexivity.
  - replace (JS.mem tag tags) with true
      by (symmetry; apply mem_In, H; now left).
    apply IH. intros t Ht. apply H. now right.
Qed.

(** X1. [addTags] keeps the tags of the memory in their places and puts
    the missing ones behind them: every tag of the result is an old or a new
    one, every old and every new one is in the result, a tag set without
    repetition stays without, nothing but the tags changes, and adding the
    same tags again changes nothing. *)
Theorem addTags_spec (newTags : list string) (m : Memory.t) :
  let m' := Memory.addTags newTags m in
  (exists added : list string, Memory.tags m' = (Memory.tags m ++ added)%list)
  /\ (forall t, In t (Memory.tags m') <-> In t (Memory.tags m) \/ In t newTags)
  /\ (NoDup (Memory.tags m) -> NoDup (Memory.tags m'))
  /\ Memory.memoryId m' = Memory.memoryId m
  /\ Memory.conversationId m' = Memory.conversationId m
  /\ Memory.summary m' = Memory.summary m
  /\ Memory.importance m' = Memory.importance m
  /\ Memory.timestamp m' = Memory.timestamp m
  /\ Memory.addTags newTags m' = m'.
Proof.
  intros m'. destruct (addTags_loop newTags (Memory.tags m)) as (Ha & Hin & Hnd).
  repeat split; try assumption; try apply Hin.
  unfold m', Memory.addTags. simpl. f_equal.
  apply addTags_loop_known. intros t Ht. apply Hin. now right.
Qed.

(** X1 at a memory with the tags [user] and [help]. *)
Lemma addTags_spec_witness :
  NoDup (Memory.tags (Memory.addTags ["help"; "error"; "error"] m_tagged)).
Proof.
  apply (proj1 (proj2 (proj2 (addTags_spec ["help"; "error"; "error"] m_tagged)))).
  simpl. repeat constructor; simpl; intuition discriminate.
Defined.

Lemma dedupe_from_spec (xs : list string) :
  forall seen : list string,
    NoDup (JS.dedupe_from seen xs)
    /\ (forall x, In x (JS.dedupe_from seen xs) <-> In x xs /\ ~ In x seen).
Proof.
  induction xs as [| y xs IH]; intros seen; simpl.
  - split; [constructor | intros x; tauto].
  - destruct (JS.mem y seen) eqn:Hm.
    + destruct (IH seen) as [Hnd Hin]. split; [exact Hnd |].
      intros x. rewrite Hin. apply mem_In in Hm.
      split; [tauto |]. intros [[<- | H] Hn]; [contradiction | tauto].
    + destruct (IH (y :: seen)) as [Hnd Hin]. apply mem_false_In in Hm. split.
      * constructor; [| exact Hnd]. rewrite Hin. simpl. tauto.
      * intros x. simpl. rewrite Hin. simpl.
        destruct (String.eqb_spec y x) as [-> | Hne]; tauto.
Qed.

Lemma dedupe_tags_spec (ps ks : list string) (d : string)
    (f : string -> bool) :
  let tags := JS.dedupe_from [] (ps ++ [d] ++ filter f ks)%list in
  NoDup tags
  /\ (forall p, In p ps -> In p tags)
  /\ In d tags
  /\ (forall k, In k ks -> f k = true -> In k tags)
  /\ (forall t, In t tags -> In t ps \/ t = d \/ (In t ks /\ f t = true)).
Proof.
  intros tags. unfold tags.
  destruct (dedupe_from_spec (ps ++ [d] ++ filter f ks)%list []) as [Hnd Hin].
  split; [exact Hnd |].
  repeat split.
  - intros p Hp. apply Hin. split; [| tauto]. apply in_or_app. now left.
  - apply Hin. split; [| tauto]. apply in_or_app. right. now left.
  - intros k Hk Hinc. apply Hin. split; [| tauto].
    apply in_or_app. right. right. apply filter_In. now split.
  - intros t Ht. apply Hin in Ht. destruct Ht as [Ht _].
    apply in_app_or in Ht. destruct Ht as [Ht | [Ht | Ht]]; auto.
    apply filter_In in Ht. auto.
Qed.

(** X2. The tags that [generateTags] gives a memory hold no tag twice;
    they hold every participant and the start date of the conversation;
    and every one of them is a participant, the start date, or a keyword of
    the fixed vocabulary that occurs in the summary written in lower
    case. *)
Theorem generateTags_spec (c : Conversation.t) (summary : string)
    (opts : MemoryProcessor.options) :
  let tags := MemoryProcessor.generateTags c summary opts in
  let date := JS.iso_date (Conversation.startTime c) in
  NoDup tags
  /\ (forall p, In p (Conversation.participants c) -> In p tags)
  /\ In date tags
  /\ (forall k, In k MemoryProcessor.commonKeywords ->
                JS.includes (JS.toLowerCase summary) k = true -> In k tags)
  /\ (forall t, In t tags ->
        In t (Conversation.participants c)
        \/ t = date
        \/ (In t MemoryProcessor.commonKeywords
            /\ JS.includes (JS.toLowerCase summary) t = true)).
Proof.
  exact (dedupe_tags_spec (Conversation.participants c)
           MemoryProcessor.commonKeywords
           (JS.iso_date (Conversation.startTime c))
           (fun keyword => JS.includes (JS.toLowerCase summary) keyword)).
Qed.

(** X2 at the conversation [c12]. *)
Lemma generateTags_spec_witness :
  In "claude"
    (MemoryProcessor.generateTags c12 "user: hello" MemoryProcessor.no_options).
Proof.
  apply (proj1 (proj2 (generateTags_spec c12 "user: hello"
                         MemoryProcessor.no_options))).
  simpl. auto.
Defined.

(** ** Objects *)

Lemma get_replace {V : Type} (o : JS.obj V) (k k' : string) (v : V) :
  JS.has o k = true ->
  JS.get (JS.replace o k v) k' = if String.eqb k k' then Some v else JS.get o k'.
Proof.
  unfold JS.has. induction o as [| [k0 v0] o IH]; simpl; [discriminate |].
  destruct (String.eqb_spec k0 k) as [-> | Hne]; simpl.
  - intros _. destruct (String.eqb k k'); reflexivity.
  - intros H. rewrite (IH H).
    destruct (String.eqb_spec k0 k') as [<- | Hne'].
    + destruct (String.eqb_spec k k0); [congruence | reflexivity].
    + reflexivity.
Qed.

Lemma get_insert_key {V : Type} (o : JS.obj V) (k k' : string) (v : V) :
  JS.get o k = None ->
  JS.get (JS.insert_key o k v) k'
  = if String.eqb k k' then Some v else JS.get o k'.
Proof.
  induction o as [| [k0 v0] o IH]; simpl.
  - intros _. reflexivity.
  - destruct (String.eqb_spec k0 k) as [-> | Hne]; [discriminate |].
    intros H. specialize (IH H).
    assert (Hrec : JS.get ((k0, v0) :: JS.insert_key o k v) k'
                   = if String.eqb k k' then Some v
                     else if String.eqb k0 k' then Some v0 else JS.get o k').
    { simpl. rewrite IH.
      destruct (String.eqb_spec k0 k') as [<- | Hne'];
        [destruct (String.eqb_spec k k0); [congruence | reflexivity]
        | reflexivity]. }
    destruct (JS.array_index k) as [i |];
      [destruct (JS.array_index k0) as [j |]; [destruct (i <? j) |] |];
      first [exact Hrec | reflexivity].
Qed.

Lemma get_set {V : Type} (o : JS.obj V) (k k' : string) (v : V) :
  JS.get (JS.set o k v) k' = if String.eqb k k' then Some v else JS.get o k'.
Proof.
  unfold JS.set. destruct (JS.has o k) eqn:Hh.
  - now apply get_replace.
  - apply get_insert_key. unfold JS.has in Hh.
    destruct (JS.get o k); [discriminate | reflexivity].
Qed.

Lemma get_not_key {V : Type} (o : JS.obj V) (k : string) :
  ~ In k (map fst o) -> JS.get o k = None.
Proof.
  induction o as [| [k0 v0] o IH]; simpl; [reflexivity |].
  intros H. destruct (String.eqb_spec k0 k); [tauto | apply IH; tauto].
Qed.

(** ** The diff of a dreamstate update *)

Lemma diff_obj_loop {V : Type} (sne : V -> V -> bool) (prev new : JS.obj V)
    (k : string) :
  wf_obj new ->
  forall d : JS.obj (DreamstateUpdate.change V),
    JS.get
      (fold_left
         (fun d kv =>
            if DreamstateUpdate.differs sne (JS.get prev (fst kv)) (snd kv)
            then JS.set d (fst kv)
                   (DreamstateUpdate.mkChange (JS.get prev (fst kv)) (snd kv))
            else d)
         new d) k
    = match diff_entry sne prev new k with
      | Some c => Some c
      | None => JS.get d k
      end.
Proof.
  unfold wf_obj, diff_entry.
  induction new as [| [k0 v0] new IH]; intros Hwf d; simpl.
  - reflexivity.
  - inversion Hwf as [| ? ? Hk0 Hrest]; subst.
    rewrite (IH Hrest). clear IH.
    destruct (String.eqb_spec k0 k) as [-> | Hne].
    + rewrite (get_not_key new k Hk0).
      unfold DreamstateUpdate.differs.
      destruct (JS.get prev k) as [u |]; [destruct (sne u v0) |];
        rewrite ?get_set, ?String.eqb_refl; reflexivity.
    + destruct (JS.get new k) as [v |]; [destruct (JS.get prev k) as [u |];
        [destruct (sne u v) |] |]; try reflexivity;
        (destruct (DreamstateUpdate.differs sne (JS.get prev k0) v0);
         [rewrite get_set; destruct (String.eqb_spec k0 k); [congruence |] |];
         reflexivity).
Qed.

Lemma diff_obj_spec {V : Type} (sne : V -> V -> bool) (prev new : JS.obj V)
    (k : string) :
  wf_obj new ->
  JS.get (DreamstateUpdate.diff_obj sne prev new) k = diff_entry sne prev new k.
Proof.
  intros Hwf. unfold DreamstateUpdate.diff_obj, JS.entries.
  rewrite (diff_obj_loop sne prev new k Hwf []). simpl.
  now destruct (diff_entry sne prev new k).
Qed.

(** X3. For an update whose new state has no key twice and no key that
    is a name inherited from [Object.prototype], [getDiff] reports a trait,
    value or preference exactly when the new state has the key and the
    previous state lacks it or holds a different value, with the previous
    and the new value; a key that only the previous state has is not
    reported, and the biography is reported exactly when it differs. *)
Theorem getDiff_spec (u : DreamstateUpdate.t) :
  let p := DreamstateUpdate.previousState u in
  let q := DreamstateUpdate.newState u in
  let d := DreamstateUpdate.getDiff u in
  wf_obj (st_traits q) -> wf_obj (st_values q) -> wf_obj (st_preferences q) ->
  plain_keys (st_traits q) -> plain_keys (st_values q) ->
  plain_keys (st_preferences q) ->
  (forall k, JS.get (DreamstateUpdate.d_traits d) k
             = diff_entry JS.number_sne (st_traits p) (st_traits q) k)
  /\ (forall k, JS.get (DreamstateUpdate.d_values d) k
                = diff_entry JS.number_sne (st_values p) (st_values q) k)
  /\ (forall k, JS.get (DreamstateUpdate.d_preferences d) k
                = diff_entry (fun a b => negb (String.eqb a b))
                    (st_preferences p) (st_preferences q) k)
  /\ (st_biography p = st_biography q -> DreamstateUpdate.d_biography d = None)
  /\ (st_biography p <> st_biography q ->
      DreamstateUpdate.d_biography d = Some (st_biography p, st_biography q)).
Proof.
  intros p q d Ht Hv Hp _ _ _. unfold d, DreamstateUpdate.getDiff. simpl.
  fold p. fold q.
  split; [intros k; now apply diff_obj_spec |].
  split; [intros k; now apply diff_obj_spec |].
  split; [intros k; now apply diff_obj_spec |].
  destruct (String.eqb_spec (st_biography p) (st_biography q)); simpl;
    split; intros H; congruence.
Qed.

(** X3 at an update that raised [openness], dropped [humor] and added
    [patience]: the raise and the addition are reported, the drop is not. *)
Lemma getDiff_spec_witness :
  JS.get (DreamstateUpdate.d_traits (DreamstateUpdate.getDiff u_changed)) "humor"
  = None
  /\ JS.get (DreamstateUpdate.d_traits (DreamstateUpdate.getDiff u_changed))
       "patience"
     = Some (DreamstateUpdate.mkChange None (Persona.n (1 # 2))).
Proof.
  assert (H : forall k,
             JS.get (DreamstateUpdate.d_traits (DreamstateUpdate.getDiff u_changed)) k
             = diff_entry JS.number_sne
                 (st_traits (DreamstateUpdate.previousState u_changed))
                 (st_traits (DreamstateUpdate.newState u_changed)) k).
  { apply (getDiff_spec u_changed);
      unfold wf_obj, plain_keys; simpl; repeat constructor; simpl;
      intuition discriminate. }
  split; rewrite H; reflexivity.
Defined.

(** ** The length of a summary *)

Lemma prefix_of_substring (p r : string) :
  forall (n : nat) (s : string),
    String.substring 0 n s = p ++ r -> String.prefix p s = true.
Proof.
  induction p as [| a p IH]; intros n s H; simpl.
  - now destruct s.
  - destruct s as [| b s]; destruct n as [| n]; simpl in H; try discriminate.
    injection H as -> H. simpl.
    destruct (ascii_dec a a); [| congruence].
    now apply (IH n).
Qed.

(** X4. The summary of a transcript that is not empty is never longer
    than [maxLength] and three characters, and it is a beginning of the
    transcript, followed by three dots when the transcript was cut. *)
Theorem generateSummary_bounded (c : Conversation.t)
    (opts : MemoryProcessor.options) :
  let maxLength :=
    match MemoryProcessor.maxLength opts with Some m => m | None => 500 end in
  let transcript := Conversation.rawText c in
  let summary := MemoryProcessor.generateSummary c opts in
  (0 < String.length transcript)%nat ->
  Z.of_nat (String.length summary) <= Z.max maxLength 0 + 3
  /\ exists p : string,
       String.prefix p transcript = true
       /\ ((summary = p /\ Z.of_nat (String.length transcript) <= maxLength)
           \/ (summary = p ++ "..."
               /\ maxLength < Z.of_nat (String.length transcript))).
Proof.
  intros maxLength transcript summary Hpos.
  set (len := Z.of_nat (String.length transcript)).
  assert (Hlen : 0 < len) by (unfold len; lia).
  destruct (Z.le_gt_cases len maxLength) as [Hshort | Hlong].
  - assert (Hs : summary = transcript).
    { unfold summary, MemoryProcessor.generateSummary, Conversation.getFullText.
      fold maxLength. fold transcript. fold len.
      replace (0 <? len) with true by (symmetry; apply Z.ltb_lt; lia).
      assert (Hall : JS.substring0 transcript (Z.min maxLength len) = transcript).
      { unfold JS.substring0. apply substring_0_all. fold len. lia. }
      rewrite Hall. fold len.
      now replace (len <? len) with false by (symmetry; apply Z.ltb_ge; lia). }
    rewrite Hs. split; [fold len; lia |].
    exists transcript. split; [| left; split; [reflexivity | exact Hshort]].
    apply (prefix_of_substring transcript "" (String.length transcript)).
    rewrite string_app_nil_r. apply substring_0_all. lia.
  - assert (Hhead : Z.of_nat (String.length (take (Z.max maxLength 0) transcript))
                    <= Z.max maxLength 0).
    { unfold take. rewrite substring_0_length. lia. }
    destruct (generateSummary_long c opts Hlen Hlong)
      as [[_ Hs] | (p & q & Hh & _ & Hs)]; fold summary in Hs; rewrite Hs.
    + split; [simpl; lia |].
      exists "". split; [now destruct transcript | right; split; [reflexivity | exact Hlong]].
    + fold maxLength in Hh. fold transcript in Hh.
      rewrite Hh, string_app_length in Hhead.
      split; [rewrite string_app_length; simpl; lia |].
      exists p. split; [| right; split; [reflexivity | exact Hlong]].
      unfold take in Hh. eapply prefix_of_substring. exact Hh.
Qed.

(** X4 at the transcript of [c12], cut after 14 characters. *)
Lemma generateSummary_bounded_witness :
  Z.of_nat (String.length (MemoryProcessor.generateSummary c12 cut_at_14))
  <= Z.max 14 0 + 3
  /\ exists p : string,
       String.prefix p (Conversation.rawText c12) = true
       /\ ((MemoryProcessor.generateSummary c12 cut_at_14 = p
            /\ Z.of_nat (String.length (Conversation.rawText c12)) <= 14)
           \/ (MemoryProcessor.generateSummary c12 cut_at_14 = p ++ "..."
               /\ 14 < Z.of_nat (String.length (Conversation.rawText c12)))).
Proof.
  apply (generateSummary_bounded c12 cut_at_14). vm_compute. lia.
Defined.

(** ** Saving and loading *)

Section Upsert.
Context {A : Type}.
Variable key : A -> string.

Lemma find_other_key (k : string) (row : A) (rows : list A) :
  k <> key row ->
  find (fun r => String.eqb (key r) k) (SQL.insert_or_replace key row rows)
  = find (fun r => String.eqb (key r) k) rows.
Proof.
  intros Hk. unfold SQL.insert_or_replace.
  induction rows as [| r rows IH]; simpl.
  - destruct (String.eqb_spec (key row) k); [congruence | reflexivity].
  - destruct (String.eqb_spec (key r) (key row)) as [He | Hne]; simpl.
    + rewrite IH. destruct (String.eqb_spec (key r) k); [congruence | reflexivity].
    + rewrite IH. reflexivity.
Qed.

Lemma find_same_key (row : A) (rows : list A) :
  find (fun r => String.eqb (key r) (key row)) (SQL.insert_or_replace key row rows)
  = Some row.
Proof.
  unfold SQL.insert_or_replace.
  induction rows as [| r rows IH]; simpl.
  - now rewrite String.eqb_refl.
  - destruct (String.eqb (key r) (key row)) eqn:He; simpl; [exact IH |].
    rewrite He. exact IH.
Qed.

Lemma insert_or_replace_keys (row : A) (rows : list A) :
  NoDup (map key rows) -> NoDup (map key (SQL.insert_or_replace key row rows)).
Proof.
  intros Hnd. unfold SQL.insert_or_replace. rewrite map_app. simpl.
  apply NoDup_app.
  - induction rows as [| r rows IH]; simpl; [constructor |].
    inversion Hnd as [| ? ? Hr Hrest]; subst.
    destruct (String.eqb (key r) (key row)); simpl; [now apply IH |].
    constructor; [| now apply IH].
    intros Hin. apply Hr. apply in_map_iff in Hin.
    destruct Hin as (x & Hx & Hin). apply filter_In in Hin.
    apply in_map_iff. exists x. tauto.
  - repeat constructor. simpl. tauto.
  - intros k Hin [<- | []]. apply in_map_iff in Hin.
    destruct Hin as (x & Hx & Hin). apply filter_In in Hin.
    destruct Hin as [_ Hne]. rewrite Hx, String.eqb_refl in Hne. discriminate.
Qed.

Lemma insert_or_replace_length (row : A) (rows : list A) :
  (List.length (SQL.insert_or_replace key row rows) <= S (List.length rows))%nat.
Proof.
  unfold SQL.insert_or_replace. rewrite length_app. simpl.
  pose proof (filter_length_le
                (fun r => negb (String.eqb (key r) (key row))) rows). lia.
Qed.

End Upsert.

Lemma memory_of_to_row (m : Memory.t) :
  1 <= Memory.importance m <= 10 -> memory_of_row (Memory.to_row m) = m.
Proof.
  intros H. destruct m as [id cid s imp ts tags]. unfold memory_of_row. simpl in *.
  f_equal. lia.
Qed.

(** [Memory.load] with an identifier that is not empty reads the first
    row of that identifier and changes nothing. *)
Lemma Memory_load_run (id : string) (w : World) :
  id <> "" ->
  Memory.load id w
  = (Return (option_map memory_of_row
               (find (fun r => String.eqb (DB.memory_id r) id) (memories w))),
     w).
Proof.
  intros Hid. unfold Memory.load, bind, gets.
  destruct (find _ (memories w)) as [row |] eqn:Hf; [| reflexivity].
  apply find_some in Hf. destruct Hf as [_ He]. apply String.eqb_eq in He.
  rewrite of_row_saved by congruence. reflexivity.
Qed.

(** X5. A memory with an identifier and an importance between 1 and 10
    whose conversation, if it names one, is stored: the memory is saved, and
    it is what [load] with its identifier returns afterwards; loading any
    other identifier gives what it gave before; saving touches the table of
    memories only, leaves no second row with the identifier of the memory,
    and adds at most one row.  A memory that names a conversation which is
    not stored is refused: [save] fails on the foreign key and nothing is
    changed. *)
Theorem Memory_save_load (m : Memory.t) (w : World) :
  Memory.memoryId m <> "" ->
  1 <= Memory.importance m <= 10 ->
  (conversation_known (Memory.conversationId m) w ->
   exists w' : World,
     Memory.save m w = (Return m, w')
     /\ Memory.load (Memory.memoryId m) w' = (Return (Some m), w')
     /\ (forall id, id <> "" -> id <> Memory.memoryId m ->
           fst (Memory.load id w') = fst (Memory.load id w))
     /\ (NoDup (map DB.memory_id (memories w)) ->
         NoDup (map DB.memory_id (memories w')))
     /\ (List.length (memories w') <= S (List.length (memories w)))%nat
     /\ persona_table w' = persona_table w
     /\ conversations w' = conversations w
     /\ dreamstate_updates w' = dreamstate_updates w)
  /\ (~ conversation_known (Memory.conversationId m) w ->
      Memory.save m w = (Throw (Error SQL.SQLITE_CONSTRAINT), w)).
Proof.
  intros Hid Himp. split; [| apply Memory_save_refused].
  intros Hknown. eexists. split; [apply Memory_save_run; exact Hknown |].
  cbn [memories persona_table conversations dreamstate_updates].
  split.
  - rewrite Memory_load_run by exact Hid.
    cbn [memories].
    rewrite (find_same_key DB.memory_id (Memory.to_row m)).
    simpl. now rewrite memory_of_to_row.
  - split.
    + intros id Hne Hother. rewrite !Memory_load_run by exact Hne.
      cbn [memories fst].
      now rewrite (find_other_key DB.memory_id id (Memory.to_row m)).
    + split; [apply insert_or_replace_keys |].
      split; [apply insert_or_replace_length |].
      repeat split.
Qed.

(** X5 at the memory [m_tagged], whose conversation is [c-1]: it is saved
    where the conversation [c_open] is stored, and refused in the empty
    world. *)
Lemma Memory_save_load_witness :
  (exists w' : World,
     Memory.save m_tagged (with_conversation c_open w0) = (Return m_tagged, w')
     /\ Memory.load (Memory.memoryId m_tagged) w' = (Return (Some m_tagged), w'))
  /\ Memory.save m_tagged w0 = (Throw (Error SQL.SQLITE_CONSTRAINT), w0).
Proof.
  split.
  - destruct (proj1 (Memory_save_load m_tagged (with_conversation c_open w0)
                       ltac:(discriminate) ltac:(simpl; lia)))
      as (w' & Hsave & Hload & _); [reflexivity |].
    exists w'. split; assumption.
  - apply (proj2 (Memory_save_load m_tagged w0
                    ltac:(discriminate) ltac:(simpl; lia))).
    discriminate.
Defined.

(** X6. A conversation with an identifier that is saved and loaded again
    comes back with its times, participants, raw text and context, and
    without its messages: the list of messages is not stored. *)
Theorem Conversation_save_load (c : Conversation.t) (w : World) :
  Conversation.conversationId c <> "" ->
  exists w' : World,
    Conversation.save c w = (Return c, w')
    /\ Conversation.load (Conversation.conversationId c) w'
       = (Return (Some (without_messages c)), w')
    /\ (Conversation.load (Conversation.conversationId c) w' = (Return (Some c), w')
        <-> Conversation.messages c = []).
Proof.
  intros Hid. eexists. split; [reflexivity |].
  assert (Hload : forall w1,
             conversations w1
             = SQL.insert_or_replace DB.c_conversation_id (Conversation.to_row c)
                 (conversations w) ->
             Conversation.load (Conversation.conversationId c) w1
             = (Return (Some (without_messages c)), w1)).
  { intros w1 Hw1. unfold Conversation.load, bind, gets. rewrite Hw1.
    change (Conversation.conversationId c)
      with (DB.c_conversation_id (Conversation.to_row c)) at 1.
    rewrite (find_same_key DB.c_conversation_id (Conversation.to_row c)).
    unfold Conversation.of_row, Conversation.new, bind, or_else.
    cbn [Conversation.to_row DB.c_conversation_id DB.c_start_time DB.c_end_time
         DB.c_participants DB.c_raw_text DB.c_context].
    destruct (String.eqb_spec (Conversation.conversationId c) "");
      [contradiction | reflexivity]. }
  split; [apply Hload; reflexivity |].
  rewrite Hload by reflexivity. split.
  - intros H. injection H as H. rewrite <- H. reflexivity.
  - intros H. destruct c as [id st en ps raw cx ms]. simpl in H. subst ms.
    reflexivity.
Qed.

(** X6 at the open conversation [c_open], which has one message. *)
Lemma Conversation_save_load_witness :
  exists w' : World,
    Conversation.save c_open w0 = (Return c_open, w')
    /\ Conversation.load (Conversation.conversationId c_open) w'
       = (Return (Some (without_messages c_open)), w')
    /\ (Conversation.load (Conversation.conversationId c_open) w'
        = (Return (Some c_open), w')
        <-> Conversation.messages c_open = []).
Proof.
  apply (Conversation_save_load c_open w0). discriminate.
Defined.

(** X7. A persona with an identifier, and without a [NaN] among its
    traits and values, that is saved and loaded again comes back with its
    traits, values, preferences and biography; its time of last update is
    the time of loading, not the one that was stored. *)
Theorem Persona_save_load (p : Persona.t) (w : World) :
  Persona.personaId p <> "" ->
  no_NaN (Persona.traits p) -> no_NaN (Persona.values p) ->
  exists w' : World,
    Persona.save p w = (Return p, w')
    /\ In (Persona.to_row p) (persona_table w')
    /\ exists w'' : World,
         Persona.load (Persona.personaId p) w'
         = (Return (Some (updated_at (clock w' (clock_reads w')) p)), w'')
         /\ persona_table w'' = persona_table w'
         /\ clock_reads w'' = S (clock_reads w').
Proof.
  intros Hid _ _. eexists. split; [reflexivity |].
  split; [apply insert_or_replace_In |].
  eexists. split.
  - unfold Persona.load, bind, gets. cbn [persona_table].
    change (Persona.personaId p)
      with (DB.p_persona_id (Persona.to_row p)) at 1.
    rewrite (find_same_key DB.p_persona_id (Persona.to_row p)).
    unfold Persona.of_row, Persona.new, bind, or_else.
    cbn [Persona.to_row DB.p_persona_id DB.p_traits DB.p_values DB.p_preferences
         DB.p_biography].
    destruct (String.eqb_spec (Persona.personaId p) "");
      [contradiction | reflexivity].
  - split; reflexivity.
Qed.

(** X7 at the default persona. *)
Lemma Persona_save_load_witness :
  exists w' : World,
    Persona.save default_persona w0 = (Return default_persona, w')
    /\ In (Persona.to_row default_persona) (persona_table w')
    /\ exists w'' : World,
         Persona.load (Persona.personaId default_persona) w'
         = (Return (Some (updated_at (clock w' (clock_reads w')) default_persona)),
            w'')
         /\ persona_table w'' = persona_table w'
         /\ clock_reads w'' = S (clock_reads w').
Proof.
  apply (Persona_save_load default_persona w0).
  - discriminate.
  - repeat constructor; discriminate.
  - repeat constructor; discriminate.
Defined.

(** ** The current persona *)

Lemma order_by_desc_head {A : Type} (k : A -> Z) (rows : list A) :
  rows <> [] ->
  exists (top : A) (rest : list A),
    SQL.order_by_desc k rows = top :: rest
    /\ In top rows
    /\ (forall r, In r rows -> k r <= k top).
Proof.
  intros Hne. unfold SQL.order_by_desc.
  pose proof (sort_perm (fun a b => k b - k a) rows) as Hperm.
  pose proof (sort_sorted (fun a b => k b - k a)) as Hsorted.
  specialize (Hsorted ltac:(intros; lia) ltac:(intros; lia) rows).
  destruct (JS.sort (fun a b => k b - k a) rows) as [| top rest] eqn:Hs.
  - apply Permutation_nil in Hperm. contradiction.
  - exists top, rest. split; [reflexivity |].
    split; [apply (Permutation_in _ Hperm); now left |].
    intros r Hr. apply (Permutation_in _ (Permutation_sym Hperm)) in Hr.
    destruct Hr as [<- | Hr]; [lia |].
    inversion Hsorted as [| ? ? _ Hall]; subst.
    rewrite Forall_forall in Hall. specialize (Hall r Hr). lia.
Qed.

Lemma loadMostRecent_empty (w : World) :
  persona_table w = [] -> Persona.loadMostRecent w = (Return None, w).
Proof.
  intros H. unfold Persona.loadMostRecent, bind, gets. rewrite H. reflexivity.
Qed.

Lemma loadMostRecent_top (w : World) (row : DB.persona_row)
    (rest : list DB.persona_row) :
  SQL.order_by_desc DB.p_last_updated (persona_table w) = row :: rest ->
  DB.p_persona_id row <> "" ->
  Persona.loadMostRecent w
  = (Return (Some (Persona.mk (DB.p_persona_id row) (DB.p_traits row)
                     (DB.p_values row) (DB.p_preferences row)
                     (DB.p_biography row) (clock w (clock_reads w)))),
     mkWorld (persona_table w) (conversations w) (memories w)
       (dreamstate_updates w) (console w) (clock w) (S (clock_reads w))
       (uuid w) (uuid_draws w)).
Proof.
  intros Hs Hid. unfold Persona.loadMostRecent, bind, gets. rewrite Hs.
  change (SQL.limit 1 (row :: rest)) with [row].
  unfold Persona.of_row, Persona.new, bind, or_else.
  destruct (String.eqb_spec (DB.p_persona_id row) ""); [contradiction |].
  reflexivity.
Qed.

(** [createDefault] stores a persona with the default content. *)
Lemma createDefault_run (w : World) :
  exists (p : Persona.t) (w' : World),
    Persona.createDefault w = (Return p, w')
    /\ persona_table w'
       = SQL.insert_or_replace DB.p_persona_id (Persona.to_row p) (persona_table w)
    /\ Persona.traits p = Persona.traits default_persona
    /\ Persona.values p = Persona.values default_persona
    /\ Persona.preferences p = Persona.preferences default_persona
    /\ Persona.biography p = Persona.biography default_persona
    /\ memories w' = memories w
    /\ conversations w' = conversations w
    /\ dreamstate_updates w' = dreamstate_updates w.
Proof.
  unfold Persona.createDefault, Persona.new, Persona.save.
  unfold bind at 1. cbv beta iota delta [uuidv4].
  unfold bind at 1. unfold bind at 2. unfold or_else.
  destruct (String.eqb (uuid w (uuid_draws w)) "");
    do 2 eexists; (split; [reflexivity |]); repeat split.
Qed.

(** X8. With an empty persona table, [ensureExists] stores the default
    persona as the only row and returns it.  With a table that is not
    empty (and holds no empty identifier) it writes nothing and returns the
    content of a row that no other row was updated after. *)
Theorem ensureExists_spec :
  (forall w : World,
      persona_table w = [] ->
      exists (p : Persona.t) (w' : World),
        Persona.ensureExists w = (Return p, w')
        /\ persona_table w' = [Persona.to_row p]
        /\ Persona.traits p = Persona.traits default_persona
        /\ Persona.values p = Persona.values default_persona
        /\ Persona.preferences p = Persona.preferences default_persona
        /\ Persona.biography p = Persona.biography default_persona
        /\ memories w' = memories w
        /\ conversations w' = conversations w
        /\ dreamstate_updates w' = dreamstate_updates w)
  /\
  (forall w : World,
      persona_table w <> [] ->
      Forall (fun r => DB.p_persona_id r <> "") (persona_table w) ->
      exists (p : Persona.t) (w' : World) (row : DB.persona_row),
        Persona.ensureExists w = (Return p, w')
        /\ In row (persona_table w)
        /\ (forall r, In r (persona_table w) ->
              DB.p_last_updated r <= DB.p_last_updated row)
        /\ Persona.personaId p = DB.p_persona_id row
        /\ Persona.traits p = DB.p_traits row
        /\ Persona.values p = DB.p_values row
        /\ Persona.preferences p = DB.p_preferences row
        /\ Persona.biography p = DB.p_biography row
        /\ persona_table w' = persona_table w
        /\ memories w' = memories w
        /\ conversations w' = conversations w
        /\ dreamstate_updates w' = dreamstate_updates w).
Proof.
  split.
  - intros w Hempty.
    destruct (createDefault_run w) as (p & w' & Hrun & Htab & H).
    exists p, w'. split.
    + unfold Persona.ensureExists, bind.
      rewrite (loadMostRecent_empty w Hempty). exact Hrun.
    + split; [| exact H]. rewrite Htab, Hempty. reflexivity.
  - intros w Hne Hids.
    destruct (order_by_desc_head DB.p_last_updated (persona_table w) Hne)
      as (row & rest & Hsort & Hin & Hmax).
    assert (Hid : DB.p_persona_id row <> "").
    { rewrite Forall_forall in Hids. now apply Hids. }
    do 2 eexists. exists row. split.
    + unfold Persona.ensureExists, bind.
      rewrite (loadMostRecent_top w row rest Hsort Hid). reflexivity.
    + repeat split; assumption.
Qed.

(** X8 at a table with two personas: the one updated last is returned. *)
Lemma ensureExists_spec_witness :
  exists (p : Persona.t) (w' : World) (row : DB.persona_row),
    Persona.ensureExists w_two_personas = (Return p, w')
    /\ In row (persona_table w_two_personas)
    /\ (forall r, In r (persona_table w_two_personas) ->
          DB.p_last_updated r <= DB.p_last_updated row)
    /\ Persona.personaId p = DB.p_persona_id row
    /\ Persona.traits p = DB.p_traits row
    /\ Persona.values p = DB.p_values row
    /\ Persona.preferences p = DB.p_preferences row
    /\ Persona.biography p = DB.p_biography row
    /\ persona_table w' = persona_table w_two_personas
    /\ memories w' = memories w_two_personas
    /\ conversations w' = conversations w_two_personas
    /\ dreamstate_updates w' = dreamstate_updates w_two_personas.
Proof.
  apply (proj2 ensureExists_spec w_two_personas).
  - discriminate.
  - repeat constructor; discriminate.
Defined.

(** ** Starting a conversation *)

Lemma startConversation_fresh (participants : list string) (context : string)
    (o : AwakeningService.options) (p : option Persona.t)
    (ctx : option AwakeningService.context) (awake : bool) (w : World) :
  let c := Conversation.mk (uuid w (uuid_draws w)) (clock w (clock_reads w)) None
             participants "" context [] in
  LTMSQL.startConversation participants context
    (LTMSQL.mk o p None ctx awake, w)
  = (Return c,
     (LTMSQL.mk o p (Some c) ctx awake,
      mkWorld (persona_table w)
        (SQL.insert_or_replace DB.c_conversation_id (Conversation.to_row c)
           (conversations w))
        (memories w) (dreamstate_updates w)
        (console w
         ++ [mkLine LOG ("Started conversation ID: " ++ uuid w (uuid_draws w)) None])
        (clock w) (S (clock_reads w)) (uuid w) (S (uuid_draws w)))).
Proof.
  unfold LTMSQL.startConversation, Conversation.new, or_else, bind,
    LTMSQL.this, gets.
  reflexivity.
Qed.

(** With a conversation open, [startConversation] warns, ends that
    conversation, and goes on as it does without one. *)
Lemma startConversation_ends_first (participants : list string)
    (context : string) (o : AwakeningService.options) (p : option Persona.t)
    (c0 : Conversation.t) (ctx : option AwakeningService.context)
    (awake : bool) (w : World) :
  LTMSQL.startConversation participants context
    (LTMSQL.mk o p (Some c0) ctx awake, w)
  = LTMSQL.startConversation participants context
      (snd (LTMSQL.endConversation MemoryProcessor.no_options
              (LTMSQL.mk o p (Some c0) ctx awake,
               warned "Ending existing conversation before starting a new one" w))).
Proof.
  rewrite endConversation_run. cbn [snd]. rewrite startConversation_fresh.
  unfold LTMSQL.startConversation, LTMSQL.this, gets, bind.
  cbn [fst snd LTMSQL.currentConversation].
  unfold LTMSQL.liftW at 1. cbn [fst snd]. unfold console_warn at 1.
  cbv beta iota delta [console_emit modify].
  change (mkWorld (persona_table w) (conversations w) (memories w)
            (dreamstate_updates w)
            (console w ++ [mkLine WARN
               "Ending existing conversation before starting a new one" None])
            (clock w) (clock_reads w) (uuid w) (uuid_draws w))
    with (warned "Ending existing conversation before starting a new one" w).
  rewrite endConversation_run.
  reflexivity.
Qed.

Lemma insert_or_replace_keeps {A : Type} (key : A -> string) (row r : A)
    (rows : list A) :
  In r rows -> key r <> key row -> In r (SQL.insert_or_replace key row rows).
Proof.
  intros Hin Hne. unfold SQL.insert_or_replace. apply in_or_app. left.
  apply filter_In. split; [exact Hin |].
  destruct (String.eqb_spec (key r) (key row)); [contradiction | reflexivity].
Qed.

(** X9. [startConversation] always returns a new conversation that is
    open, has no text and no messages, carries the given participants and
    context, is saved, and is the current conversation of the controller;
    nothing else of the controller changes.  A conversation that was open
    before is ended first: its memory is stored, and its row, now with an end
    time, stays in the table unless the new identifier is the same. *)
Theorem startConversation_spec (participants : list string) (context : string)
    (o : AwakeningService.options) (p : option Persona.t)
    (cur : option Conversation.t) (ctx : option AwakeningService.context)
    (awake : bool) (w : World) :
  exists (c : Conversation.t) (w' : World),
    LTMSQL.startConversation participants context
      (LTMSQL.mk o p cur ctx awake, w)
    = (Return c, (LTMSQL.mk o p (Some c) ctx awake, w'))
    /\ Conversation.endTime c = None
    /\ Conversation.rawText c = ""
    /\ Conversation.messages c = []
    /\ Conversation.participants c = participants
    /\ Conversation.context c = context
    /\ In (Conversation.to_row c) (conversations w')
    /\ match cur with
       | None => memories w' = memories w
       | Some c0 =>
           exists (m : Memory.t) (d : Z),
             In (Memory.to_row m) (memories w')
             /\ Memory.conversationId m = Some (Conversation.conversationId c0)
             /\ (Conversation.conversationId c <> Conversation.conversationId c0 ->
                 In (Conversation.to_row (closed_at d c0)) (conversations w'))
       end.
Proof.
  destruct cur as [c0 |].
  - rewrite startConversation_ends_first, endConversation_run. cbn [snd].
    rewrite startConversation_fresh.
    do 2 eexists. split; [reflexivity |].
    cbn [Conversation.endTime Conversation.rawText Conversation.messages
         Conversation.participants Conversation.context conversations memories].
    repeat split; try apply insert_or_replace_In.
    eexists. eexists. split; [apply insert_or_replace_In |].
    split; [reflexivity |].
    intros Hne. apply insert_or_replace_keeps; [apply insert_or_replace_In |].
    cbn in Hne |- *. intros Heq. apply Hne. symmetry. exact Heq.
  - rewrite startConversation_fresh.
    do 2 eexists. split; [reflexivity |].
    repeat split. apply insert_or_replace_In.
Qed.

(** ** Awakening *)

Lemma of_row_returns (row : DB.memory_row) : returns (Memory.of_row row).
Proof.
  unfold Memory.of_row, Memory.new.
  frame_with ltac:(apply or_else_returns; leaf).
Qed.

Lemma getImportant_returns (threshold limit : Z) :
  bindable limit -> returns (Memory.getImportant threshold limit).
Proof.
  intros H. unfold Memory.getImportant. rewrite H. cbn [negb].
  frame_with ltac:(apply of_row_returns).
Qed.

Lemma getByPersona_returns (personaId : string) (limit : Z) :
  bindable limit -> returns (DreamstateUpdate.getByPersona personaId limit).
Proof.
  intros H. unfold DreamstateUpdate.getByPersona. rewrite H. cbn [negb].
  unfold DreamstateUpdate.of_row, DreamstateUpdate.new.
  frame_with ltac:(apply or_else_returns; leaf).
Qed.

Lemma ensureExists_returns : returns Persona.ensureExists.
Proof.
  unfold Persona.ensureExists, Persona.loadMostRecent, Persona.createDefault,
    Persona.of_row, Persona.save, Persona.new.
  frame_with ltac:(apply or_else_returns; leaf).
Qed.

Lemma AwakeningService_awaken_returns (opts : AwakeningService.options) :
  bindable_limits opts -> returns (AwakeningService.awaken opts).
Proof.
  intros (H1 & H2 & H3). unfold AwakeningService.awaken.
  frame_with ltac:(first [ apply ensureExists_returns
                         | apply getRecent_returns; exact H1
                         | apply getImportant_returns; exact H2
                         | apply getByPersona_returns; exact H3 ]).
Qed.

(** Asleep and without a conversation, [awaken] builds the context,
    keeps it, marks the system awake and returns when the conversation that
    it starts is created and being saved. *)
Lemma awaken_run (opts o : AwakeningService.options) (p : option Persona.t)
    (ctx0 : option AwakeningService.context)
    (ctx : AwakeningService.context) (w w1 : World) :
  let c := Conversation.mk (uuid w1 (uuid_draws w1)) (clock w1 (clock_reads w1))
             None ["user"; "claude"] "" "" [] in
  AwakeningService.awaken (AwakeningService.merge o opts) w = (Return ctx, w1) ->
  LTMSQL.awaken opts (LTMSQL.mk o p None ctx0 false, w)
  = (Return (Some ctx),
     (LTMSQL.mk o p (Some c) (Some ctx) true,
      mkWorld (persona_table w1)
        (SQL.insert_or_replace DB.c_conversation_id (Conversation.to_row c)
           (conversations w1))
        (memories w1) (dreamstate_updates w1)
        (console w1 ++ [mkLine LOG "System awakened successfully" None])
        (clock w1) (S (clock_reads w1)) (uuid w1) (S (uuid_draws w1)))).
Proof.
  intros c Hctx.
  unfold LTMSQL.awaken.
  unfold bind at 1. unfold LTMSQL.this at 1. unfold gets at 1.
  cbn [fst snd LTMSQL.isAwake].
  unfold bind at 1. unfold LTMSQL.this at 1. unfold gets at 1.
  cbn [fst snd LTMSQL.options].
  unfold bind at 1. unfold LTMSQL.liftW at 1. cbn [fst snd].
  rewrite Hctx.
  reflexivity.
Qed.

(** Asleep and with a conversation open, [awaken] returns when that
    conversation has been given its end time and is being saved: it is
    still the current conversation. *)
Lemma awaken_run_open (opts o : AwakeningService.options) (p : option Persona.t)
    (c0 : Conversation.t) (ctx0 : option AwakeningService.context)
    (ctx : AwakeningService.context) (w w1 : World) :
  let c := closed_at (clock w1 (clock_reads w1)) c0 in
  AwakeningService.awaken (AwakeningService.merge o opts) w = (Return ctx, w1) ->
  LTMSQL.awaken opts (LTMSQL.mk o p (Some c0) ctx0 false, w)
  = (Return (Some ctx),
     (LTMSQL.mk o p (Some c) (Some ctx) true,
      mkWorld (persona_table w1)
        (SQL.insert_or_replace DB.c_conversation_id (Conversation.to_row c)
           (conversations w1))
        (memories w1) (dreamstate_updates w1)
        ((console w1
          ++ [mkLine WARN
                "Ending existing conversation before starting a new one" None])
         ++ [mkLine LOG "System awakened successfully" None])
        (clock w1) (S (clock_reads w1)) (uuid w1) (uuid_draws w1))).
Proof.
  intros c Hctx.
  unfold LTMSQL.awaken.
  unfold bind at 1. unfold LTMSQL.this at 1. unfold gets at 1.
  cbn [fst snd LTMSQL.isAwake].
  unfold bind at 1. unfold LTMSQL.this at 1. unfold gets at 1.
  cbn [fst snd LTMSQL.options].
  unfold bind at 1. unfold LTMSQL.liftW at 1. cbn [fst snd].
  rewrite Hctx.
  reflexivity.
Qed.

Lemma startConversation_returns (participants : list string) (context : string)
    (o : AwakeningService.options) (p : option Persona.t)
    (cur : option Conversation.t) (ctx : option AwakeningService.context)
    (awake : bool) (w : World) :
  exists (c : Conversation.t) (w' : World),
    LTMSQL.startConversation participants context
      (LTMSQL.mk o p cur ctx awake, w)
    = (Return c, (LTMSQL.mk o p (Some c) ctx awake, w'))
    /\ Conversation.endTime c = None
    /\ Conversation.messages c = []
    /\ Conversation.rawText c = ""
    /\ Conversation.participants c = participants
    /\ In (Conversation.to_row c) (conversations w')
    /\ persona_table w' = persona_table w
    /\ dreamstate_updates w' = dreamstate_updates w.
Proof.
  destruct cur as [c0 |].
  - rewrite startConversation_ends_first, endConversation_run. cbn [snd].
    rewrite startConversation_fresh.
    do 2 eexists. split; [reflexivity |].
    repeat split. apply insert_or_replace_In.
  - rewrite startConversation_fresh.
    do 2 eexists. split; [reflexivity |].
    repeat split. apply insert_or_replace_In.
Qed.

(** ** Reading memories by recency and by importance *)

Lemma sorted_split {A : Type} (R : A -> A -> Prop) (k : nat) (l : list A) :
  StronglySorted R l ->
  forall a b : A, In a (firstn k l) -> In b (skipn k l) -> R a b.
Proof.
  intros Hs. revert k. induction Hs as [| x l Hs IH Hall]; intros k a b.
  - destruct k; intros [].
  - destruct k as [| k]; simpl; [intros [] |].
    intros [<- | Ha] Hb.
    + rewrite Forall_forall in Hall. apply Hall.
      rewrite <- (firstn_skipn k l). apply in_or_app. now right.
    + now apply (IH k).
Qed.

Lemma limit_In {A : Type} (n : Z) (l : list A) (x : A) :
  In x (SQL.limit n l) -> In x l.
Proof.
  unfold SQL.limit. destruct (n <? 0); [trivial | apply firstn_In].
Qed.

Lemma limit_sorted {A : Type} (R : A -> A -> Prop) (n : Z) (l : list A) :
  StronglySorted R l -> StronglySorted R (SQL.limit n l).
Proof.
  unfold SQL.limit. destruct (n <? 0); [trivial | apply firstn_sorted].
Qed.

(** [LIMIT] on an ordered list keeps the rows that come first: a row that
    is left out comes after every row that is kept. *)
Lemma limit_top {A : Type} (R : A -> A -> Prop) (n : Z) (l : list A) :
  StronglySorted R l ->
  forall a b : A,
    In a (SQL.limit n l) -> In b l -> ~ In b (SQL.limit n l) -> R a b.
Proof.
  intros Hs a b Ha Hb Hnot. unfold SQL.limit in *.
  destruct (n <? 0); [contradiction |].
  apply (sorted_split R (Z.to_nat n) l Hs); [exact Ha |].
  rewrite <- (firstn_skipn (Z.to_nat n) l) in Hb.
  apply in_app_or in Hb. destruct Hb; [contradiction | assumption].
Qed.

Lemma limit_length {A : Type} (n : Z) (l : list A) :
  List.length (SQL.limit n l)
  = if n <? 0 then List.length l else Nat.min (Z.to_nat n) (List.length l).
Proof.
  unfold SQL.limit. destruct (n <? 0); [reflexivity | apply length_firstn].
Qed.

Lemma order_by_desc_sorted {A : Type} (k : A -> Z) (rows : list A) :
  StronglySorted (fun a b => k b <= k a) (SQL.order_by_desc k rows).
Proof.
  unfold SQL.order_by_desc.
  pose proof (sort_sorted (fun a b => k b - k a)
                ltac:(intros; lia) ltac:(intros; lia) rows) as Hs.
  induction Hs as [| a l _ IH Hall]; constructor; [exact IH |].
  eapply Forall_impl; [| exact Hall]. simpl. intros b Hb. lia.
Qed.

Lemma order_by_desc_perm {A : Type} (k : A -> Z) (rows : list A) :
  Permutation (SQL.order_by_desc k rows) rows.
Proof. apply sort_perm. Qed.

(** Two comparators that agree on the elements of a list sort it alike. *)
Lemma insert_ext {A : Type} (cmp cmp' : A -> A -> Z) (x : A) (l : list A) :
  (forall b, In b l -> (0 <? cmp x b) = (0 <? cmp' x b)) ->
  JS.insert cmp x l = JS.insert cmp' x l.
Proof.
  induction l as [| y l IH]; intros H; simpl; [reflexivity |].
  rewrite <- (H y) by now left.
  destruct (0 <? cmp x y); [| reflexivity].
  f_equal. apply IH. intros b Hb. apply H. now right.
Qed.

Lemma sort_ext {A : Type} (cmp cmp' : A -> A -> Z) (l : list A) :
  (forall a b, In a l -> In b l -> (0 <? cmp a b) = (0 <? cmp' a b)) ->
  JS.sort cmp l = JS.sort cmp' l.
Proof.
  induction l as [| x l IH]; intros H; simpl; [reflexivity |].
  rewrite IH by (intros a b Ha Hb; apply H; now right).
  apply insert_ext. intros b Hb. apply H; [now left | right].
  apply (Permutation_in _ (sort_perm cmp' l)). exact Hb.
Qed.

Lemma iso_ordered_incl (xs ys : list Z) :
  incl xs ys -> iso_ordered ys -> iso_ordered xs.
Proof. intros Hi H a b Ha Hb. apply H; now apply Hi. Qed.

Lemma positive_sgn (z : Z) : (0 <? Z.sgn z) = (0 <? z).
Proof. destruct z; reflexivity. Qed.

(** Where the texts of the times are ordered as the times, the order of
    the texts is the order of the times. *)
Lemma order_by_text_desc_times {A : Type} (k : A -> Z) (rows : list A) :
  iso_ordered (map k rows) ->
  SQL.order_by_text_desc (fun r => toISOString (k r)) rows
  = SQL.order_by_desc k rows.
Proof.
  intros H. unfold SQL.order_by_text_desc, SQL.order_by_desc.
  apply sort_ext. intros a b Ha Hb.
  rewrite (H (k b) (k a)) by now apply in_map.
  apply positive_sgn.
Qed.

Lemma dated_filter (f : DB.memory_row -> bool) (rows : list DB.memory_row) :
  dated rows -> dated (filter f rows).
Proof.
  apply iso_ordered_incl. intros t Ht. apply in_map_iff in Ht.
  destruct Ht as (r & <- & Hr). apply filter_In in Hr. apply in_map. tauto.
Qed.


Lemma by_importance_then_recency_sorted (rows : list DB.memory_row) :
  StronglySorted before (JS.sort Memory.by_importance_then_recency rows).
Proof.
  assert (Hs : StronglySorted
                 (fun a b => Memory.by_importance_then_recency a b <= 0)
                 (JS.sort Memory.by_importance_then_recency rows)).
  { apply sort_sorted.
    - unfold Memory.by_importance_then_recency. intros a b.
      destruct (Z.eqb_spec (DB.importance a) (DB.importance b)),
               (Z.eqb_spec (DB.importance b) (DB.importance a)); simpl; lia.
    - unfold Memory.by_importance_then_recency. intros a b c.
      destruct (Z.eqb_spec (DB.importance a) (DB.importance b)),
               (Z.eqb_spec (DB.importance b) (DB.importance c)),
               (Z.eqb_spec (DB.importance a) (DB.importance c)); simpl; lia. }
  induction Hs as [| a l _ IH Hall]; constructor; [exact IH |].
  eapply Forall_impl; [| exact Hall].
  intros b Hb. now apply by_importance_then_recency_before.
Qed.

Lemma saved_row_round_trip (r : DB.memory_row) :
  saved_row r -> Memory.to_row (memory_of_row r) = r.
Proof.
  intros [_ H]. destruct r as [id cid s imp ts tags].
  unfold memory_of_row, Memory.to_row. simpl in *. f_equal. lia.
Qed.

Lemma memory_of_row_sorted (R : DB.memory_row -> DB.memory_row -> Prop)
    (R' : Memory.t -> Memory.t -> Prop) (rows : list DB.memory_row) :
  (forall a b, In a rows -> In b rows -> R a b ->
     R' (memory_of_row a) (memory_of_row b)) ->
  StronglySorted R rows -> StronglySorted R' (map memory_of_row rows).
Proof.
  intros HR Hs. induction Hs as [| a l Hs IH Hall]; simpl; constructor.
  - apply IH. intros x y Hx Hy. apply HR; now right.
  - rewrite Forall_forall in Hall. apply Forall_forall.
    intros m Hm. apply in_map_iff in Hm. destruct Hm as (b & <- & Hb).
    apply HR; [now left | now right | now apply Hall].
Qed.

(** X10. On a table written by [Memory.save] whose time stamps are
    ordered as their texts are, [getRecent] with a limit that can be bound changes
    nothing and returns stored memories, the most recent first; with a limit
    that is not negative it returns at most that many, with a negative limit
    all of them; and no memory that it leaves out is more recent than one
    that it returns.  With a limit that cannot be bound ([2^63], say) it
    fails. *)
Theorem getRecent_spec (limit : Z) (w : World) :
  Forall saved_row (memories w) ->
  dated (memories w) ->
  (bindable limit ->
   exists ms : list Memory.t,
     Memory.getRecent limit w = (Return ms, w)
     /\ List.length ms
        = (if limit <? 0 then List.length (memories w)
           else Nat.min (Z.to_nat limit) (List.length (memories w)))
     /\ StronglySorted
          (fun a b => Memory.timestamp b <= Memory.timestamp a) ms
     /\ (forall m, In m ms -> In (Memory.to_row m) (memories w))
     /\ (forall m r, In m ms -> In r (memories w) ->
           ~ In (memory_of_row r) ms -> DB.timestamp r <= Memory.timestamp m))
  /\ (~ bindable limit ->
      Memory.getRecent limit w = (Throw (Error SQL.SQLITE_MISMATCH), w)).
Proof.
  intros Hsaved Hdated. split; [| apply getRecent_mismatch]. intros Hlimit.
  set (sorted := SQL.order_by_desc DB.timestamp (memories w)).
  assert (Hperm : Permutation sorted (memories w)) by apply order_by_desc_perm.
  assert (Hs : StronglySorted (fun a b => DB.timestamp b <= DB.timestamp a) sorted)
    by apply order_by_desc_sorted.
  assert (Hin : forall r, In r (SQL.limit limit sorted) -> In r (memories w)).
  { intros r Hr. apply (Permutation_in _ Hperm). now apply limit_In in Hr. }
  rewrite Forall_forall in Hsaved.
  exists (map memory_of_row (SQL.limit limit sorted)).
  split; [| split; [| split; [| split]]].
  - unfold Memory.getRecent. rewrite Hlimit. cbn [negb].
    unfold bind, gets. rewrite order_by_text_desc_times by exact Hdated.
    fold sorted.
    apply mapM_of_row_saved. apply Forall_forall.
    intros r Hr. now apply Hsaved, Hin.
  - rewrite length_map, limit_length.
    now rewrite (Permutation_length Hperm).
  - apply memory_of_row_sorted
      with (R := fun a b => DB.timestamp b <= DB.timestamp a);
      [trivial | now apply limit_sorted].
  - intros m Hm. apply in_map_iff in Hm. destruct Hm as (r & <- & Hr).
    rewrite saved_row_round_trip; [now apply Hin | now apply Hsaved, Hin].
  - intros m r Hm Hr Hnot. apply in_map_iff in Hm.
    destruct Hm as (a & <- & Ha). simpl.
    apply (limit_top (fun a b => DB.timestamp b <= DB.timestamp a)
             limit sorted Hs a r Ha).
    + apply (Permutation_in _ (Permutation_sym Hperm)). exact Hr.
    + intros Hc. apply Hnot. now apply in_map.
Qed.

(** X10 at the table with one memory: with the limit 5 the memory is
    returned, with the limit [2^63] the query fails. *)
Lemma getRecent_spec_witness :
  (exists ms : list Memory.t,
     Memory.getRecent 5 w_decode = (Return ms, w_decode)
     /\ List.length ms = 1%nat)
  /\ Memory.getRecent (2 ^ 63) w_decode
     = (Throw (Error SQL.SQLITE_MISMATCH), w_decode).
Proof.
  assert (Hsaved : Forall saved_row (memories w_decode))
    by (repeat constructor; simpl; try discriminate; lia).
  assert (Hdated : dated (memories w_decode))
    by (intros a b [<- | []] [<- | []]; reflexivity).
  split.
  - destruct (proj1 (getRecent_spec 5 w_decode Hsaved Hdated))
      as (ms & Hrun & Hlen & _); [reflexivity |].
    exists ms. split; [exact Hrun | exact Hlen].
  - apply (proj2 (getRecent_spec (2 ^ 63) w_decode Hsaved Hdated)).
    discriminate.
Defined.




(** ** Tag search finds every memory that carries the tag *)

Lemma like_percent (p : list ascii) (a : ascii) (s : list ascii) :
  SQL.like_chars ("%"%char :: p) (a :: s)
  = SQL.like_chars p (a :: s) || SQL.like_chars ("%"%char :: p) s.
Proof. reflexivity. Qed.

Lemma like_percent_here (p s : list ascii) :
  SQL.like_chars p s = true -> SQL.like_chars ("%"%char :: p) s = true.
Proof.
  intros H. destruct s as [| a s].
  - simpl. now rewrite H.
  - now rewrite like_percent, H.
Qed.

Lemma like_percent_skip (p pre s : list ascii) :
  SQL.like_chars ("%"%char :: p) s = true ->
  SQL.like_chars ("%"%char :: p) (pre ++ s) = true.
Proof.
  intros H. induction pre as [| a pre IH]; [exact H |].
  change ((a :: pre) ++ s)%list with (a :: (pre ++ s))%list.
  rewrite like_percent, IH. apply orb_true_r.
Qed.

Lemma like_percent_any (s : list ascii) : SQL.like_chars ["%"%char] s = true.
Proof.
  induction s as [| a s IH]; [reflexivity |].
  rewrite like_percent, IH. apply orb_true_r.
Qed.

(** A pattern matches its own text, whatever characters it is made of. *)
Lemma like_self (t q s : list ascii) :
  SQL.like_chars q s = true -> SQL.like_chars (t ++ q) (t ++ s) = true.
Proof.
  intros H. induction t as [| c t IH]; [exact H |].
  destruct (Ascii.eqb c "%") eqn:Hc.
  - apply Ascii.eqb_eq in Hc. subst c.
    change (("%"%char :: t) ++ q)%list with ("%"%char :: (t ++ q))%list.
    change (("%"%char :: t) ++ s)%list with ("%"%char :: (t ++ s))%list.
    rewrite like_percent.
    rewrite (like_percent_here (t ++ q) (t ++ s) IH). apply orb_true_r.
  - simpl. rewrite Hc, Ascii.eqb_refl, IH, orb_true_r. reflexivity.
Qed.

Lemma list_ascii_of_string_app (a b : string) :
  list_ascii_of_string (a ++ b)
  = (list_ascii_of_string a ++ list_ascii_of_string b)%list.
Proof. induction a as [| c a IH]; simpl; [reflexivity | now rewrite IH]. Qed.

(** A text without the character of code 0 is read to its end. *)
Lemma c_string_no_nul (s : string) :
  no_nul s = true ->
  SQL.c_string (list_ascii_of_string s) = list_ascii_of_string s.
Proof.
  unfold no_nul. induction s as [| a s IH]; [reflexivity |].
  cbn [list_ascii_of_string forallb SQL.c_string].
  destruct (nat_of_ascii a =? 0)%nat; [discriminate |].
  cbn [negb andb]. intros H. now rewrite IH.
Qed.

Lemma no_nul_app (a b : string) : no_nul (a ++ b) = no_nul a && no_nul b.
Proof.
  unfold no_nul. rewrite list_ascii_of_string_app. apply forallb_app.
Qed.

Lemma json_char_no_nul (a : ascii) : no_nul (JS.json_char a) = true.
Proof. destruct a as [[] [] [] [] [] [] [] []]; reflexivity. Qed.

Lemma json_chars_no_nul (s : string) : no_nul (JS.json_chars s) = true.
Proof.
  induction s as [| a s IH]; [reflexivity |].
  cbn [JS.json_chars]. now rewrite no_nul_app, json_char_no_nul, IH.
Qed.

Lemma join_no_nul (sep : string) (xs : list string) :
  no_nul sep = true -> Forall (fun x => no_nul x = true) xs ->
  no_nul (JS.join sep xs) = true.
Proof.
  intros Hsep. induction 1 as [| x xs Hx Hxs IH]; [reflexivity |].
  destruct xs as [| y xs]; [exact Hx |].
  change (JS.join sep (x :: y :: xs)) with (x ++ sep ++ JS.join sep (y :: xs)).
  now rewrite !no_nul_app, Hx, Hsep, IH.
Qed.

(** The text that [JSON.stringify] writes holds no character of code 0. *)
Lemma stringify_no_nul (xs : list string) : no_nul (JS.stringify xs) = true.
Proof.
  unfold JS.stringify. rewrite !no_nul_app.
  rewrite join_no_nul; [reflexivity | reflexivity |].
  apply Forall_forall. intros x Hx. apply in_map_iff in Hx.
  destruct Hx as (t & <- & _). unfold JS.json_string.
  change (String JS.dquote (JS.json_chars t ++ String JS.dquote ""))
    with (String JS.dquote "" ++ JS.json_chars t ++ String JS.dquote "").
  now rewrite !no_nul_app, json_chars_no_nul.
Qed.

(** [LIKE '%t%'] holds of every text that contains [t] and no character
    of code 0. *)
Lemma like_contains (pre t post : string) :
  no_nul (pre ++ t ++ post) = true ->
  SQL.like (pre ++ t ++ post) ("%" ++ t ++ "%") = true.
Proof.
  intros Hclean. unfold SQL.like.
  rewrite (c_string_no_nul _ Hclean).
  rewrite !no_nul_app in Hclean.
  apply andb_prop in Hclean. destruct Hclean as [_ Hclean].
  apply andb_prop in Hclean. destruct Hclean as [Ht _].
  rewrite c_string_no_nul by (now rewrite !no_nul_app, Ht).
  rewrite !list_ascii_of_string_app.
  change (list_ascii_of_string "%") with ["%"%char].
  change (["%"%char] ++ list_ascii_of_string t ++ ["%"%char])%list
    with ("%"%char :: (list_ascii_of_string t ++ ["%"%char]))%list.
  apply like_percent_skip. apply like_percent_here.
  apply like_self. apply like_percent_any.
Qed.

Lemma join_In (sep x : string) (xs : list string) :
  In x xs -> exists pre post : string, JS.join sep xs = pre ++ x ++ post.
Proof.
  induction xs as [| y xs IH]; [intros [] |].
  intros [-> | Hin].
  - destruct xs as [| z xs].
    + exists "", "". simpl. now rewrite string_app_nil_r.
    + exists "", (sep ++ JS.join sep (z :: xs)). reflexivity.
  - destruct (IH Hin) as (pre & post & Heq).
    destruct xs as [| z xs]; [destruct Hin |].
    exists (y ++ sep ++ pre), post.
    change (JS.join sep (y :: z :: xs)) with (y ++ sep ++ JS.join sep (z :: xs)).
    rewrite Heq. now rewrite !string_app_assoc.
Qed.

(** The serialized tags of a row match the pattern of each plain tag of
    the row. *)
Lemma like_own_tag (tag : string) (tags : list string) :
  In tag tags -> plain_tag tag ->
  SQL.like (JS.stringify tags) ("%" ++ tag ++ "%") = true.
Proof.
  intros Hin Hplain.
  destruct (join_In "," (JS.json_string tag) (map JS.json_string tags))
    as (pre & post & Heq); [now apply in_map |].
  pose proof (stringify_no_nul tags) as Hclean. revert Hclean.
  unfold JS.stringify. rewrite Heq. unfold JS.json_string. rewrite Hplain.
  replace ("[" ++ (pre ++ String JS.dquote (tag ++ String JS.dquote "") ++ post)
           ++ "]")
    with (("[" ++ pre ++ String JS.dquote "") ++ tag
          ++ (String JS.dquote "" ++ post ++ "]")).
  - apply like_contains.
  - rewrite !string_app_assoc. simpl. rewrite !string_app_assoc. reflexivity.
Qed.

Lemma unique_rows_complete (rows : list DB.memory_row) :
  forall (seen : list string) (r : DB.memory_row),
    In r rows ->
    In (DB.memory_id r) seen
    \/ exists r', In r' (Memory.unique_rows seen rows)
                  /\ DB.memory_id r' = DB.memory_id r.
Proof.
  induction rows as [| row rows IH]; intros seen r; [intros [] |].
  simpl. destruct (JS.mem (DB.memory_id row) seen) eqn:Hm.
  - intros [<- | Hr]; [left; now apply mem_In | now apply IH].
  - intros [<- | Hr].
    + right. exists row. split; [now left | reflexivity].
    + destruct (IH (DB.memory_id row :: seen) r Hr) as [[Heq | Hs] | (r' & H1 & H2)].
      * right. exists row. split; [now left | exact Heq].
      * now left.
      * right. exists r'. split; [now right | exact H2].
Qed.

(** The rows of a tag search, when the identifiers of the table are
    pairwise different: a row that carries a queried plain tag is among the
    rows before the limit is applied. *)
Lemma search_rows_complete (tags : list string) (rows : list DB.memory_row)
    (r : DB.memory_row) (tag : string) :
  NoDup (map DB.memory_id rows) ->
  In r rows -> In tag tags -> In tag (DB.tags r) -> plain_tag tag ->
  In r (JS.sort Memory.by_importance_then_recency
          (Memory.unique_rows []
             (flat_map (fun tag => Memory.rows_like tag rows) tags))).
Proof.
  intros Hnd Hr Htag Hown Hplain.
  set (matches := flat_map (fun tag => Memory.rows_like tag rows) tags).
  assert (Hm : In r matches).
  { apply in_flat_map. exists tag. split; [exact Htag |].
    apply filter_In. split; [exact Hr | now apply like_own_tag]. }
  apply (Permutation_in _ (Permutation_sym (sort_perm _ _))).
  destruct (unique_rows_complete matches [] r Hm) as [[] | (r' & Hin & Hid)].
  replace r with r'; [exact Hin |].
  destruct (unique_rows_spec matches []) as [_ Hsub].
  destruct (Hsub r' Hin) as [Hr' _].
  apply in_flat_map in Hr'. destruct Hr' as (t' & _ & Hr').
  apply filter_In in Hr'. destruct Hr' as [Hr' _].
  clear - Hnd Hr Hr' Hid.
  induction rows as [| a rows IH]; [destruct Hr |].
  simpl in Hnd. inversion Hnd as [| ? ? Hnot Hnd']; subst.
  destruct Hr as [-> | Hr], Hr' as [-> | Hr']; try reflexivity.
  - exfalso. apply Hnot. rewrite <- Hid. now apply in_map.
  - exfalso. apply Hnot. rewrite Hid. now apply in_map.
  - now apply IH.
Qed.

(** A row that carries a queried plain tag is among the rows that a tag
    search finds, unless as many rows as the limit allows come before it. *)
Lemma search_rows_finds (tags : list string) (limit : Z)
    (rows : list DB.memory_row) (r : DB.memory_row) (tag : string) :
  NoDup (map DB.memory_id rows) ->
  In r rows -> In tag tags -> In tag (DB.tags r) -> plain_tag tag ->
  0 <= limit ->
  let found := Memory.search_rows tags limit rows in
  In r found
  \/ (Z.of_nat (List.length found) = limit
      /\ forall a, In a found -> before a r).
Proof.
  intros Hnd Hr Htag Hown Hplain Hlimit found.
  pose proof (search_rows_complete tags rows r tag Hnd Hr Htag Hown Hplain)
    as Hfound.
  unfold found, Memory.search_rows.
  set (sorted := JS.sort Memory.by_importance_then_recency
                   (Memory.unique_rows []
                      (flat_map (fun tag => Memory.rows_like tag rows) tags)))
    in *.
  assert (Hslice : JS.slice0 sorted limit = firstn (Z.to_nat limit) sorted).
  { unfold JS.slice0. destruct (Z.ltb_spec limit 0); [lia | reflexivity]. }
  rewrite Hslice.
  pose proof Hfound as Hsplit.
  rewrite <- (firstn_skipn (Z.to_nat limit) sorted) in Hsplit.
  apply in_app_or in Hsplit. destruct Hsplit as [Hin | Hout]; [now left |].
  right. split.
  - rewrite length_firstn.
    assert (Z.to_nat limit < List.length sorted)%nat.
    { destruct (Nat.lt_ge_cases (Z.to_nat limit) (List.length sorted))
        as [H | H]; [exact H |].
      rewrite (skipn_all2 sorted H) in Hout. destruct Hout. }
    lia.
  - intros a Ha.
    exact (sorted_split before (Z.to_nat limit) sorted
             (by_importance_then_recency_sorted _) a r Ha Hout).
Qed.

(** A tag whose pattern is too long makes the search fail, unless the
    table is empty. *)
Lemma searchByTags_too_complex (tags : list string) (limit : Z) (w : World)
    (tag : string) :
  In tag tags -> SQL.too_complex ("%" ++ tag ++ "%") = true ->
  memories w <> [] ->
  Memory.searchByTags tags limit w = (Throw (Error SQL.SQLITE_ERROR), w).
Proof.
  intros Hin Hlong Hrows. unfold Memory.searchByTags, bind, gets.
  replace (existsb (fun tag => SQL.too_complex ("%" ++ tag ++ "%")) tags)
    with true.
  - destruct (memories w); [contradiction | reflexivity].
  - symmetry. apply existsb_exists. exists tag. split; assumption.
Qed.

(** X12. On a table written by [Memory.save] whose identifiers are
    pairwise different, a memory that carries one of the queried tags, the
    tag being one that JSON writes as it is, is found by a search for short
    tags: with a limit that is not negative the memory is returned, unless
    the search returns [limit] memories that all come before it in the order
    of the result.  A search with a tag whose pattern has more than 50000
    bytes fails. *)
Theorem searchByTags_finds (tags : list string) (limit : Z) (w : World)
    (r : DB.memory_row) (tag : string) :
  Forall saved_row (memories w) ->
  NoDup (map DB.memory_id (memories w)) ->
  In r (memories w) -> In tag tags -> In tag (DB.tags r) -> plain_tag tag ->
  0 <= limit ->
  (Forall short_tag tags ->
   exists ms : list Memory.t,
     Memory.searchByTags tags limit w = (Return ms, w)
     /\ (In (memory_of_row r) ms
         \/ (Z.of_nat (List.length ms) = limit
             /\ forall m, In m ms -> memory_before m (memory_of_row r))))
  /\ (forall long : string,
        In long tags -> SQL.too_complex ("%" ++ long ++ "%") = true ->
        Memory.searchByTags tags limit w = (Throw (Error SQL.SQLITE_ERROR), w)).
Proof.
  intros Hsaved Hnd Hr Htag Hown Hplain Hlimit. split.
  2:{ intros long Hin Hlong.
      apply (searchByTags_too_complex tags limit w long Hin Hlong).
      intros Hnil. rewrite Hnil in Hr. destruct Hr. }
  intros Hshort.
  destruct (search_rows_spec tags limit (memories w)) as (_ & _ & Hsub).
  pose proof (search_rows_finds tags limit (memories w) r tag
                Hnd Hr Htag Hown Hplain Hlimit) as Hfinds.
  cbv zeta in Hsub, Hfinds.
  set (found := Memory.search_rows tags limit (memories w)) in *.
  rewrite Forall_forall in Hsaved.
  assert (Himp : forall a, In a (memories w) ->
                   Memory.importance (memory_of_row a) = DB.importance a).
  { intros a Ha. destruct (Hsaved a Ha) as [_ H]. simpl. lia. }
  exists (map memory_of_row found). split.
  - rewrite (searchByTags_rows tags limit w Hshort). fold found.
    apply mapM_of_row_saved. apply Forall_forall.
    intros a Ha. apply Hsaved. now apply Hsub.
  - destruct Hfinds as [Hin | [Hlen Hbefore]]; [left; now apply in_map |].
    right. split; [now rewrite length_map |].
    intros m Hm. apply in_map_iff in Hm. destruct Hm as (a & <- & Ha).
    destruct (Hsub a Ha) as [Ha' _]. specialize (Hbefore a Ha).
    unfold memory_before, before in *. rewrite !Himp by assumption.
    exact Hbefore.
Qed.

(** X12 at a table with three memories: a search for [help] that may
    return one memory, and a search for [help] and for a tag of 50000
    characters, which fails. *)
Lemma searchByTags_finds_witness :
  (exists ms : list Memory.t,
     Memory.searchByTags ["help"] 1 w_three_memories
     = (Return ms, w_three_memories)
     /\ (In (memory_of_row
               (DB.mkMemoryRow "m-1" (Some "c-1") "asked for help" 6 1000
                  ["user"; "help"])) ms
         \/ (Z.of_nat (List.length ms) = 1
             /\ forall m, In m ms ->
                  memory_before m
                    (memory_of_row
                       (DB.mkMemoryRow "m-1" (Some "c-1") "asked for help" 6 1000
                          ["user"; "help"])))))
  /\ Memory.searchByTags ["help"; long_tag] 1 w_three_memories
     = (Throw (Error SQL.SQLITE_ERROR), w_three_memories).
Proof.
  assert (Hsaved : Forall saved_row (memories w_three_memories))
    by (repeat constructor; simpl; try discriminate; lia).
  assert (Hnd : NoDup (map DB.memory_id (memories w_three_memories)))
    by (repeat constructor; simpl; intuition discriminate).
  split.
  - apply (proj1 (searchByTags_finds ["help"] 1 w_three_memories
                    (DB.mkMemoryRow "m-1" (Some "c-1") "asked for help" 6 1000
                       ["user"; "help"]) "help"
                    Hsaved Hnd ltac:(simpl; now left) ltac:(simpl; now left)
                    ltac:(simpl; now right; left) ltac:(reflexivity)
                    ltac:(lia))).
    repeat constructor. unfold short_tag. simpl. lia.
  - apply (proj2 (searchByTags_finds ["help"; long_tag] 1 w_three_memories
                    (DB.mkMemoryRow "m-1" (Some "c-1") "asked for help" 6 1000
                       ["user"; "help"]) "help"
                    Hsaved Hnd ltac:(simpl; now left) ltac:(simpl; now left)
                    ltac:(simpl; now right; left) ltac:(reflexivity)
                    ltac:(lia)) long_tag).
    + simpl. now right; left.
    + vm_compute. reflexivity.
Defined.

(** ** The awakening context *)

Lemma order_by_text_desc_perm {A : Type} (k : A -> string) (rows : list A) :
  Permutation (SQL.order_by_text_desc k rows) rows.
Proof. apply sort_perm. Qed.

Lemma getRecent_run (limit : Z) (w : World) :
  bindable limit ->
  Forall saved_row (memories w) ->
  Memory.getRecent limit w
  = (Return (map memory_of_row
               (SQL.limit limit
                  (SQL.order_by_text_desc
                     (fun r => toISOString (DB.timestamp r)) (memories w)))),
     w).
Proof.
  intros Hlimit Hsaved. unfold Memory.getRecent. rewrite Hlimit. cbn [negb].
  unfold bind, gets.
  apply mapM_of_row_saved. rewrite Forall_forall in Hsaved |- *.
  intros r Hr. apply limit_In in Hr.
  apply (Permutation_in _ (order_by_text_desc_perm _ _)) in Hr.
  now apply Hsaved.
Qed.

Lemma getImportant_run (threshold limit : Z) (w : World) :
  bindable limit ->
  Forall saved_row (memories w) ->
  Memory.getImportant threshold limit w
  = (Return (map memory_of_row
               (SQL.limit limit
                  (JS.sort Memory.by_importance_then_text
                     (filter (fun r => threshold <=? DB.importance r)
                        (memories w))))),
     w).
Proof.
  intros Hlimit Hsaved. unfold Memory.getImportant. rewrite Hlimit. cbn [negb].
  unfold bind, gets.
  apply mapM_of_row_saved. rewrite Forall_forall in Hsaved |- *.
  intros r Hr. apply limit_In in Hr.
  apply (Permutation_in _ (sort_perm _ _)) in Hr.
  apply filter_In in Hr. now apply Hsaved.
Qed.

Lemma getByPersona_stored (personaId : string) (limit : Z) :
  preserves stored (DreamstateUpdate.getByPersona personaId limit).
Proof.
  unfold DreamstateUpdate.getByPersona, DreamstateUpdate.of_row,
    DreamstateUpdate.new.
  frame_with ltac:(apply or_else_preserves; leaf).
Qed.

Lemma loadMostRecent_stored : preserves stored Persona.loadMostRecent.
Proof.
  unfold Persona.loadMostRecent, Persona.of_row, Persona.new.
  frame_with ltac:(apply or_else_preserves; leaf).
Qed.

Lemma loadMostRecent_returns : returns Persona.loadMostRecent.
Proof.
  unfold Persona.loadMostRecent, Persona.of_row, Persona.new.
  frame_with ltac:(apply or_else_returns; leaf).
Qed.

Lemma loadMostRecent_some (w : World) :
  persona_table w <> [] ->
  exists (p : Persona.t) (w' : World),
    Persona.loadMostRecent w = (Return (Some p), w').
Proof.
  intros Hne.
  destruct (order_by_desc_head DB.p_last_updated (persona_table w) Hne)
    as (row & rest & Hsort & _).
  unfold Persona.loadMostRecent, bind, gets. rewrite Hsort.
  change (SQL.limit 1 (row :: rest)) with [row].
  unfold Persona.of_row, Persona.new, bind, or_else, uuidv4, now, ret.
  destruct (String.eqb (DB.p_persona_id row) ""); do 2 eexists; reflexivity.
Qed.

(** [ensureExists] returns a persona and leaves a persona table that is
    not empty; it writes only to an empty persona table. *)
Lemma ensureExists_run (w : World) :
  exists (p : Persona.t) (w' : World),
    Persona.ensureExists w = (Return p, w')
    /\ persona_table w' <> []
    /\ (persona_table w <> [] -> persona_table w' = persona_table w)
    /\ records w' = records w.
Proof.
  assert (Hcase : persona_table w = [] \/ persona_table w <> []).
  { destruct (persona_table w); [now left | right; discriminate]. }
  destruct Hcase as [Htab | Hne].
  - destruct (createDefault_run w)
      as (p & w' & Hrun & Hw' & _ & _ & _ & _ & Hm & Hc & Hu).
    exists p, w'. split; [| split; [| split]].
    + unfold Persona.ensureExists, bind.
      rewrite (loadMostRecent_empty w Htab). exact Hrun.
    + rewrite Hw', Htab. discriminate.
    + intros H. now contradiction H.
    + unfold records. now rewrite Hm, Hc, Hu.
  - destruct (loadMostRecent_some w Hne) as (p & w' & Hrun).
    pose proof (loadMostRecent_stored w) as Hst. rewrite Hrun in Hst.
    unfold stored in Hst. cbn [snd] in Hst.
    apply pair_equal_spec in Hst. destruct Hst as [Hp Hr].
    exists p, w'. split; [| split; [| split]].
    + unfold Persona.ensureExists, bind. rewrite Hrun. reflexivity.
    + rewrite Hp. exact Hne.
    + intros _. exact Hp.
    + exact Hr.
Qed.

(** X13. On a table of memories written by [Memory.save], and with
    limits that can be bound to the queries, [AwakeningService.awaken]
    returns a context and writes nothing but a default persona into an empty
    persona table.  The context lists at most [recentMemoriesLimit] (by
    default 5) recent memories when that limit is not negative, its
    important memories all have an importance of at least
    [importantMemoriesThreshold] (by default 8), and each memory listed is a
    stored one.  With a [recentMemoriesLimit] that cannot be bound it
    fails, after the persona has been looked up. *)
Theorem AwakeningService_awaken_spec (opts : AwakeningService.options)
    (w : World) :
  Forall saved_row (memories w) ->
  (bindable_limits opts ->
   exists (ctx : AwakeningService.context) (w' : World),
     AwakeningService.awaken opts w = (Return ctx, w')
     /\ records w' = records w
     /\ persona_table w' <> []
     /\ (persona_table w <> [] -> persona_table w' = persona_table w)
     /\ (let limit :=
           AwakeningService.default 5 (AwakeningService.recentMemoriesLimit opts) in
         0 <= limit ->
         Z.of_nat (List.length (AwakeningService.recentMemories ctx)) <= limit)
     /\ (forall mv, In mv (AwakeningService.importantMemories ctx) ->
           AwakeningService.default 8
             (AwakeningService.importantMemoriesThreshold opts)
           <= AwakeningService.mv_importance mv)
     /\ (forall mv,
           In mv (AwakeningService.recentMemories ctx)
           \/ In mv (AwakeningService.importantMemories ctx) ->
           exists r, In r (memories w)
             /\ mv = AwakeningService.view_memory (memory_of_row r)))
  /\ (~ bindable
          (AwakeningService.default 5 (AwakeningService.recentMemoriesLimit opts)) ->
      exists w' : World,
        AwakeningService.awaken opts w
        = (Throw (Error SQL.SQLITE_MISMATCH), w')
        /\ records w' = records w).
Proof.
  intros Hsaved.
  destruct (ensureExists_run w) as (p & w1 & Hp & Hne & Hkeep & Hrec).
  split.
  2:{ intros Hl. exists w1. split; [| exact Hrec].
      unfold AwakeningService.awaken. unfold bind at 1. rewrite Hp.
      unfold bind at 1. now rewrite getRecent_mismatch. }
  intros (Hl1 & Hl2 & Hl3).
  assert (Hm1 : memories w1 = memories w).
  { unfold records in Hrec. congruence. }
  assert (Hsaved1 : Forall saved_row (memories w1)) by now rewrite Hm1.
  set (l := AwakeningService.default 5 (AwakeningService.recentMemoriesLimit opts))
    in *.
  set (t := AwakeningService.default 8
              (AwakeningService.importantMemoriesThreshold opts)).
  set (il := AwakeningService.default 5
               (AwakeningService.importantMemoriesLimit opts)) in *.
  set (ul := AwakeningService.default 3
               (AwakeningService.recentUpdatesLimit opts)) in *.
  destruct (getByPersona_returns (Persona.personaId p) ul Hl3 w1)
    as (us & w2 & Hus).
  pose proof (getByPersona_stored (Persona.personaId p) ul w1) as Hst.
  rewrite Hus in Hst. cbn [snd] in Hst. unfold stored in Hst.
  apply pair_equal_spec in Hst. destruct Hst as [Hp2 Hr2].
  do 2 eexists. split; [| split; [| split; [| split; [| split; [| split]]]]].
  - unfold AwakeningService.awaken. fold l t il ul.
    unfold bind at 1. rewrite Hp.
    unfold bind at 1. rewrite (getRecent_run l w1 Hl1 Hsaved1).
    unfold bind at 1. rewrite (getImportant_run t il w1 Hl2 Hsaved1).
    unfold bind at 1. rewrite Hus.
    reflexivity.
  - rewrite <- Hrec, <- Hr2. reflexivity.
  - change (persona_table w2 <> []). now rewrite Hp2.
  - intros H. change (persona_table w2 = persona_table w).
    rewrite Hp2. now apply Hkeep.
  - cbn [AwakeningService.recentMemories]. intros Hl.
    rewrite !length_map, limit_length.
    destruct (Z.ltb_spec l 0); lia.
  - cbn [AwakeningService.importantMemories]. intros mv Hmv.
    apply in_map_iff in Hmv. destruct Hmv as (m & <- & Hm).
    apply in_map_iff in Hm. destruct Hm as (r & <- & Hr).
    apply limit_In in Hr. apply (Permutation_in _ (sort_perm _ _)) in Hr.
    apply filter_In in Hr. destruct Hr as [Hr Ht].
    rewrite Forall_forall in Hsaved1. destruct (Hsaved1 r Hr) as [_ Hrange].
    simpl. apply Z.leb_le in Ht. lia.
  - cbn [AwakeningService.recentMemories AwakeningService.importantMemories].
    intros mv [Hmv | Hmv];
      apply in_map_iff in Hmv; destruct Hmv as (m & <- & Hm);
      apply in_map_iff in Hm; destruct Hm as (r & <- & Hr);
      apply limit_In in Hr;
      exists r; (split; [| reflexivity]); rewrite <- Hm1.
    + now apply (Permutation_in _ (order_by_text_desc_perm _ _)) in Hr.
    + apply (Permutation_in _ (sort_perm _ _)) in Hr.
      apply filter_In in Hr. tauto.
Qed.

(** X13 at the table with one memory: with the default options a context
    is returned, with a [recentMemoriesLimit] of [2^63] the awakening
    fails. *)
Lemma AwakeningService_awaken_spec_witness :
  (exists (ctx : AwakeningService.context) (w' : World),
     AwakeningService.awaken AwakeningService.no_options w_decode
     = (Return ctx, w')
     /\ records w' = records w_decode
     /\ persona_table w' <> [])
  /\ (exists w' : World,
        AwakeningService.awaken
          (AwakeningService.mkOptions (Some (2 ^ 63)) None None None) w_decode
        = (Throw (Error SQL.SQLITE_MISMATCH), w')
        /\ records w' = records w_decode).
Proof.
  assert (Hsaved : Forall saved_row (memories w_decode))
    by (repeat constructor; simpl; try discriminate; lia).
  split.
  - destruct (proj1 (AwakeningService_awaken_spec AwakeningService.no_options
                       w_decode Hsaved))
      as (ctx & w' & Hrun & Hrec & Hne & _).
    + repeat split.
    + exists ctx, w'. repeat split; assumption.
  - apply (proj2 (AwakeningService_awaken_spec
                    (AwakeningService.mkOptions (Some (2 ^ 63)) None None None)
                    w_decode Hsaved)).
    discriminate.
Defined.

Lemma getRecent_stored (limit : Z) : preserves stored (Memory.getRecent limit).
Proof. apply getRecent_preserves. leaf. Qed.

Lemma getImportant_stored (threshold limit : Z) :
  preserves stored (Memory.getImportant threshold limit).
Proof.
  unfold Memory.getImportant, Memory.of_row, Memory.new.
  frame_with ltac:(apply or_else_preserves; leaf).
Qed.

(** Whatever the tables hold, the awakening service returns a context
    when its limits can be bound, and leaves a persona table that is not
    empty. *)
Lemma AwakeningService_awaken_run (opts : AwakeningService.options) (w : World) :
  bindable_limits opts ->
  exists (ctx : AwakeningService.context) (w' : World),
    AwakeningService.awaken opts w = (Return ctx, w')
    /\ persona_table w' <> []
    /\ records w' = records w.
Proof.
  intros (H1 & H2 & H3).
  destruct (ensureExists_run w) as (p & w1 & Hp & Hne & _ & Hrec).
  unfold AwakeningService.awaken. unfold bind at 1. rewrite Hp.
  match goal with
  | |- exists ctx w', ?m w1 = _ /\ _ =>
      assert (Hret : returns m)
        by frame_with ltac:(first [ apply getRecent_returns; exact H1
                                  | apply getImportant_returns; exact H2
                                  | apply getByPersona_returns; exact H3
                                  | leaf ]);
      assert (Hst : preserves stored m)
        by frame_with ltac:(first [ apply getRecent_stored
                                  | apply getImportant_stored
                                  | apply getByPersona_stored
                                  | leaf ])
  end.
  destruct (Hret w1) as (ctx & w2 & Hrun). specialize (Hst w1).
  rewrite Hrun in Hst. cbn [snd] in Hst. unfold stored in Hst.
  apply pair_equal_spec in Hst. destruct Hst as [Hp2 Hr2].
  exists ctx, w2. split; [exact Hrun |]. split; congruence.
Qed.

(** X14. Asleep, [awaken] with limits that can be bound returns an
    awakening context, keeps it and marks the system awake.  It does not
    wait for the conversation that it starts.  Without a conversation open
    before, the new conversation between [user] and [claude], open and
    empty, is the current one when [awaken] returns.  With a conversation
    open before, [awaken] returns when that conversation has got its end
    time: it is ended and still the current one.  A persona is stored
    afterwards; the persona of the controller itself is not set by
    [awaken]. *)
Theorem awaken_from_sleep (opts o : AwakeningService.options)
    (p : option Persona.t) (cur : option Conversation.t)
    (ctx0 : option AwakeningService.context) (w : World) :
  bindable_limits (AwakeningService.merge o opts) ->
  exists (ctx : AwakeningService.context) (c : Conversation.t) (w' : World),
    LTMSQL.awaken opts (LTMSQL.mk o p cur ctx0 false, w)
    = (Return (Some ctx), (LTMSQL.mk o p (Some c) (Some ctx) true, w'))
    /\ persona_table w' <> []
    /\ match cur with
       | None =>
           Conversation.participants c = ["user"; "claude"]
           /\ Conversation.endTime c = None
           /\ Conversation.messages c = []
           /\ Conversation.rawText c = ""
       | Some c0 => exists d : Z, c = closed_at d c0
       end.
Proof.
  intros Hlimits.
  destruct (AwakeningService_awaken_run (AwakeningService.merge o opts) w
              Hlimits)
    as (ctx & w1 & Hctx & Hne & _).
  destruct cur as [c0 |].
  - do 3 eexists.
    split; [exact (awaken_run_open opts o p c0 ctx0 ctx w w1 Hctx) |].
    split; [exact Hne |]. eexists. reflexivity.
  - do 3 eexists.
    split; [exact (awaken_run opts o p ctx0 ctx w w1 Hctx) |].
    split; [exact Hne |]. repeat split.
Qed.

(** X14 at a controller that holds the open conversation [c_open] while it
    is asleep: when [awaken] has returned, [c_open] is ended and is still
    the current conversation. *)
Lemma awaken_from_sleep_witness :
  exists (ctx : AwakeningService.context) (c : Conversation.t) (w' : World),
    LTMSQL.awaken AwakeningService.no_options
      (LTMSQL.mk (LTMSQL.options (LTMSQL.new AwakeningService.no_options))
         None (Some c_open) None false, w0)
    = (Return (Some ctx),
       (LTMSQL.mk (LTMSQL.options (LTMSQL.new AwakeningService.no_options))
          None (Some c) (Some ctx) true, w'))
    /\ persona_table w' <> []
    /\ exists d : Z, c = closed_at d c_open.
Proof.
  apply (awaken_from_sleep AwakeningService.no_options
           (LTMSQL.options (LTMSQL.new AwakeningService.no_options))
           None (Some c_open) None w0).
  repeat split.
Defined.

(** ** The evolution of the persona *)

Lemma In_replace {V : Type} (o : JS.obj V) (k : string) (v : V)
    (k' : string) (v' : V) :
  In (k', v') (JS.replace o k v) -> (k' = k /\ v' = v) \/ In (k', v') o.
Proof.
  induction o as [| [k0 v0] o IH]; simpl; [tauto |].
  destruct (String.eqb_spec k0 k) as [-> | Hne]; simpl.
  - intros [H | H]; [left; now inversion H | right; now right].
  - intros [H | H]; [right; now left |].
    destruct (IH H); [now left | right; now right].
Qed.

Lemma In_insert_key {V : Type} (o : JS.obj V) (k : string) (v : V)
    (k' : string) (v' : V) :
  In (k', v') (JS.insert_key o k v) -> (k' = k /\ v' = v) \/ In (k', v') o.
Proof.
  induction o as [| [k0 v0] o IH]; simpl.
  - intros [H | []]. left. now inversion H.
  - assert (Hrec : In (k', v') ((k0, v0) :: JS.insert_key o k v) ->
                   (k' = k /\ v' = v) \/ (k0, v0) = (k', v') \/ In (k', v') o).
    { intros [H | H]; [right; now left |].
      destruct (IH H); [now left | right; now right]. }
    assert (Hhere : In (k', v') ((k, v) :: (k0, v0) :: o) ->
                    (k' = k /\ v' = v) \/ (k0, v0) = (k', v') \/ In (k', v') o).
    { intros [H | H]; [left; now inversion H | now right]. }
    destruct (JS.array_index k) as [i |];
      [destruct (JS.array_index k0) as [j |]; [destruct (i <? j) |] |];
      assumption.
Qed.

Lemma In_set {V : Type} (o : JS.obj V) (k : string) (v : V)
    (k' : string) (v' : V) :
  In (k', v') (JS.set o k v) -> (k' = k /\ v' = v) \/ In (k', v') o.
Proof.
  unfold JS.set. destruct (JS.has o k); [apply In_replace | apply In_insert_key].
Qed.

(** What holds of all properties of two objects holds of the properties
    of [{ ...a, ...b }]. *)
Lemma spread_all {V : Type} (P : string -> V -> Prop) (b : JS.obj V) :
  (forall k v, In (k, v) b -> P k v) ->
  forall a : JS.obj V,
    (forall k v, In (k, v) a -> P k v) ->
    forall k v, In (k, v) (JS.spread a b) -> P k v.
Proof.
  unfold JS.spread. induction b as [| [k0 v0] b IH]; intros Hb a Ha; simpl.
  - exact Ha.
  - apply IH.
    + intros k v H. apply Hb. now right.
    + intros k v H. apply In_set in H. destruct H as [[-> ->] | H].
      * apply Hb. now left.
      * now apply Ha.
Qed.

(** A key that [b] does not have keeps its value in [{ ...a, ...b }]. *)
Lemma get_spread_other {V : Type} (b : JS.obj V) (k : string) :
  ~ In k (map fst b) ->
  forall a : JS.obj V, JS.get (JS.spread a b) k = JS.get a k.
Proof.
  unfold JS.spread. induction b as [| [k0 v0] b IH]; intros Hk a; simpl.
  - reflexivity.
  - simpl in Hk. rewrite IH by tauto. rewrite get_set.
    destruct (String.eqb_spec k0 k); [tauto | reflexivity].
Qed.

Lemma In_set_if {V : Type} (b : bool) (o : JS.obj V) (k : string) (v : V)
    (k' : string) (v' : V) :
  In (k', v') (set_if b k v o) ->
  (b = true /\ k' = k /\ v' = v) \/ In (k', v') o.
Proof.
  unfold set_if. destruct b; [| now right].
  intros H. apply In_set in H. destruct H; [left | right]; tauto.
Qed.

(** The changes that [identifyPersonaChanges] proposes: each of the three
    traits and the one value is raised by its step up to its cap, and only
    where it is below its threshold; preferences are never proposed. *)
Lemma identifyPersonaChanges_shape (p : Persona.t) (ms : list Memory.t)
    (opts : PersonaEvolver.options) :
  let ch := PersonaEvolver.identifyPersonaChanges p ms opts in
  let c := JS.get (Persona.traits p) "conscientiousness" in
  let n := JS.get (Persona.traits p) "neuroticism" in
  let a := JS.get (Persona.traits p) "agreeableness" in
  let h := JS.get (Persona.values p) "helpfulness" in
  exists b1 b2 b3 : bool,
    PersonaEvolver.traits ch
    = set_if b3 "agreeableness"
        (JS.number_min (JS.lit (95 # 100)) (JS.number_add_opt a (JS.lit (2 # 100))))
        (set_if b2 "neuroticism"
           (JS.number_min (JS.lit (8 # 10)) (JS.number_add_opt n (JS.lit (3 # 100))))
           (set_if b1 "conscientiousness"
              (JS.number_min (JS.lit 1) (JS.number_add_opt c (JS.lit (5 # 100))))
              []))
    /\ PersonaEvolver.values ch
       = set_if b3 "helpfulness"
           (JS.number_min (JS.lit 1) (JS.number_add_opt h (JS.lit (1 # 100)))) []
    /\ PersonaEvolver.preferences ch = []
    /\ (b1 = true -> JS.number_lt_opt c (JS.lit (9 # 10)) = true)
    /\ (b2 = true -> JS.number_lt_opt n (JS.lit (8 # 10)) = true)
    /\ (b3 = true -> JS.number_lt_opt a (JS.lit (95 # 100)) = true).
Proof.
  intros ch c n a h. destruct ms as [| m ms].
  - exists false, false, false. repeat split; discriminate.
  - unfold ch, PersonaEvolver.identifyPersonaChanges. cbv zeta.
    cbn [PersonaEvolver.traits PersonaEvolver.values PersonaEvolver.preferences].
    fold c n a h.
    match goal with
    | |- context [if ?x then JS.set _ "conscientiousness" _ else _] => exists x
    end.
    match goal with
    | |- context [if ?x then JS.set _ "neuroticism" _ else _] => exists x
    end.
    match goal with
    | |- context [if ?x then JS.set _ "agreeableness" _ else _] => exists x
    end.
    unfold set_if.
    repeat split; intros H; apply andb_true_iff in H; tauto.
Qed.

Lemma identifyPersonaChanges_biography (p : Persona.t) (ms : list Memory.t)
    (opts : PersonaEvolver.options) :
  PersonaEvolver.biography (PersonaEvolver.identifyPersonaChanges p ms opts)
  = match filter (fun memory => 8 <=? Memory.importance memory) ms with
    | m :: _ =>
        Some (Persona.biography p ++ " Recently, I "
              ++ JS.toLowerCase (Memory.summary m))
    | [] => None
    end.
Proof.
  destruct ms as [| m ms]; [reflexivity |].
  unfold PersonaEvolver.identifyPersonaChanges. cbv zeta.
  cbn [PersonaEvolver.biography]. reflexivity.
Qed.

Lemma recently_not_empty (a b : string) :
  String.eqb (a ++ " Recently, I " ++ b) "" = false.
Proof. destruct a; reflexivity. Qed.

(** Runs a computation on the world that is made of time stamps,
    identifiers and writes to the tables. *)
Ltac run_world :=
  cbn [bind now ret uuidv4 set_persona_table set_dreamstate_updates modify
       persona_table conversations memories dreamstate_updates console
       clock clock_reads uuid uuid_draws
       Persona.personaId Persona.traits Persona.values Persona.preferences
       Persona.biography Persona.lastUpdated JS.spread fold_left].

(** The run of [evolveDreamstate] on a persona: the proposed changes are
    merged into the persona, the persona is saved, and an update with the
    states before and after is stored. *)
Lemma evolveDreamstate_run (p : Persona.t) (ms : list Memory.t)
    (opts : PersonaEvolver.options) (w : World) :
  let ch := PersonaEvolver.identifyPersonaChanges p ms opts in
  exists (u : DreamstateUpdate.t) (p' : Persona.t) (w' : World),
    PersonaEvolver.evolveDreamstate (Some p) ms opts w = (Return (u, p'), w')
    /\ Persona.personaId p' = Persona.personaId p
    /\ Persona.traits p'
       = JS.spread (Persona.traits p) (PersonaEvolver.traits ch)
    /\ Persona.values p'
       = JS.spread (Persona.values p) (PersonaEvolver.values ch)
    /\ Persona.preferences p' = Persona.preferences p
    /\ Persona.biography p'
       = match PersonaEvolver.biography ch with
         | Some b => b
         | None => Persona.biography p
         end
    /\ DreamstateUpdate.personaId u = Persona.personaId p
    /\ DreamstateUpdate.previousState u = Persona.snapshot p
    /\ DreamstateUpdate.newState u = Persona.snapshot p'
    /\ persona_table w'
       = SQL.insert_or_replace DB.p_persona_id (Persona.to_row p')
           (persona_table w)
    /\ dreamstate_updates w'
       = SQL.insert_or_replace DB.u_update_id (DreamstateUpdate.to_row u)
           (dreamstate_updates w)
    /\ memories w' = memories w
    /\ conversations w' = conversations w.
Proof.
  intros ch.
  destruct (identifyPersonaChanges_shape p ms opts)
    as (b1 & b2 & b3 & _ & _ & Hprefs & _).
  pose proof (identifyPersonaChanges_biography p ms opts) as Hbio.
  fold ch in Hprefs, Hbio.
  unfold PersonaEvolver.evolveDreamstate. fold ch.
  clearbody ch. clear b1 b2 b3.
  rewrite Hprefs.
  unfold Persona.updateTraits, Persona.updateValues, Persona.updatePreferences,
    Persona.updateBiography, Persona.save, DreamstateUpdate.new, or_else.
  destruct (PersonaEvolver.biography ch) as [b |] eqn:Hb.
  - assert (Hne : String.eqb b "" = false).
    { destruct (filter (fun memory => 8 <=? Memory.importance memory) ms);
        [discriminate |].
      injection Hbio as Hbio. rewrite Hbio. apply recently_not_empty. }
    rewrite Hne. run_world.
    unfold bind at 1.
    rewrite DreamstateUpdate_save_run
      by (apply references_insert_or_replace; reflexivity).
    do 3 eexists. split; [reflexivity |]. repeat split.
  - run_world.
    unfold bind at 1.
    rewrite DreamstateUpdate_save_run
      by (apply references_insert_or_replace; reflexivity).
    do 3 eexists. split; [reflexivity |]. repeat split.
Qed.

Lemma changes_traits_keys (b1 b2 b3 : bool) (v1 v2 v3 : JS.number) (k : string) :
  In k (map fst
          (set_if b3 "agreeableness" v3
             (set_if b2 "neuroticism" v2
                (set_if b1 "conscientiousness" v1 [])))) ->
  In k evolving_traits.
Proof.
  intros H. apply in_map_iff in H. destruct H as ([k' v] & <- & H).
  unfold evolving_traits. simpl fst.
  apply In_set_if in H. destruct H as [(_ & -> & _) | H]; [simpl; tauto |].
  apply In_set_if in H. destruct H as [(_ & -> & _) | H]; [simpl; tauto |].
  apply In_set_if in H. destruct H as [(_ & -> & _) | []]. simpl; tauto.
Qed.

(** X15. With a persona, [evolveDreamstate] returns.  The persona keeps
    its identifier and its preferences, every trait other than
    conscientiousness, neuroticism and agreeableness and every value other
    than helpfulness keeps what it had, and the biography is only ever
    extended.  The changed persona is saved, and an update is stored that
    records the state of the persona before and after; memories and
    conversations are not written. *)
Theorem evolveDreamstate_spec (p : Persona.t) (ms : list Memory.t)
    (opts : PersonaEvolver.options) (w : World) :
  exists (u : DreamstateUpdate.t) (p' : Persona.t) (w' : World),
    PersonaEvolver.evolveDreamstate (Some p) ms opts w = (Return (u, p'), w')
    /\ Persona.personaId p' = Persona.personaId p
    /\ Persona.preferences p' = Persona.preferences p
    /\ (forall k, ~ In k evolving_traits ->
          JS.get (Persona.traits p') k = JS.get (Persona.traits p) k)
    /\ (forall k, k <> "helpfulness" ->
          JS.get (Persona.values p') k = JS.get (Persona.values p) k)
    /\ (exists suffix, Persona.biography p' = Persona.biography p ++ suffix)
    /\ DreamstateUpdate.personaId u = Persona.personaId p
    /\ DreamstateUpdate.previousState u = Persona.snapshot p
    /\ DreamstateUpdate.newState u = Persona.snapshot p'
    /\ In (Persona.to_row p') (persona_table w')
    /\ In (DreamstateUpdate.to_row u) (dreamstate_updates w')
    /\ memories w' = memories w
    /\ conversations w' = conversations w.
Proof.
  destruct (evolveDreamstate_run p ms opts w)
    as (u & p' & w' & Hrun & Hid & Ht & Hv & Hpr & Hb & Hu & Hprev & Hnew
        & Hpt & Hdu & Hm & Hc).
  destruct (identifyPersonaChanges_shape p ms opts)
    as (b1 & b2 & b3 & Htraits & Hvalues & _).
  exists u, p', w'.
  split; [exact Hrun |]. split; [exact Hid |]. split; [exact Hpr |].
  split; [| split; [| split; [| split; [| split; [| split; [| split;
    [| split; [| split]]]]]]]]; try assumption.
  - intros k Hk. rewrite Ht. apply get_spread_other.
    rewrite Htraits. intros Hin. apply Hk.
    eapply changes_traits_keys. exact Hin.
  - intros k Hk. rewrite Hv. apply get_spread_other.
    rewrite Hvalues. intros Hin. apply in_map_iff in Hin.
    destruct Hin as ([k' v] & <- & Hin). apply In_set_if in Hin.
    destruct Hin as [(_ & Heq & _) | []]. now apply Hk.
  - rewrite Hb, identifyPersonaChanges_biography.
    destruct (filter (fun memory => 8 <=? Memory.importance memory) ms).
    + exists "". now rewrite string_app_nil_r.
    + eexists. reflexivity.
  - rewrite Hpt. apply insert_or_replace_In.
  - rewrite Hdu. apply insert_or_replace_In.
Qed.

Lemma get_In {V : Type} (o : JS.obj V) (k : string) (v : V) :
  JS.get o k = Some v -> In (k, v) o.
Proof.
  induction o as [| [k0 v0] o IH]; simpl; [discriminate |].
  destruct (String.eqb_spec k0 k) as [-> | Hne].
  - intros H. left. congruence.
  - intros H. right. now apply IH.
Qed.

Lemma qmin_range (cap q : Q) :
  (0 <= cap)%Q -> (cap <= 1)%Q -> (0 <= q)%Q ->
  (0 <= JS.qmin cap q)%Q /\ (JS.qmin cap q <= 1)%Q.
Proof.
  intros H0 H1 Hq. unfold JS.qmin.
  destruct (Qle_bool cap q) eqn:Hle; [tauto |].
  split; [exact Hq |].
  apply Qle_trans with cap; [| exact H1].
  apply Qlt_le_weak, Qnot_le_lt. intros Hc.
  apply Qle_bool_iff in Hc. congruence.
Qed.

(** A number of an object in range that is raised by a step and cut at a
    cap of at most 1 is in range. *)
Lemma raised_in_range (o : JS.obj JS.number) (key : string)
    (cap step bound : Q) :
  in_unit_range o ->
  (0 <= cap)%Q -> (cap <= 1)%Q -> (0 <= step)%Q ->
  JS.number_lt_opt (JS.get o key) bound = true ->
  exists q : Q,
    JS.number_min cap (JS.number_add_opt (JS.get o key) step) = JS.Num q
    /\ (0 <= q)%Q /\ (q <= 1)%Q.
Proof.
  intros Ho H0 H1 Hs Hlt.
  destruct (JS.get o key) as [[x |] |] eqn:Hg; try discriminate.
  destruct (Ho key (JS.Num x) (get_In _ _ _ Hg)) as (q & Heq & Hq0 & _).
  injection Heq as ->.
  eexists. split; [reflexivity |].
  apply qmin_range; try assumption.
  unfold JS.add. apply fl_nonneg.
  rewrite <- (Qplus_0_r 0). now apply Qplus_le_compat.
Qed.

Lemma lit_range (x : Q) :
  Qle_bool 0 (JS.lit x) = true -> Qle_bool (JS.lit x) 1 = true ->
  (0 <= JS.lit x)%Q /\ (JS.lit x <= 1)%Q.
Proof. intros H0 H1. split; now apply Qle_bool_iff. Qed.

(** X16. The dreamstate keeps traits and values between 0 and 1: if all
    traits and all values of the persona are numbers in that range, and the
    persona has a value for helpfulness, then all traits and all values of
    the evolved persona are numbers in that range. *)
Theorem evolveDreamstate_range (p : Persona.t) (ms : list Memory.t)
    (opts : PersonaEvolver.options) (w : World) :
  in_unit_range (Persona.traits p) ->
  in_unit_range (Persona.values p) ->
  JS.has (Persona.values p) "helpfulness" = true ->
  exists (u : DreamstateUpdate.t) (p' : Persona.t) (w' : World),
    PersonaEvolver.evolveDreamstate (Some p) ms opts w = (Return (u, p'), w')
    /\ in_unit_range (Persona.traits p')
    /\ in_unit_range (Persona.values p').
Proof.
  intros Htr Hvr Hhas.
  destruct (evolveDreamstate_run p ms opts w)
    as (u & p' & w' & Hrun & _ & Ht & Hv & _).
  destruct (identifyPersonaChanges_shape p ms opts)
    as (b1 & b2 & b3 & Htraits & Hvalues & _ & H1 & H2 & H3).
  assert (Hone : (0 <= JS.lit 1)%Q /\ (JS.lit 1 <= 1)%Q)
    by (apply lit_range; vm_compute; reflexivity).
  assert (H80 : (0 <= JS.lit (8 # 10))%Q /\ (JS.lit (8 # 10) <= 1)%Q)
    by (apply lit_range; vm_compute; reflexivity).
  assert (H95 : (0 <= JS.lit (95 # 100))%Q /\ (JS.lit (95 # 100) <= 1)%Q)
    by (apply lit_range; vm_compute; reflexivity).
  assert (Hstep : forall x : Q, (0 <= x)%Q -> (0 <= JS.lit x)%Q)
    by (intros x Hx; now apply fl_nonneg).
  exists u, p', w'. split; [exact Hrun |]. split.
  - rewrite Ht. unfold in_unit_range.
    apply (spread_all
             (fun _ v => exists q, v = JS.Num q /\ (0 <= q)%Q /\ (q <= 1)%Q));
      [| exact Htr].
    rewrite Htraits. intros k v Hin.
    apply In_set_if in Hin. destruct Hin as [(Hb & _ & ->) | Hin].
    { apply raised_in_range with (bound := JS.lit (95 # 100));
        try tauto; apply Hstep; discriminate. }
    apply In_set_if in Hin. destruct Hin as [(Hb & _ & ->) | Hin].
    { apply raised_in_range with (bound := JS.lit (8 # 10));
        try tauto; apply Hstep; discriminate. }
    apply In_set_if in Hin. destruct Hin as [(Hb & _ & ->) | []].
    apply raised_in_range with (bound := JS.lit (9 # 10));
      try tauto; apply Hstep; discriminate.
  - rewrite Hv. unfold in_unit_range.
    apply (spread_all
             (fun _ v => exists q, v = JS.Num q /\ (0 <= q)%Q /\ (q <= 1)%Q));
      [| exact Hvr].
    rewrite Hvalues. intros k v Hin.
    apply In_set_if in Hin. destruct Hin as [(Hb & _ & ->) | []].
    unfold JS.has in Hhas.
    destruct (JS.get (Persona.values p) "helpfulness") as [h |] eqn:Hg;
      [| discriminate].
    destruct (Hvr "helpfulness" h (get_In _ _ _ Hg)) as (q & -> & Hq0 & _).
    eexists. split; [reflexivity |].
    apply qmin_range; try tauto.
    unfold JS.add. apply fl_nonneg.
    rewrite <- (Qplus_0_r 0). apply Qplus_le_compat; [exact Hq0 |].
    apply Hstep. discriminate.
Qed.

(** X16 at a persona with two traits and one value. *)
Lemma evolveDreamstate_range_witness :
  exists (u : DreamstateUpdate.t) (p' : Persona.t) (w' : World),
    PersonaEvolver.evolveDreamstate (Some p_agreeable) ms_two
      PersonaEvolver.no_options w0
    = (Return (u, p'), w')
    /\ in_unit_range (Persona.traits p')
    /\ in_unit_range (Persona.values p').
Proof.
  apply (evolveDreamstate_range p_agreeable ms_two PersonaEvolver.no_options w0).
  - intros k v [H | [H | []]]; injection H as <- <-; eexists;
      (split; [reflexivity |]); split; apply Qle_bool_iff; vm_compute; reflexivity.
  - intros k v [H | []]; injection H as <- <-; eexists;
      (split; [reflexivity |]); split; apply Qle_bool_iff; vm_compute; reflexivity.
  - reflexivity.
Defined.

Lemma get_no_key {V : Type} (o : JS.obj V) (k : string) :
  (forall v, ~ In (k, v) o) -> JS.get o k = None.
Proof.
  intros H. destruct (JS.get o k) as [v |] eqn:Hg; [| reflexivity].
  apply get_In in Hg. now apply H in Hg.
Qed.

(** X17. Helpfulness follows agreeableness: whenever the dreamstate
    changes the agreeableness of the persona, it sets the helpfulness to the
    smaller one of 1 and the old helpfulness plus 0.01, without looking at
    the old helpfulness.  For a persona that has no value for helpfulness
    the new helpfulness is therefore [NaN]. *)
Theorem helpfulness_follows_agreeableness (p : Persona.t) (ms : list Memory.t)
    (opts : PersonaEvolver.options) (w : World) :
  let p' := evolved p ms opts w in
  JS.get (Persona.traits p') "agreeableness"
  <> JS.get (Persona.traits p) "agreeableness" ->
  JS.get (Persona.values p') "helpfulness"
  = Some (JS.number_min (JS.lit 1)
            (JS.number_add_opt (JS.get (Persona.values p) "helpfulness")
               (JS.lit (1 # 100))))
  /\ (JS.get (Persona.values p) "helpfulness" = None ->
      JS.get (Persona.values p') "helpfulness" = Some JS.NaN).
Proof.
  intros p' Hchanged.
  destruct (evolveDreamstate_run p ms opts w)
    as (u & q & w' & Hrun & _ & Ht & Hv & _).
  assert (Hp' : p' = q).
  { unfold p', evolved. rewrite Hrun. reflexivity. }
  rewrite Hp' in *. clear Hp' p'.
  destruct (identifyPersonaChanges_shape p ms opts)
    as (b1 & b2 & b3 & Htraits & Hvalues & _).
  assert (Hb3 : b3 = true).
  { destruct b3; [reflexivity |]. exfalso. apply Hchanged.
    rewrite Ht. apply get_spread_other. rewrite Htraits.
    unfold set_if at 1. intros Hin. apply in_map_iff in Hin.
    destruct Hin as ([k v] & Hk & Hin). simpl in Hk. subst k.
    apply In_set_if in Hin. destruct Hin as [(_ & Hk & _) | Hin];
      [discriminate |].
    apply In_set_if in Hin. destruct Hin as [(_ & Hk & _) | []].
    discriminate. }
  subst b3.
  assert (Hnew : JS.get (Persona.values q) "helpfulness"
                 = Some (JS.number_min (JS.lit 1)
                           (JS.number_add_opt
                              (JS.get (Persona.values p) "helpfulness")
                              (JS.lit (1 # 100))))).
  { rewrite Hv, Hvalues. unfold set_if, JS.spread. simpl fold_left.
    rewrite get_set. reflexivity. }
  split; [exact Hnew |].
  intros Hnone. rewrite Hnew, Hnone. reflexivity.
Qed.

(** X17 at a persona without helpfulness and two memories, one of them
    tagged [help]: the agreeableness is raised, the helpfulness is [NaN]. *)
Lemma helpfulness_follows_agreeableness_witness :
  JS.get (Persona.values
            (evolved p_no_helpfulness ms_two PersonaEvolver.no_options w0))
    "helpfulness"
  = Some JS.NaN.
Proof.
  apply (helpfulness_follows_agreeableness p_no_helpfulness ms_two
           PersonaEvolver.no_options w0).
  - vm_compute. intros H. discriminate H.
  - reflexivity.
Defined.

(** ** The life cycle of the controller *)

(** Without a persona the dreamstate step throws, after the recent
    memories have been read, and the controller is as before. *)
Lemma dreamstate_null (opts : PersonaEvolver.options)
    (o : AwakeningService.options) (cur : option Conversation.t)
    (ctx : option AwakeningService.context) (awake : bool) (w : World) :
  bindable (LTMSQL.sleep_limit opts) ->
  exists w' : World,
    LTMSQL.dreamstate opts (LTMSQL.mk o None cur ctx awake, w)
    = (Throw (Error "Persona cannot be null"),
       (LTMSQL.mk o None cur ctx awake, w'))
    /\ stored w' = stored w.
Proof.
  intros Hlimit.
  destruct (getRecent_returns (LTMSQL.sleep_limit opts) Hlimit w)
    as (ms & w1 & Hms).
  pose proof (getRecent_stored (LTMSQL.sleep_limit opts) w) as Hst.
  rewrite Hms in Hst. cbn [snd] in Hst.
  exists w1. split; [| exact Hst].
  unfold LTMSQL.dreamstate, bind, LTMSQL.liftW, LTMSQL.this, gets.
  cbn [fst snd]. rewrite Hms. reflexivity.
Qed.

(** With a number of recent memories that cannot be bound, the dreamstate
    step fails on its query, and nothing is changed. *)
Lemma dreamstate_mismatch (opts : PersonaEvolver.options) (s : LTMSQL.Sys) :
  ~ bindable (LTMSQL.sleep_limit opts) ->
  LTMSQL.dreamstate opts s = (Throw (Error SQL.SQLITE_MISMATCH), s).
Proof.
  intros Hlimit. destruct s as [t w].
  unfold LTMSQL.dreamstate, bind, LTMSQL.liftW. cbn [fst snd].
  now rewrite getRecent_mismatch.
Qed.

Lemma sleep_no_conversation (opts : PersonaEvolver.options)
    (o : AwakeningService.options) (p : option Persona.t)
    (ctx : option AwakeningService.context) (w : World) :
  LTMSQL.sleep opts (LTMSQL.mk o p None ctx true, w)
  = LTMSQL.dreamstate opts (LTMSQL.mk o p None ctx true, w).
Proof. reflexivity. Qed.

(** X18. A controller without a persona cannot go to sleep: awake, its
    [sleep] throws [Persona cannot be null] once the open conversation has
    been ended and the recent memories have been read, and the controller
    stays awake with its awakening context; no persona and no update is
    written.  This is where a controller is that was built and awakened but
    never initialized: [awaken] does not set the persona.  The limits of
    the queries are such as can be bound. *)
Theorem sleep_without_persona :
  (forall (sopts : PersonaEvolver.options) (o : AwakeningService.options)
          (cur : option Conversation.t)
          (ctx : option AwakeningService.context) (w : World),
      bindable (LTMSQL.sleep_limit sopts) ->
      exists w' : World,
        LTMSQL.sleep sopts (LTMSQL.mk o None cur ctx true, w)
        = (Throw (Error "Persona cannot be null"),
           (LTMSQL.mk o None None ctx true, w'))
        /\ persona_table w' = persona_table w
        /\ dreamstate_updates w' = dreamstate_updates w)
  /\
  (forall (o opts : AwakeningService.options) (sopts : PersonaEvolver.options)
          (w : World),
      bindable_limits
        (AwakeningService.merge (LTMSQL.options (LTMSQL.new o)) opts) ->
      bindable (LTMSQL.sleep_limit sopts) ->
      exists (ctx : AwakeningService.context) (s1 s2 : LTMSQL.Sys),
        LTMSQL.awaken opts (LTMSQL.new o, w) = (Return (Some ctx), s1)
        /\ LTMSQL.sleep sopts s1 = (Throw (Error "Persona cannot be null"), s2)
        /\ LTMSQL.isAwake (fst s2) = true
        /\ LTMSQL.awakeningContext (fst s2) = Some ctx
        /\ LTMSQL.currentConversation (fst s2) = None).
Proof.
  assert (Hsleep :
    forall (sopts : PersonaEvolver.options) (o : AwakeningService.options)
           (cur : option Conversation.t)
           (ctx : option AwakeningService.context) (w : World),
      bindable (LTMSQL.sleep_limit sopts) ->
      exists w' : World,
        LTMSQL.sleep sopts (LTMSQL.mk o None cur ctx true, w)
        = (Throw (Error "Persona cannot be null"),
           (LTMSQL.mk o None None ctx true, w'))
        /\ persona_table w' = persona_table w
        /\ dreamstate_updates w' = dreamstate_updates w).
  { intros sopts o cur ctx w Hlimit. destruct cur as [c |].
    - rewrite sleep_ends_first, endConversation_run. cbn [snd].
      match goal with
      | |- context [LTMSQL.dreamstate sopts (_, ?w1)] =>
          destruct (dreamstate_null sopts o None ctx true w1 Hlimit)
            as (w' & Hrun & Hst)
      end.
      exists w'. split; [exact Hrun |].
      unfold stored, records in Hst. cbn in Hst.
      split; congruence.
    - rewrite sleep_no_conversation.
      destruct (dreamstate_null sopts o None ctx true w Hlimit)
        as (w' & Hrun & Hst).
      exists w'. split; [exact Hrun |].
      unfold stored, records in Hst. split; congruence. }
  split; [exact Hsleep |].
  intros o opts sopts w Hlimits Hlimit. unfold LTMSQL.new in *.
  cbn [LTMSQL.options] in Hlimits.
  set (o' := AwakeningService.merge _ o) in *.
  destruct (AwakeningService_awaken_run (AwakeningService.merge o' opts) w
              Hlimits)
    as (ctx & w1 & Hctx & _).
  pose proof (awaken_run opts o' None None ctx w w1 Hctx) as Hawake.
  cbv zeta in Hawake.
  match type of Hawake with
  | _ = (_, (LTMSQL.mk _ _ (Some ?c) _ _, ?w2)) =>
      destruct (Hsleep sopts o' (Some c) (Some ctx) w2 Hlimit)
        as (w3 & Hrun & _)
  end.
  exists ctx. do 2 eexists.
  split; [exact Hawake |].
  split; [exact Hrun |].
  repeat split.
Qed.

(** X18 at a new controller on the empty world, awakened and sent to
    sleep with the default options. *)
Lemma sleep_without_persona_witness :
  exists (ctx : AwakeningService.context) (s1 s2 : LTMSQL.Sys),
    LTMSQL.awaken AwakeningService.no_options
      (LTMSQL.new AwakeningService.no_options, w0)
    = (Return (Some ctx), s1)
    /\ LTMSQL.sleep PersonaEvolver.no_options s1
       = (Throw (Error "Persona cannot be null"), s2)
    /\ LTMSQL.isAwake (fst s2) = true
    /\ LTMSQL.awakeningContext (fst s2) = Some ctx
    /\ LTMSQL.currentConversation (fst s2) = None.
Proof.
  apply (proj2 sleep_without_persona AwakeningService.no_options
           AwakeningService.no_options PersonaEvolver.no_options w0).
  - repeat split.
  - reflexivity.
Defined.

Lemma initialize_run (o : AwakeningService.options) (p0 : option Persona.t)
    (cur : option Conversation.t) (ctx : option AwakeningService.context)
    (awake : bool) (w : World) :
  exists (p : Persona.t) (w' : World),
    LTMSQL.initialize (LTMSQL.mk o p0 cur ctx awake, w)
    = (Return tt, (LTMSQL.mk o (Some p) cur ctx awake, w'))
    /\ persona_table w' <> []
    /\ (persona_table w <> [] -> persona_table w' = persona_table w)
    /\ records w' = records w.
Proof.
  destruct (ensureExists_run w) as (p & w1 & Hp & Hne & Hkeep & Hrec).
  exists p, (logged ("Initialized with persona ID: " ++ Persona.personaId p) w1).
  split; [| split; [exact Hne | split; [exact Hkeep | exact Hrec]]].
  unfold LTMSQL.initialize, bind, LTMSQL.liftW. cbn [fst snd].
  rewrite Hp. reflexivity.
Qed.

(** X19. The life cycle of an initialized controller, with limits that
    can be bound to the queries: [initialize] loads or creates the persona,
    [awaken] returns a context and leaves a new conversation as the current
    one, and [sleep] then ends that conversation, returns a dreamstate update
    and leaves the controller asleep, without context and without
    conversation.  The update is stored for the persona of the controller,
    the evolved persona is saved, and a memory of the conversation is
    stored. *)
Theorem lifecycle_initialized (o opts : AwakeningService.options)
    (sopts : PersonaEvolver.options) (w : World) :
  bindable_limits
    (AwakeningService.merge (LTMSQL.options (LTMSQL.new o)) opts) ->
  bindable (LTMSQL.sleep_limit sopts) ->
  exists (s0 s1 s2 : LTMSQL.Sys) (ctx : AwakeningService.context)
         (u : DreamstateUpdate.t) (p : Persona.t) (m : Memory.t),
    LTMSQL.initialize (LTMSQL.new o, w) = (Return tt, s0)
    /\ LTMSQL.awaken opts s0 = (Return (Some ctx), s1)
    /\ LTMSQL.sleep sopts s1 = (Return (Some u), s2)
    /\ LTMSQL.isAwake (fst s2) = false
    /\ LTMSQL.awakeningContext (fst s2) = None
    /\ LTMSQL.currentConversation (fst s2) = None
    /\ LTMSQL.persona (fst s2) = Some p
    /\ DreamstateUpdate.personaId u = Persona.personaId p
    /\ In (DreamstateUpdate.to_row u) (dreamstate_updates (snd s2))
    /\ In (Persona.to_row p) (persona_table (snd s2))
    /\ In (Memory.to_row m) (memories (snd s2))
    /\ (exists c, LTMSQL.currentConversation (fst s1) = Some c
          /\ Memory.conversationId m = Some (Conversation.conversationId c)).
Proof.
  intros Hlimits Hlimit.
  unfold LTMSQL.new in *. cbn [LTMSQL.options] in Hlimits.
  set (o' := AwakeningService.merge _ o) in *.
  destruct (initialize_run o' None None None false w) as (p0 & w0' & Hinit & _).
  destruct (AwakeningService_awaken_run (AwakeningService.merge o' opts) w0'
              Hlimits)
    as (ctx & w1 & Hctx & _).
  pose proof (awaken_run opts o' (Some p0) None ctx w0' w1 Hctx) as Hawake.
  cbv zeta in Hawake.
  match type of Hawake with
  | _ = (_, (LTMSQL.mk _ _ (Some ?c') _ _, ?w3')) =>
      set (c := c') in *; set (w3 := w3') in *
  end.
  pose proof (sleep_ends_first sopts o' (Some p0) c (Some ctx) w3) as Hsleep.
  cbv zeta in Hsleep. rewrite endConversation_run in Hsleep. cbn [snd] in Hsleep.
  match type of Hsleep with
  | _ = LTMSQL.dreamstate _ (_, ?w4') => set (w4 := w4') in *
  end.
  destruct (getRecent_returns (LTMSQL.sleep_limit sopts) Hlimit w4)
    as (ms & w5 & Hms).
  pose proof (getRecent_stored (LTMSQL.sleep_limit sopts) w4) as Hst.
  rewrite Hms in Hst. cbn [snd] in Hst.
  destruct (evolveDreamstate_run p0 ms sopts w5)
    as (u & p & w6 & Hu & Hid & _ & _ & _ & _ & Hpid & _ & _ & Hpt & Hdu & Hm & _).
  rewrite (dreamstate_run sopts o' p0 p None (Some ctx) true w4 w5 w6 ms u Hms Hu)
    in Hsleep.
  do 3 eexists.
  exists ctx, u, p,
    (memory_from (uuid w3 (uuid_draws w3)) (clock w3 (S (clock_reads w3)))
       (closed_at (clock w3 (clock_reads w3)) c) MemoryProcessor.no_options).
  split; [exact Hinit |]. split; [exact Hawake |]. split; [exact Hsleep |].
  cbn [fst snd LTMSQL.isAwake LTMSQL.awakeningContext LTMSQL.currentConversation
       LTMSQL.persona].
  do 4 (split; [reflexivity |]).
  split; [congruence |].
  split; [change (In (DreamstateUpdate.to_row u) (dreamstate_updates w6));
          rewrite Hdu; apply insert_or_replace_In |].
  split; [change (In (Persona.to_row p) (persona_table w6));
          rewrite Hpt; apply insert_or_replace_In |].
  split.
  - cbn [memories printed logged]. rewrite Hm.
    unfold stored, records in Hst.
    assert (Hm5 : memories w5 = memories w4) by congruence.
    rewrite Hm5. unfold w4. cbn [memories]. apply insert_or_replace_In.
  - exists c. split; reflexivity.
Qed.

(** X19 at a new controller on the empty world, with the default
    options. *)
Lemma lifecycle_initialized_witness :
  exists (s0 s1 s2 : LTMSQL.Sys) (ctx : AwakeningService.context)
         (u : DreamstateUpdate.t),
    LTMSQL.initialize (LTMSQL.new AwakeningService.no_options, w0)
    = (Return tt, s0)
    /\ LTMSQL.awaken AwakeningService.no_options s0 = (Return (Some ctx), s1)
    /\ LTMSQL.sleep PersonaEvolver.no_options s1 = (Return (Some u), s2)
    /\ LTMSQL.isAwake (fst s2) = false.
Proof.
  destruct (lifecycle_initialized AwakeningService.no_options
              AwakeningService.no_options PersonaEvolver.no_options w0)
    as (s0 & s1 & s2 & ctx & u & p & m & H0 & H1 & H2 & H3 & _).
  - repeat split.
  - reflexivity.
  - exists s0, s1, s2, ctx, u. repeat split; assumption.
Defined.

(** ** The tool that records a message *)

Lemma record_awake_open (args : LTMClineServer.record_args)
    (o : AwakeningService.options) (p : option Persona.t) (c : Conversation.t)
    (ctx : option AwakeningService.context) (w : World) :
  JS.truthy (LTMClineServer.role args) = true ->
  JS.truthy (LTMClineServer.content args) = true ->
  LTMClineServer.ltm_record_message args (LTMSQL.mk o p (Some c) ctx true, w)
  = match LTMSQL.addMessage (LTMClineServer.role args)
            (LTMClineServer.content args) (LTMSQL.mk o p (Some c) ctx true, w) with
    | (Return c', s') =>
        (Return (LTMClineServer.Recorded (Conversation.conversationId c')
                   (List.length (Conversation.messages c'))), s')
    | (Throw e, s') => (Throw e, s')
    end.
Proof.
  intros Hr Hc. unfold LTMClineServer.ltm_record_message, try_catch.
  rewrite Hr, Hc. cbn [negb orb].
  rewrite addMessage_run.
  reflexivity.
Qed.

Lemma record_awake_none (args : LTMClineServer.record_args)
    (o : AwakeningService.options) (p : option Persona.t)
    (ctx : option AwakeningService.context) (w : World) :
  JS.truthy (LTMClineServer.role args) = true ->
  JS.truthy (LTMClineServer.content args) = true ->
  LTMClineServer.ltm_record_message args (LTMSQL.mk o p None ctx true, w)
  = LTMClineServer.ltm_record_message args
      (snd (LTMSQL.startConversation ["user"; "claude"] ""
              (LTMSQL.mk o p None ctx true,
               logged "No active conversation found, starting a new one" w))).
Proof.
  intros Hr Hc. rewrite startConversation_fresh. cbn [snd].
  unfold LTMClineServer.ltm_record_message, try_catch.
  rewrite Hr, Hc. cbn [negb orb].
  reflexivity.
Qed.

Lemma record_asleep (args : LTMClineServer.record_args) (ltm : LTMSQL.t) (w : World) :
  JS.truthy (LTMClineServer.role args) = true ->
  JS.truthy (LTMClineServer.content args) = true ->
  LTMSQL.isAwake ltm = false ->
  LTMClineServer.ltm_record_message args (ltm, w)
  = (Return (LTMClineServer.IsError "System must be awakened first"),
     (ltm,
      printed
        (mkLine ERROR "Error executing tool ltm_record_message:"
           (Some (Error "System must be awakened first")))
        w)).
Proof.
  intros Hr Hc Ha. unfold LTMClineServer.ltm_record_message, try_catch.
  rewrite Hr, Hc. cbn [negb orb].
  unfold bind at 1. unfold LTMSQL.this at 1. unfold gets at 1. cbn [fst].
  rewrite Ha. reflexivity.
Qed.

(** X20. The tool [ltm_record_message], called with a role and a content
    that are not empty.  Asleep, it answers with the error
    [System must be awakened first] and changes neither the controller nor
    the tables.  Awake with an open conversation, it appends the message to
    that conversation, saves it, and reports the identifier of the
    conversation and its number of messages, which is one more than
    before.  Awake without a conversation, it starts one between [user] and
    [claude] and records the message there as its first. *)
Theorem record_message_spec (args : LTMClineServer.record_args)
    (o : AwakeningService.options) (p : option Persona.t)
    (ctx : option AwakeningService.context) (w : World) :
  JS.truthy (LTMClineServer.role args) = true ->
  JS.truthy (LTMClineServer.content args) = true ->
  (forall cur : option Conversation.t,
      exists w' : World,
        LTMClineServer.ltm_record_message args (LTMSQL.mk o p cur ctx false, w)
        = (Return (LTMClineServer.IsError "System must be awakened first"),
           (LTMSQL.mk o p cur ctx false, w'))
        /\ stored w' = stored w)
  /\ (forall c : Conversation.t,
        exists (c' : Conversation.t) (w' : World),
          LTMClineServer.ltm_record_message args
            (LTMSQL.mk o p (Some c) ctx true, w)
          = (Return (LTMClineServer.Recorded (Conversation.conversationId c)
                       (S (List.length (Conversation.messages c)))),
             (LTMSQL.mk o p (Some c') ctx true, w'))
          /\ Conversation.messages c'
             = (Conversation.messages c
                ++ [Conversation.mkMessage (LTMClineServer.role args)
                      (LTMClineServer.content args) (clock w (clock_reads w))])%list
          /\ In (Conversation.to_row c') (conversations w'))
  /\ (exists (c' : Conversation.t) (w' : World) (t : Z),
        LTMClineServer.ltm_record_message args (LTMSQL.mk o p None ctx true, w)
        = (Return (LTMClineServer.Recorded (Conversation.conversationId c') 1),
           (LTMSQL.mk o p (Some c') ctx true, w'))
        /\ Conversation.messages c'
           = [Conversation.mkMessage (LTMClineServer.role args)
                (LTMClineServer.content args) t]
        /\ Conversation.participants c' = ["user"; "claude"]
        /\ Conversation.endTime c' = None
        /\ In (Conversation.to_row c') (conversations w')).
Proof.
  intros Hr Hc. split; [| split].
  - intros cur. eexists. split; [now apply record_asleep |]. reflexivity.
  - intros c. rewrite (record_awake_open args o p c ctx w Hr Hc), addMessage_run.
    do 2 eexists. split; [| split].
    + cbn [Conversation.conversationId Conversation.messages].
      rewrite length_app, Nat.add_comm. reflexivity.
    + reflexivity.
    + apply insert_or_replace_In.
  - rewrite (record_awake_none args o p ctx w Hr Hc), startConversation_fresh.
    cbn [snd].
    rewrite (record_awake_open args o p _ ctx _ Hr Hc), addMessage_run.
    do 3 eexists. split; [reflexivity |].
    cbn [Conversation.messages Conversation.participants Conversation.endTime app].
    repeat split. apply insert_or_replace_In.
Qed.

(** X20 at a call with the role [user] and the content [hello]. *)
Lemma record_message_spec_witness :
  exists (c' : Conversation.t) (w' : World),
    LTMClineServer.ltm_record_message
      (LTMClineServer.mkArgs (JS.Str "user") (JS.Str "hello")) (ltm_open, w0)
    = (Return (LTMClineServer.Recorded "c-1" 2),
       (LTMSQL.mk (LTMSQL.options ltm_open) (Some default_persona) (Some c')
          None true, w'))
    /\ Conversation.messages c'
       = (Conversation.messages c_open
          ++ [Conversation.mkMessage (JS.Str "user") (JS.Str "hello")
                (clock w0 (clock_reads w0))])%list
    /\ In (Conversation.to_row c') (conversations w').
Proof.
  apply (proj1 (proj2 (record_message_spec
                         (LTMClineServer.mkArgs (JS.Str "user") (JS.Str "hello"))
                         (LTMSQL.options ltm_open) (Some default_persona) None w0
                         eq_refl eq_refl)) c_open).
Defined.

(** ** Invariants of the controller *)

Lemma sound_kept (w w' : World) : kept w' = kept w -> sound w -> sound w'.
Proof.
  unfold kept, sound, fresh_ids. intros H [Hf Hw].
  apply pair_equal_spec in H. destruct H as [Hm Hu].
  rewrite Hm, Hu. now split.
Qed.

Lemma memory_from_saved (id : string) (d : Z) (c : Conversation.t)
    (opts : MemoryProcessor.options) :
  id <> "" -> saved_row (Memory.to_row (memory_from id d c opts)).
Proof. intros Hid. split; [exact Hid | simpl; lia]. Qed.

Lemma wf_rows_insert (row : DB.memory_row) (rows : list DB.memory_row) :
  saved_row row -> wf_rows rows ->
  wf_rows (SQL.insert_or_replace DB.memory_id row rows).
Proof.
  intros Hrow [Hs Hnd]. split; [| now apply insert_or_replace_keys].
  unfold SQL.insert_or_replace. apply Forall_app. split.
  - rewrite Forall_forall in Hs |- *. intros r Hr.
    apply filter_In in Hr. now apply Hs.
  - constructor; [exact Hrow | constructor].
Qed.

Lemma endConversation_none (opts : MemoryProcessor.options)
    (o : AwakeningService.options) (p : option Persona.t)
    (ctx : option AwakeningService.context) (awake : bool) (w : World) :
  LTMSQL.endConversation opts (LTMSQL.mk o p None ctx awake, w)
  = (Return None,
     (LTMSQL.mk o p None ctx awake, warned "No active conversation to end" w)).
Proof. reflexivity. Qed.

(** Ending a conversation leaves the controller without one and the
    memories sound. *)
Lemma endConversation_sound (opts : MemoryProcessor.options)
    (o : AwakeningService.options) (p : option Persona.t)
    (cur : option Conversation.t) (ctx : option AwakeningService.context)
    (awake : bool) (w : World) :
  sound w ->
  exists (r : option Memory.t) (w' : World),
    LTMSQL.endConversation opts (LTMSQL.mk o p cur ctx awake, w)
    = (Return r, (LTMSQL.mk o p None ctx awake, w'))
    /\ sound w'.
Proof.
  intros [Hf Hw]. destruct cur as [c |].
  - rewrite endConversation_run. do 2 eexists. split; [reflexivity |].
    split; [exact Hf |]. cbn [memories].
    apply wf_rows_insert; [| exact Hw]. apply memory_from_saved. apply Hf.
  - rewrite endConversation_none. do 2 eexists. split; [reflexivity |].
    now split.
Qed.

(** Starting a conversation leaves an open and empty current
    conversation and the memories sound. *)
Lemma startConversation_sound (participants : list string) (context : string)
    (o : AwakeningService.options) (p : option Persona.t)
    (cur : option Conversation.t) (ctx : option AwakeningService.context)
    (awake : bool) (w : World) :
  sound w ->
  exists (c : Conversation.t) (w' : World),
    LTMSQL.startConversation participants context
      (LTMSQL.mk o p cur ctx awake, w)
    = (Return c, (LTMSQL.mk o p (Some c) ctx awake, w'))
    /\ Conversation.endTime c = None
    /\ Conversation.rawText c = ""
    /\ Conversation.messages c = []
    /\ sound w'.
Proof.
  intros [Hf Hw]. destruct cur as [c0 |].
  - rewrite startConversation_ends_first, endConversation_run. cbn [snd].
    rewrite startConversation_fresh.
    do 2 eexists. split; [reflexivity |]. repeat split; try exact Hf.
    + cbn [memories]. apply wf_rows_insert; [| apply Hw].
      apply memory_from_saved. apply Hf.
    + cbn [memories]. apply insert_or_replace_keys. apply Hw.
  - rewrite startConversation_fresh.
    do 2 eexists. split; [reflexivity |]. repeat split; try exact Hf; apply Hw.
Qed.

Lemma AwakeningService_awaken_kept (opts : AwakeningService.options) :
  preserves kept (AwakeningService.awaken opts).
Proof.
  unfold AwakeningService.awaken, Persona.ensureExists, Persona.loadMostRecent,
    Persona.createDefault, Persona.of_row, Persona.save, Persona.new,
    Memory.getRecent, Memory.getImportant, Memory.of_row, Memory.new,
    DreamstateUpdate.getByPersona, DreamstateUpdate.of_row, DreamstateUpdate.new.
  frame_with ltac:(apply or_else_preserves; leaf).
Qed.

Lemma ensureExists_kept : preserves kept Persona.ensureExists.
Proof.
  unfold Persona.ensureExists, Persona.loadMostRecent,
    Persona.createDefault, Persona.of_row, Persona.save, Persona.new.
  frame_with ltac:(apply or_else_preserves; leaf).
Qed.

Lemma searchRelevantMemories_kept (query : string) (tags : list string)
    (opts : AwakeningService.search_options) :
  preserves kept (AwakeningService.searchRelevantMemories query tags opts).
Proof.
  unfold AwakeningService.searchRelevantMemories, Memory.searchByTags,
    Memory.getRecent, Memory.of_row, Memory.new.
  frame_with ltac:(apply or_else_preserves; leaf).
Qed.

Lemma dreamstate_kept (opts : PersonaEvolver.options) :
  preserves (fun s : LTMSQL.Sys => kept (snd s)) (LTMSQL.dreamstate opts).
Proof.
  unfold LTMSQL.dreamstate, LTMSQL.this, Memory.getRecent, Memory.of_row,
    Memory.new, PersonaEvolver.evolveDreamstate.
  unfold Persona.updateTraits, Persona.updateValues, Persona.updatePreferences,
    Persona.updateBiography, Persona.save, DreamstateUpdate.new,
    DreamstateUpdate.save.
  frame_with ltac:(apply or_else_preserves; leaf).
Qed.

Lemma initialize_kept :
  preserves (fun s : LTMSQL.Sys => kept (snd s)) LTMSQL.initialize.
Proof.
  unfold LTMSQL.initialize, LTMSQL.set_persona.
  frame_with ltac:(first [ apply (preserves_liftW kept); apply ensureExists_kept
                         | leaf ]).
Qed.

Lemma awaken_awake (opts o : AwakeningService.options) (p : option Persona.t)
    (cur : option Conversation.t) (ctx : option AwakeningService.context)
    (w : World) :
  LTMSQL.awaken opts (LTMSQL.mk o p cur ctx true, w)
  = (Return ctx, (LTMSQL.mk o p cur ctx true, warned "System is already awake" w)).
Proof. reflexivity. Qed.

Lemma sleep_asleep (opts : PersonaEvolver.options)
    (o : AwakeningService.options) (p : option Persona.t)
    (cur : option Conversation.t) (ctx : option AwakeningService.context)
    (w : World) :
  LTMSQL.sleep opts (LTMSQL.mk o p cur ctx false, w)
  = (Return None,
     (LTMSQL.mk o p cur ctx false, warned "System is already asleep" w)).
Proof. reflexivity. Qed.

Lemma addMessage_none (role content : JS.arg) (ltm : LTMSQL.t) (w : World) :
  LTMSQL.currentConversation ltm = None ->
  LTMSQL.addMessage role content (ltm, w)
  = (Throw (Error "No active conversation. Call startConversation() first"),
     (ltm, w)).
Proof.
  intros H. unfold LTMSQL.addMessage, bind, LTMSQL.this, gets. cbn [fst].
  rewrite H. reflexivity.
Qed.

Lemma record_invalid (args : LTMClineServer.record_args) (ltm : LTMSQL.t)
    (w : World) :
  JS.truthy (LTMClineServer.role args) && JS.truthy (LTMClineServer.content args)
  = false ->
  LTMClineServer.ltm_record_message args (ltm, w)
  = (Return (LTMClineServer.IsError "Both role and content are required"),
     (ltm,
      printed
        (mkLine ERROR "Error executing tool ltm_record_message:"
           (Some (Error "Both role and content are required")))
        w)).
Proof.
  intros H. unfold LTMClineServer.ltm_record_message, try_catch.
  destruct ltm as [o p cur ctx awake].
  destruct (JS.truthy (LTMClineServer.role args)),
           (JS.truthy (LTMClineServer.content args));
    try discriminate; reflexivity.
Qed.

Lemma transcript_of_app (ms : list Conversation.message)
    (m : Conversation.message) :
  transcript_of (ms ++ [m])
  = transcript_of ms ++ JS.to_string (Conversation.role m) ++ ": "
    ++ JS.to_string (Conversation.content m) ++ nl.
Proof. unfold transcript_of. rewrite map_app, concat_app. reflexivity. Qed.

(** The dreamstate step on an awake controller without a conversation:
    it leaves the controller asleep and without context, or, where it
    throws, as it is. *)
Lemma dreamstate_controller (opts : PersonaEvolver.options)
    (o : AwakeningService.options) (p : option Persona.t)
    (ctx : option AwakeningService.context) (w : World) :
  exists (p' : option Persona.t) (w' : World),
    (after (LTMSQL.dreamstate opts) (LTMSQL.mk o p None ctx true, w)
     = (LTMSQL.mk o p' None None false, w')
     \/ after (LTMSQL.dreamstate opts) (LTMSQL.mk o p None ctx true, w)
        = (LTMSQL.mk o p None ctx true, w'))
    /\ kept w' = kept w.
Proof.
  pose proof (dreamstate_kept opts (LTMSQL.mk o p None ctx true, w)) as Hk.
  cbn [snd] in Hk. unfold after.
  destruct (SQL.bindable (LTMSQL.sleep_limit opts)) eqn:Hlimit.
  - destruct p as [p |].
    + destruct (getRecent_returns (LTMSQL.sleep_limit opts) Hlimit w)
        as (ms & w1 & Hms).
      destruct (evolveDreamstate_returns p ms opts w1) as ([u p'] & w2 & Hu).
      rewrite (dreamstate_run opts o p p' None ctx true w w1 w2 ms u Hms Hu) in *.
      do 2 eexists. split; [left; reflexivity | exact Hk].
    + destruct (dreamstate_null opts o None ctx true w Hlimit)
        as (w' & Hrun & _).
      rewrite Hrun in *. exists None, w'. split; [right; reflexivity | exact Hk].
  - assert (Hno : ~ bindable (LTMSQL.sleep_limit opts))
      by (unfold bindable; congruence).
    rewrite (dreamstate_mismatch opts _ Hno) in *.
    exists p, w. split; [right; reflexivity | exact Hk].
Qed.

(** Asleep, an [awaken] whose context cannot be built throws and leaves
    the controller as it is. *)
Lemma awaken_throws (opts o : AwakeningService.options) (p : option Persona.t)
    (cur : option Conversation.t) (ctx0 : option AwakeningService.context)
    (e : exn) (w w1 : World) :
  AwakeningService.awaken (AwakeningService.merge o opts) w = (Throw e, w1) ->
  LTMSQL.awaken opts (LTMSQL.mk o p cur ctx0 false, w)
  = (Throw e, (LTMSQL.mk o p cur ctx0 false, w1)).
Proof.
  intros Hctx.
  unfold LTMSQL.awaken.
  unfold bind at 1. unfold LTMSQL.this at 1. unfold gets at 1.
  cbn [fst snd LTMSQL.isAwake].
  unfold bind at 1. unfold LTMSQL.this at 1. unfold gets at 1.
  cbn [fst snd LTMSQL.options].
  unfold bind at 1. unfold LTMSQL.liftW at 1. cbn [fst snd].
  rewrite Hctx.
  reflexivity.
Qed.

(** Every settled call keeps the invariant. *)
Lemma step_invariant (op : operation) (s : LTMSQL.Sys) :
  settled op s -> invariant s -> invariant (step op s).
Proof.
  destruct s as [[o p cur ctx awake] w]. intros Hsettled (Hc & Ha & Hs).
  unfold invariant, conversation_ok, awake_ok in *.
  cbn [fst snd LTMSQL.currentConversation LTMSQL.isAwake
       LTMSQL.awakeningContext] in *.
  destruct op as [| opts | ps cx | role content | opts | opts | q tags opts | args];
    unfold step, after.
  - (* initialize *)
    pose proof (initialize_kept (LTMSQL.mk o p cur ctx awake, w)) as Hk.
    destruct (initialize_run o p cur ctx awake w) as (p1 & w' & Hrun & _).
    rewrite Hrun in *. cbn [fst snd LTMSQL.currentConversation LTMSQL.isAwake
                            LTMSQL.awakeningContext] in *.
    split; [exact Hc |]. split; [exact Ha |]. now apply (sound_kept w).
  - (* awaken *)
    destruct awake.
    + rewrite awaken_awake.
      cbn [fst snd LTMSQL.currentConversation LTMSQL.isAwake
           LTMSQL.awakeningContext].
      split; [exact Hc |]. split; [exact Ha |]. now apply (sound_kept w).
    + cbn [settled fst LTMSQL.isAwake LTMSQL.currentConversation] in Hsettled.
      rewrite (Hsettled eq_refl) in *.
      pose proof (AwakeningService_awaken_kept (AwakeningService.merge o opts) w)
        as Hk.
      destruct (AwakeningService.awaken (AwakeningService.merge o opts) w)
        as [[ctx1 | e] w1] eqn:Hctx; cbn [snd] in Hk.
      * rewrite (awaken_run opts o p ctx ctx1 w w1 Hctx).
        cbn [fst snd LTMSQL.currentConversation LTMSQL.isAwake
             LTMSQL.awakeningContext Conversation.endTime Conversation.rawText
             Conversation.messages].
        split; [split; reflexivity |].
        split; [split; [discriminate | reflexivity] |].
        apply (sound_kept w1); [reflexivity | now apply (sound_kept w)].
      * rewrite (awaken_throws opts o p None ctx e w w1 Hctx).
        cbn [fst snd LTMSQL.currentConversation LTMSQL.isAwake
             LTMSQL.awakeningContext].
        split; [exact I |]. split; [exact Ha |]. now apply (sound_kept w).
  - (* startConversation *)
    destruct (startConversation_sound ps cx o p cur ctx awake w Hs)
      as (c & w' & Hstart & Hend & Hraw & Hmsgs & Hs').
    rewrite Hstart.
    cbn [fst snd LTMSQL.currentConversation LTMSQL.isAwake
         LTMSQL.awakeningContext].
    split; [split; [exact Hend | now rewrite Hraw, Hmsgs] |].
    split; [exact Ha | exact Hs'].
  - (* addMessage *)
    destruct cur as [c |].
    + rewrite addMessage_run.
      cbn [fst snd LTMSQL.currentConversation LTMSQL.isAwake
           LTMSQL.awakeningContext Conversation.endTime Conversation.rawText
           Conversation.messages].
      destruct Hc as [Hend Hraw].
      split; [split; [exact Hend | now rewrite transcript_of_app, Hraw] |].
      split; [exact Ha |]. now apply (sound_kept w).
    + rewrite addMessage_none by reflexivity.
      cbn [fst snd LTMSQL.currentConversation LTMSQL.isAwake
           LTMSQL.awakeningContext].
      split; [exact I |]. split; [exact Ha | exact Hs].
  - (* endConversation *)
    destruct (endConversation_sound opts o p cur ctx awake w Hs)
      as (r & w' & Hrun & Hs').
    rewrite Hrun.
    cbn [fst snd LTMSQL.currentConversation LTMSQL.isAwake
         LTMSQL.awakeningContext].
    split; [exact I |]. split; [exact Ha | exact Hs'].
  - (* sleep *)
    destruct awake.
    + assert (Hend : exists w1 : World,
                 LTMSQL.sleep opts (LTMSQL.mk o p cur ctx true, w)
                 = LTMSQL.dreamstate opts (LTMSQL.mk o p None ctx true, w1)
                 /\ sound w1).
      { destruct cur as [c |].
        - rewrite sleep_ends_first.
          destruct (endConversation_sound MemoryProcessor.no_options o p
                      (Some c) ctx true w Hs) as (r & w1 & Hrun & Hs1).
          rewrite Hrun. cbn [snd]. now exists w1.
        - rewrite sleep_no_conversation. now exists w. }
      destruct Hend as (w1 & -> & Hs1).
      destruct (dreamstate_controller opts o p ctx w1)
        as (p' & w' & [Hrun | Hrun] & Hk);
        unfold after in Hrun; rewrite Hrun;
        cbn [fst snd LTMSQL.currentConversation LTMSQL.isAwake
             LTMSQL.awakeningContext].
      * split; [exact I |].
        split; [split; [discriminate | intros H; now contradiction H] |].
        now apply (sound_kept w1).
      * split; [exact I |]. split; [exact Ha |]. now apply (sound_kept w1).
    + rewrite sleep_asleep.
      cbn [fst snd LTMSQL.currentConversation LTMSQL.isAwake
           LTMSQL.awakeningContext].
      split; [exact Hc |]. split; [exact Ha |]. now apply (sound_kept w).
  - (* searchMemories *)
    unfold LTMSQL.searchMemories.
    pose proof (preserves_liftW_this (fun t => t)
                  (AwakeningService.searchRelevantMemories q tags opts)
                  (LTMSQL.mk o p cur ctx awake, w)) as Ht.
    pose proof (preserves_liftW kept _
                  (searchRelevantMemories_kept q tags opts)
                  (LTMSQL.mk o p cur ctx awake, w)) as Hk.
    cbn [fst snd] in Ht, Hk. rewrite Ht.
    cbn [LTMSQL.currentConversation LTMSQL.isAwake LTMSQL.awakeningContext].
    split; [exact Hc |]. split; [exact Ha |]. now apply (sound_kept w).
  - (* ltm_record_message *)
    destruct (JS.truthy (LTMClineServer.role args)
              && JS.truthy (LTMClineServer.content args)) eqn:Hargs.
    + apply andb_true_iff in Hargs. destruct Hargs as [Hr Hcn].
      destruct awake.
      * assert (Hopen : forall (c : Conversation.t) (w1 : World),
                   Conversation.endTime c = None ->
                   Conversation.rawText c
                   = transcript_of (Conversation.messages c) ->
                   sound w1 ->
                   invariant
                     (snd (LTMClineServer.ltm_record_message args
                             (LTMSQL.mk o p (Some c) ctx true, w1)))).
        { intros c w1 Hend Hraw Hs1.
          rewrite (record_awake_open args o p c ctx w1 Hr Hcn), addMessage_run.
          unfold invariant, conversation_ok, awake_ok.
          cbn [fst snd LTMSQL.currentConversation LTMSQL.isAwake
               LTMSQL.awakeningContext Conversation.endTime Conversation.rawText
               Conversation.messages].
          split; [split; [exact Hend | now rewrite transcript_of_app, Hraw] |].
          split; [exact Ha |]. now apply (sound_kept w1). }
        destruct cur as [c |].
        -- destruct Hc as [Hend Hraw]. exact (Hopen c w Hend Hraw Hs).
        -- rewrite (record_awake_none args o p ctx w Hr Hcn).
           rewrite startConversation_fresh. cbn [snd].
           apply Hopen; [reflexivity | reflexivity |].
           now apply (sound_kept w).
      * rewrite (record_asleep args _ w Hr Hcn) by reflexivity.
        cbn [fst snd LTMSQL.currentConversation LTMSQL.isAwake
             LTMSQL.awakeningContext].
        split; [exact Hc |]. split; [exact Ha |]. now apply (sound_kept w).
    + rewrite (record_invalid args _ w Hargs).
      cbn [fst snd LTMSQL.currentConversation LTMSQL.isAwake
           LTMSQL.awakeningContext].
      split; [exact Hc |]. split; [exact Ha |]. now apply (sound_kept w).
Qed.

(** X21. Whatever calls are made on the controller, in whatever order,
    as long as each call is settled when the next one is made (no [awaken]
    finds the controller asleep with a conversation open): the current
    conversation, if there is one, stays open with a raw text that is the
    rendering of its messages; the controller holds an awakening context
    exactly while it is awake; and the table of memories holds only rows
    with an identifier, an importance between 1 and 10 and pairwise
    different identifiers (the generator of identifiers never giving the
    empty string).  This holds whether the calls return or throw. *)
Theorem invariant_kept (ops : list operation) (s : LTMSQL.Sys) :
  invariant s -> all_settled ops s -> invariant (run_all ops s).
Proof.
  revert s. induction ops as [| op ops IH]; intros s Hs Hall; [exact Hs |].
  destruct Hall as [Hop Hall].
  apply IH; [now apply step_invariant | exact Hall].
Qed.

(** X21 at a new controller on the empty world, for a session that
    awakens, records a message, starts another conversation and sleeps
    without having been initialized. *)
Lemma invariant_kept_witness :
  invariant
    (run_all
       [Awaken AwakeningService.no_options;
        RecordMessage (LTMClineServer.mkArgs (JS.Str "user") (JS.Str "hello"));
        StartConversation ["user"] "again";
        Sleep PersonaEvolver.no_options]
       (LTMSQL.new AwakeningService.no_options, w0)).
Proof.
  apply invariant_kept.
  - split; [exact I |]. split.
    + split; [discriminate | intros H; now contradiction H].
    + split; [intros k; discriminate | split; constructor].
  - cbn [all_settled settled]. split; [reflexivity |]. repeat split.
Defined.

(** ** From a conversation to the memory that a search returns *)

Lemma searchByTags_run (tags : list string) (limit : Z) (w : World) :
  Forall short_tag tags ->
  Forall saved_row (memories w) ->
  Memory.searchByTags tags limit w
  = (Return (map memory_of_row (Memory.search_rows tags limit (memories w))), w).
Proof.
  intros Hshort Hsaved. rewrite (searchByTags_rows tags limit w Hshort).
  apply mapM_of_row_saved.
  destruct (search_rows_spec tags limit (memories w)) as (_ & _ & Hsub).
  rewrite Forall_forall in Hsaved |- *.
  intros a Ha. apply Hsaved. now apply Hsub.
Qed.

Lemma generateTags_participant (c : Conversation.t) (summary : string)
    (opts : MemoryProcessor.options) (tag : string) :
  In tag (Conversation.participants c) ->
  In tag (MemoryProcessor.generateTags c summary opts).
Proof.
  intros Hin.
  exact (proj1 (proj2 (dedupe_tags_spec (Conversation.participants c)
                         MemoryProcessor.commonKeywords
                         (JS.iso_date (Conversation.startTime c))
                         (fun keyword =>
                            JS.includes (JS.toLowerCase summary) keyword)))
           tag Hin).
Qed.

(** X22. What is remembered can be recalled.  On sound memories, when a
    conversation is ended, the memory made of it is found by a search for
    the name of any participant, the name being a short one that JSON writes
    as it is: the search that follows returns and changes nothing, and its
    result holds the memory, unless it holds as many memories as the limit
    (by default 5) allows and all of them come before the memory in the
    order of the result. *)
Theorem memory_is_recalled (opts : MemoryProcessor.options)
    (o : AwakeningService.options) (p : option Persona.t) (c : Conversation.t)
    (ctx : option AwakeningService.context) (awake : bool) (w : World)
    (tag query : string) (sopts : AwakeningService.search_options) :
  sound w ->
  In tag (Conversation.participants c) -> plain_tag tag -> short_tag tag ->
  0 <= AwakeningService.default 5 (AwakeningService.limit sopts) ->
  exists (m : Memory.t) (ms : list Memory.t) (s1 : LTMSQL.Sys),
    LTMSQL.endConversation opts (LTMSQL.mk o p (Some c) ctx awake, w)
    = (Return (Some m), s1)
    /\ Memory.conversationId m = Some (Conversation.conversationId c)
    /\ LTMSQL.searchMemories query [tag] sopts s1 = (Return ms, s1)
    /\ (In m ms
        \/ (Z.of_nat (List.length ms)
            = AwakeningService.default 5 (AwakeningService.limit sopts)
            /\ forall m', In m' ms -> memory_before m' m)).
Proof.
  intros [Hf [Hsaved Hnd]] Htag Hplain Hshort Hlimit.
  set (limit := AwakeningService.default 5 (AwakeningService.limit sopts)) in *.
  rewrite endConversation_run.
  set (c' := closed_at (clock w (clock_reads w)) c).
  set (m := memory_from (uuid w (uuid_draws w)) (clock w (S (clock_reads w)))
              c' opts).
  match goal with
  | |- exists _ _ s1, (_, (?t, ?w1')) = _ /\ _ => set (t1 := t); set (w1 := w1')
  end.
  assert (Hwf : wf_rows (memories w1)).
  { unfold w1. cbn [memories]. apply wf_rows_insert; [| now split].
    apply memory_from_saved. apply Hf. }
  destruct Hwf as [Hsaved1 Hnd1].
  assert (Hin : In (Memory.to_row m) (memories w1)).
  { unfold w1. cbn [memories]. apply insert_or_replace_In. }
  assert (Hm : memory_of_row (Memory.to_row m) = m).
  { apply memory_of_to_row. unfold m, memory_from. cbn [Memory.importance]. lia. }
  assert (Htags : In tag (DB.tags (Memory.to_row m))).
  { unfold m, memory_from. cbn [Memory.to_row DB.tags Memory.tags].
    apply generateTags_participant. exact Htag. }
  pose proof (search_rows_finds [tag] limit (memories w1) (Memory.to_row m) tag
                Hnd1 Hin (or_introl eq_refl) Htags Hplain Hlimit) as Hfinds.
  cbv zeta in Hfinds.
  destruct (search_rows_spec [tag] limit (memories w1)) as (_ & _ & Hsub).
  cbv zeta in Hsub.
  set (found := Memory.search_rows [tag] limit (memories w1)) in *.
  exists m, (map memory_of_row found), (t1, w1).
  split; [reflexivity |]. split; [reflexivity |]. split.
  - unfold LTMSQL.searchMemories, LTMSQL.liftW,
      AwakeningService.searchRelevantMemories.
    cbn [snd fst List.length Nat.ltb Nat.leb]. fold limit.
    rewrite (searchByTags_run [tag] limit w1
               (Forall_cons tag Hshort (Forall_nil _)) Hsaved1).
    reflexivity.
  - rewrite <- Hm at 1.
    destruct Hfinds as [Hfound | [Hlen Hbefore]]; [left; now apply in_map |].
    right. split; [now rewrite length_map |].
    intros m' Hm'. apply in_map_iff in Hm'. destruct Hm' as (a & <- & Ha).
    destruct (Hsub a Ha) as [Ha' _]. specialize (Hbefore a Ha).
    rewrite Forall_forall in Hsaved1.
    destruct (Hsaved1 a Ha') as [_ Hra].
    unfold memory_before, before in *. rewrite <- Hm.
    destruct (Hsaved1 _ Hin) as [_ Hrm].
    cbn [memory_of_row Memory.importance Memory.timestamp] in *.
    lia.
Qed.

(** X22 at the open conversation [c_open] and a search for [claude]. *)
Lemma memory_is_recalled_witness :
  exists (m : Memory.t) (ms : list Memory.t) (s1 : LTMSQL.Sys),
    LTMSQL.endConversation MemoryProcessor.no_options (ltm_open, w0)
    = (Return (Some m), s1)
    /\ Memory.conversationId m = Some (Conversation.conversationId c_open)
    /\ LTMSQL.searchMemories "anything" ["claude"]
         (AwakeningService.mkSearchOptions None) s1
       = (Return ms, s1)
    /\ (In m ms
        \/ (Z.of_nat (List.length ms)
            = AwakeningService.default 5
                (AwakeningService.limit (AwakeningService.mkSearchOptions None))
            /\ forall m', In m' ms -> memory_before m' m)).
Proof.
  apply (memory_is_recalled MemoryProcessor.no_options
           (LTMSQL.options ltm_open) (Some default_persona) c_open None true w0
           "claude" "anything" (AwakeningService.mkSearchOptions None)).
  - split; [intros k; discriminate | split; constructor].
  - simpl. tauto.
  - reflexivity.
  - unfold short_tag. simpl. lia.
  - simpl. lia.
Defined.

(** X23. The memory of a conversation is filed under the conversation.
    On sound memories, when a conversation is ended, [getByConversation]
    with its identifier afterwards changes nothing and returns the memory
    made of it; every memory that it returns belongs to that conversation
    and is a stored one.  Where the time stamps of the stored memories and
    of the new one are ordered as their texts are, the more recent memories
    come first. *)
Theorem memory_of_conversation (opts : MemoryProcessor.options)
    (o : AwakeningService.options) (p : option Persona.t) (c : Conversation.t)
    (ctx : option AwakeningService.context) (awake : bool) (w : World) :
  sound w ->
  exists (m : Memory.t) (ms : list Memory.t) (t1 : LTMSQL.t) (w1 : World),
    LTMSQL.endConversation opts (LTMSQL.mk o p (Some c) ctx awake, w)
    = (Return (Some m), (t1, w1))
    /\ Memory.getByConversation (Conversation.conversationId c) w1
       = (Return ms, w1)
    /\ In m ms
    /\ (forall m', In m' ms ->
          Memory.conversationId m' = Some (Conversation.conversationId c)
          /\ In (Memory.to_row m') (memories w1))
    /\ (iso_ordered (Memory.timestamp m :: map DB.timestamp (memories w)) ->
        StronglySorted
          (fun a b => Memory.timestamp b <= Memory.timestamp a) ms).
Proof.
  intros [Hf Hwf].
  rewrite endConversation_run.
  set (c' := closed_at (clock w (clock_reads w)) c).
  set (m := memory_from (uuid w (uuid_draws w)) (clock w (S (clock_reads w)))
              c' opts).
  match goal with
  | |- exists _ _ _ _, (_, (?t, ?w1')) = _ /\ _ => set (t1 := t); set (w1 := w1')
  end.
  assert (Hwf1 : wf_rows (memories w1)).
  { unfold w1. cbn [memories]. apply wf_rows_insert; [| exact Hwf].
    apply memory_from_saved. apply Hf. }
  destruct Hwf1 as [Hsaved1 _]. rewrite Forall_forall in Hsaved1.
  assert (Hin : In (Memory.to_row m) (memories w1)).
  { unfold w1. cbn [memories]. apply insert_or_replace_In. }
  assert (Hm : memory_of_row (Memory.to_row m) = m).
  { apply memory_of_to_row. unfold m, memory_from. cbn [Memory.importance]. lia. }
  set (mine := fun r : DB.memory_row =>
                 match DB.conversation_id r with
                 | Some id => String.eqb id (Conversation.conversationId c)
                 | None => false
                 end).
  set (rows := SQL.order_by_text_desc (fun r => toISOString (DB.timestamp r))
                 (filter mine (memories w1))).
  assert (Hrows : forall r, In r rows <-> In r (memories w1) /\ mine r = true).
  { intros r. unfold rows. rewrite <- filter_In. split; intros H.
    - now apply (Permutation_in _ (order_by_text_desc_perm _ _)) in H.
    - now apply (Permutation_in _
                   (Permutation_sym (order_by_text_desc_perm _ _))). }
  exists m, (map memory_of_row rows), t1, w1.
  split; [reflexivity |]. split; [| split; [| split]].
  - unfold Memory.getByConversation, bind, gets. fold mine. fold rows.
    apply mapM_of_row_saved. apply Forall_forall.
    intros r Hr. apply Hrows in Hr. now apply Hsaved1.
  - rewrite <- Hm. apply in_map. apply Hrows. split; [exact Hin |].
    unfold mine, m, memory_from. cbn [Memory.to_row DB.conversation_id].
    apply String.eqb_refl.
  - intros m' Hm'. apply in_map_iff in Hm'. destruct Hm' as (r & <- & Hr).
    apply Hrows in Hr. destruct Hr as [Hr Hmine]. split.
    + unfold mine in Hmine. cbn [memory_of_row Memory.conversationId].
      destruct (DB.conversation_id r) as [id |]; [| discriminate].
      apply String.eqb_eq in Hmine. now subst.
    + rewrite saved_row_round_trip; [exact Hr | now apply Hsaved1].
  - intros Hordered.
    assert (Hdated : dated (filter mine (memories w1))).
    { apply dated_filter. unfold dated.
      eapply iso_ordered_incl; [| exact Hordered].
      intros t Ht. apply in_map_iff in Ht. destruct Ht as (r & <- & Hr).
      unfold w1 in Hr. cbn [memories] in Hr. unfold SQL.insert_or_replace in Hr.
      apply in_app_or in Hr. destruct Hr as [Hr | [<- | []]].
      - right. apply in_map. apply filter_In in Hr. tauto.
      - left. reflexivity. }
    unfold rows. rewrite (order_by_text_desc_times DB.timestamp _ Hdated).
    apply memory_of_row_sorted
      with (R := fun a b => DB.timestamp b <= DB.timestamp a); [trivial |].
    apply order_by_desc_sorted.
Qed.

(** X23 at the open conversation [c_open]. *)
Lemma memory_of_conversation_witness :
  exists (m : Memory.t) (ms : list Memory.t) (t1 : LTMSQL.t) (w1 : World),
    LTMSQL.endConversation MemoryProcessor.no_options (ltm_open, w0)
    = (Return (Some m), (t1, w1))
    /\ Memory.getByConversation (Conversation.conversationId c_open) w1
       = (Return ms, w1)
    /\ In m ms
    /\ StronglySorted
         (fun a b => Memory.timestamp b <= Memory.timestamp a) ms.
Proof.
  destruct (memory_of_conversation MemoryProcessor.no_options
              (LTMSQL.options ltm_open) (Some default_persona) c_open None true
              w0)
    as (m & ms & t1 & w1 & Hend & Hget & Hin & _ & Hsorted).
  - split; [intros k; discriminate | split; constructor].
  - exists m, ms, t1, w1. repeat split; try assumption.
    apply Hsorted.
    rewrite endConversation_run in Hend. injection Hend as <- _ _.
    intros a b [<- | []] [<- | []]. reflexivity.
Defined.

(** ** The history of the persona *)

Lemma update_of_row_saved (r : DB.update_row) (w : World) :
  DB.u_update_id r <> "" ->
  DreamstateUpdate.of_row r w = (Return (update_of_row r), w).
Proof.
  intros Hid. unfold DreamstateUpdate.of_row, DreamstateUpdate.new, bind, or_else.
  destruct (String.eqb_spec (DB.u_update_id r) ""); [contradiction | reflexivity].
Qed.

Lemma mapM_update_of_row (rows : list DB.update_row) (w : World) :
  Forall (fun r => DB.u_update_id r <> "") rows ->
  mapM DreamstateUpdate.of_row rows w = (Return (map update_of_row rows), w).
Proof.
  induction 1 as [| r rows Hr _ IH]; simpl; [reflexivity |].
  unfold bind. rewrite (update_of_row_saved r w Hr), IH. reflexivity.
Qed.

Lemma update_of_to_row (u : DreamstateUpdate.t) :
  update_of_row (DreamstateUpdate.to_row u) = u.
Proof. now destruct u. Qed.

Lemma update_to_of_row (r : DB.update_row) :
  DreamstateUpdate.to_row (update_of_row r) = r.
Proof. now destruct r. Qed.

(** X24. The update that a dreamstate stores can be read back.  With a
    generator of identifiers that never gives the empty string and a table
    of updates that all have an identifier: after [evolveDreamstate], [load]
    with the identifier of the returned update gives an update with the
    same identifier, persona, description, justification and time, and
    [getByPersona] with the identifier of the persona and a limit that can
    be bound returns stored updates of that persona only, at most [limit] of
    them for a limit that is not negative and, for a negative limit, all of
    them, one with the identifier of the returned update included.  Where
    the times of the stored updates and of the new one are ordered as their
    texts are, the more recent updates come first. *)
Theorem update_is_filed (p : Persona.t) (ms : list Memory.t)
    (opts : PersonaEvolver.options) (w : World) (limit : Z) :
  fresh_ids w -> updates_named w -> bindable limit ->
  exists (u : DreamstateUpdate.t) (p' : Persona.t) (w' : World)
         (us : list DreamstateUpdate.t),
    PersonaEvolver.evolveDreamstate (Some p) ms opts w = (Return (u, p'), w')
    /\ (exists u0 : DreamstateUpdate.t,
          DreamstateUpdate.load (DreamstateUpdate.updateId u) w'
          = (Return (Some u0), w')
          /\ DreamstateUpdate.updateId u0 = DreamstateUpdate.updateId u
          /\ DreamstateUpdate.personaId u0 = Persona.personaId p
          /\ DreamstateUpdate.description u0 = DreamstateUpdate.description u
          /\ DreamstateUpdate.justification u0
             = DreamstateUpdate.justification u
          /\ DreamstateUpdate.timestamp u0 = DreamstateUpdate.timestamp u)
    /\ DreamstateUpdate.getByPersona (Persona.personaId p) limit w'
       = (Return us, w')
    /\ (forall u', In u' us ->
          DreamstateUpdate.personaId u' = Persona.personaId p
          /\ In (DB.u_update_id (DreamstateUpdate.to_row u'))
               (map DB.u_update_id (dreamstate_updates w')))
    /\ (iso_ordered
          (DreamstateUpdate.timestamp u
           :: map DB.u_timestamp (dreamstate_updates w)) ->
        StronglySorted
          (fun a b => DreamstateUpdate.timestamp b <= DreamstateUpdate.timestamp a)
          us)
    /\ (0 <= limit -> Z.of_nat (List.length us) <= limit)
    /\ (limit < 0 ->
        In (DreamstateUpdate.updateId u) (map DreamstateUpdate.updateId us)).
Proof.
  intros Hf Hnamed Hlimit.
  destruct (evolveDreamstate_run p ms opts w)
    as (u & p' & w' & Hrun & _ & _ & _ & _ & _ & Hpid & _ & _ & _ & Hdu & _).
  assert (Hid : DreamstateUpdate.updateId u = uuid w (uuid_draws w)).
  { revert Hrun. unfold PersonaEvolver.evolveDreamstate.
    unfold Persona.updateTraits, Persona.updateValues, Persona.updatePreferences,
      Persona.updateBiography, Persona.save, DreamstateUpdate.new, or_else.
    destruct (PersonaEvolver.biography
                (PersonaEvolver.identifyPersonaChanges p ms opts)) as [b |];
      [destruct (String.eqb b "") |];
      run_world; unfold bind at 1;
      (rewrite DreamstateUpdate_save_run
         by (apply references_insert_or_replace; reflexivity));
      intros H; injection H as <- _ _; reflexivity. }
  assert (Hne : DreamstateUpdate.updateId u <> "") by (rewrite Hid; apply Hf).
  assert (Hnamed' : Forall (fun r => DB.u_update_id r <> "")
                      (dreamstate_updates w')).
  { rewrite Hdu. unfold SQL.insert_or_replace. apply Forall_app. split.
    - unfold updates_named in Hnamed. rewrite Forall_forall in Hnamed |- *.
      intros r Hr. apply filter_In in Hr. now apply Hnamed.
    - constructor; [exact Hne | constructor]. }
  rewrite Forall_forall in Hnamed'.
  set (mine := fun r : DB.update_row =>
                 String.eqb (DB.u_persona_id r) (Persona.personaId p)).
  set (sorted := SQL.order_by_text_desc (fun r => toISOString (DB.u_timestamp r))
                   (filter mine (dreamstate_updates w'))).
  assert (Hsorted : forall r, In r sorted <->
                      In r (dreamstate_updates w') /\ mine r = true).
  { intros r. unfold sorted. rewrite <- filter_In. split; intros H.
    - now apply (Permutation_in _ (order_by_text_desc_perm _ _)) in H.
    - now apply (Permutation_in _
                   (Permutation_sym (order_by_text_desc_perm _ _))). }
  exists u, p', w', (map update_of_row (SQL.limit limit sorted)).
  split; [exact Hrun |]. split; [| split; [| split; [| split; [| split]]]].
  - exists u. split; [| repeat split; exact Hpid].
    unfold DreamstateUpdate.load, bind, gets. rewrite Hdu.
    change (DreamstateUpdate.updateId u)
      with (DB.u_update_id (DreamstateUpdate.to_row u)) at 1.
    rewrite (find_same_key DB.u_update_id (DreamstateUpdate.to_row u)).
    rewrite update_of_row_saved by exact Hne.
    now rewrite update_of_to_row.
  - unfold DreamstateUpdate.getByPersona. rewrite Hlimit. cbn [negb].
    unfold bind, gets. fold mine. fold sorted.
    apply mapM_update_of_row. apply Forall_forall.
    intros r Hr. apply limit_In in Hr. apply Hsorted in Hr. now apply Hnamed'.
  - intros u' Hu'. apply in_map_iff in Hu'. destruct Hu' as (r & <- & Hr).
    apply limit_In in Hr. apply Hsorted in Hr. destruct Hr as [Hr Hmine].
    split; [now apply String.eqb_eq in Hmine |].
    rewrite update_to_of_row. now apply in_map.
  - intros Hordered.
    assert (Hs : StronglySorted
                   (fun a b => DB.u_timestamp b <= DB.u_timestamp a)
                   (SQL.limit limit sorted)).
    { apply limit_sorted. unfold sorted.
      rewrite order_by_text_desc_times; [apply order_by_desc_sorted |].
      eapply iso_ordered_incl; [| exact Hordered].
      intros t Ht. apply in_map_iff in Ht. destruct Ht as (r & <- & Hr).
      apply filter_In in Hr. destruct Hr as [Hr _]. rewrite Hdu in Hr.
      unfold SQL.insert_or_replace in Hr.
      apply in_app_or in Hr. destruct Hr as [Hr | [<- | []]].
      - right. apply in_map. apply filter_In in Hr. tauto.
      - left. reflexivity. }
    clear - Hs. induction Hs as [| a l _ IH Hall]; simpl; constructor.
    + exact IH.
    + rewrite Forall_forall in Hall |- *. intros x Hx.
      apply in_map_iff in Hx. destruct Hx as (b & <- & Hb).
      now apply Hall.
  - intros Hl. rewrite length_map, limit_length.
    destruct (Z.ltb_spec limit 0); lia.
  - intros Hl. rewrite map_map.
    change (DreamstateUpdate.updateId u)
      with ((fun r => DreamstateUpdate.updateId (update_of_row r))
              (DreamstateUpdate.to_row u)).
    apply in_map.
    unfold SQL.limit. replace (limit <? 0) with true
      by (symmetry; now apply Z.ltb_lt).
    apply Hsorted. split.
    + rewrite Hdu. apply insert_or_replace_In.
    + unfold mine. cbn [DreamstateUpdate.to_row DB.u_persona_id].
      rewrite Hpid. apply String.eqb_refl.
Qed.

(** X24 at the default persona, two memories and the empty world. *)
Lemma update_is_filed_witness :
  exists (u : DreamstateUpdate.t) (p' : Persona.t) (w' : World)
         (us : list DreamstateUpdate.t),
    PersonaEvolver.evolveDreamstate (Some default_persona) ms_two
      PersonaEvolver.no_options w0
    = (Return (u, p'), w')
    /\ (exists u0 : DreamstateUpdate.t,
          DreamstateUpdate.load (DreamstateUpdate.updateId u) w'
          = (Return (Some u0), w')
          /\ DreamstateUpdate.updateId u0 = DreamstateUpdate.updateId u)
    /\ DreamstateUpdate.getByPersona (Persona.personaId default_persona) 3 w'
       = (Return us, w')
    /\ (0 <= 3 -> Z.of_nat (List.length us) <= 3).
Proof.
  destruct (update_is_filed default_persona ms_two PersonaEvolver.no_options
              w0 3)
    as (u & p' & w' & us & Hrun & (u0 & Hload & Hid & _) & Hget & _ & _
        & Hlen & _).
  - intros k. discriminate.
  - constructor.
  - reflexivity.
  - exists u, p', w', us.
    split; [exact Hrun |].
    split; [exists u0; split; assumption |].
    split; [exact Hget | exact Hlen].
Defined.

(** ** The awakening prompt *)

Lemma occurs_refl (s : string) : occurs s s.
Proof. exists "", "". simpl. now rewrite string_app_nil_r. Qed.

Lemma occurs_app_l (part a b : string) : occurs part a -> occurs part (a ++ b).
Proof.
  intros (pre & post & ->). exists pre, (post ++ b).
  now rewrite !string_app_assoc.
Qed.

Lemma occurs_app_r (part a b : string) : occurs part b -> occurs part (a ++ b).
Proof.
  intros (pre & post & ->). exists (a ++ pre), post.
  now rewrite !string_app_assoc.
Qed.

(** Looks for the part among the texts that are appended. *)
Ltac find_occurrence :=
  first [ apply occurs_refl
        | assumption
        | apply occurs_app_l; find_occurrence
        | apply occurs_app_r; find_occurrence ].

Lemma occurs_listing {A : Type} (heading none : string) (line : A -> string)
    (xs : list A) (x : A) :
  In x xs -> occurs (line x) (listing heading none line xs).
Proof.
  intros Hin. unfold listing.
  destruct xs as [| y ys]; [destruct Hin |].
  cbn [List.length Nat.ltb Nat.leb].
  assert (Hj : occurs (line x) (JS.join nl (map line (y :: ys)))).
  { destruct (join_In nl (line x) (map line (y :: ys))) as (pre & post & Heq);
      [now apply in_map |].
    now exists pre, post. }
  find_occurrence.
Qed.

Lemma toFixed2_opt_None (v : option JS.number) :
  toFixed2_opt v = None <-> v = None.
Proof. destruct v as [[q |] |]; simpl; split; congruence. Qed.

(** The description of the persona fails exactly when one of the five
    traits is missing. *)
Lemma personaDesc_None (persona : AwakeningService.persona_view) :
  personaDesc persona = None
  <-> exists k, In k printed_traits
        /\ JS.get (AwakeningService.pv_traits persona) k = None.
Proof.
  unfold personaDesc, printed_traits. split.
  - destruct (toFixed2_opt
                (JS.get (AwakeningService.pv_traits persona) "openness"))
      eqn:H1;
      [| intros _; exists "openness"; split;
         [simpl; tauto | now apply toFixed2_opt_None]].
    destruct (toFixed2_opt
                (JS.get (AwakeningService.pv_traits persona) "conscientiousness"))
      eqn:H2;
      [| intros _; exists "conscientiousness"; split;
         [simpl; tauto | now apply toFixed2_opt_None]].
    destruct (toFixed2_opt
                (JS.get (AwakeningService.pv_traits persona) "extraversion"))
      eqn:H3;
      [| intros _; exists "extraversion"; split;
         [simpl; tauto | now apply toFixed2_opt_None]].
    destruct (toFixed2_opt
                (JS.get (AwakeningService.pv_traits persona) "agreeableness"))
      eqn:H4;
      [| intros _; exists "agreeableness"; split;
         [simpl; tauto | now apply toFixed2_opt_None]].
    destruct (toFixed2_opt
                (JS.get (AwakeningService.pv_traits persona) "neuroticism"))
      eqn:H5;
      [discriminate
      | intros _; exists "neuroticism"; split;
        [simpl; tauto | now apply toFixed2_opt_None]].
  - intros (k & Hk & Hget). simpl in Hk.
    destruct Hk as [<- | [<- | [<- | [<- | [<- | []]]]]];
      rewrite Hget; cbn [toFixed2_opt]; try reflexivity;
      repeat (destruct (toFixed2_opt _); try reflexivity).
Qed.

Lemma personaDesc_biography (persona : AwakeningService.persona_view)
    (desc : string) :
  personaDesc persona = Some desc ->
  occurs (AwakeningService.pv_biography persona) desc.
Proof.
  unfold personaDesc.
  destruct (toFixed2_opt _); [| discriminate].
  destruct (toFixed2_opt _); [| discriminate].
  destruct (toFixed2_opt _); [| discriminate].
  destruct (toFixed2_opt _); [| discriminate].
  destruct (toFixed2_opt _); [| discriminate].
  intros H.
  apply (f_equal (fun o : option string =>
                    match o with Some d => d | None => "" end)) in H.
  cbv beta iota in H. rewrite <- H. find_occurrence.
Qed.

(** X25. The awakening prompt of an awake controller whose context was
    not read from stored [NaN]s.  Asking for the prompt raises a [TypeError]
    exactly when the persona of the context lacks one of the five traits
    openness, conscientiousness, extraversion, agreeableness and
    neuroticism.  A prompt that is returned holds the biography, a line with
    summary and importance for every recent and every important memory of
    the context, a line for every recent update, and the time of
    awakening. *)
Theorem getAwakeningPrompt_spec (t : LTMSQL.t) (ctx : AwakeningService.context) :
  LTMSQL.isAwake t = true ->
  LTMSQL.awakeningContext t = Some ctx ->
  no_NaN (AwakeningService.pv_traits (AwakeningService.persona ctx)) ->
  no_NaN (AwakeningService.pv_values (AwakeningService.persona ctx)) ->
  (getAwakeningPrompt t = inl TypeError
   <-> exists k, In k printed_traits
         /\ JS.get (AwakeningService.pv_traits (AwakeningService.persona ctx)) k
            = None)
  /\ (forall e, getAwakeningPrompt t <> inl (Thrown e))
  /\ (forall prompt : string,
        getAwakeningPrompt t = inr prompt ->
        occurs (AwakeningService.pv_biography (AwakeningService.persona ctx))
          prompt
        /\ (forall m, In m (AwakeningService.recentMemories ctx) ->
              occurs (memory_line m) prompt)
        /\ (forall m, In m (AwakeningService.importantMemories ctx) ->
              occurs (memory_line m) prompt)
        /\ (forall u, In u (AwakeningService.recentUpdates ctx) ->
              occurs (update_line u) prompt)
        /\ occurs (toISOString (AwakeningService.awakeningTime ctx)) prompt).
Proof.
  intros Hawake Hctx _ _. unfold getAwakeningPrompt. rewrite Hawake, Hctx.
  unfold generateAwakeningPrompt.
  pose proof (personaDesc_None (AwakeningService.persona ctx)) as Hnone.
  pose proof (personaDesc_biography (AwakeningService.persona ctx)) as Hbio.
  destruct (personaDesc (AwakeningService.persona ctx)) as [desc |].
  - split; [| split].
    + split; [discriminate |]. intros H. apply Hnone in H. discriminate H.
    + discriminate.
    + intros prompt H.
      apply (f_equal (fun r : failure + string =>
                        match r with inr d => d | inl _ => "" end)) in H.
      cbv beta iota in H. rewrite <- H.
      specialize (Hbio desc eq_refl).
      split; [find_occurrence |].
      split; [| split; [| split]].
      * intros m Hm.
        pose proof (occurs_listing "Recent experiences:"
                      "You have no recent memories." memory_line _ m Hm).
        find_occurrence.
      * intros m Hm.
        pose proof (occurs_listing "Important memories:"
                      "You have no significant memories." memory_line _ m Hm).
        find_occurrence.
      * intros u Hu.
        pose proof (occurs_listing "Recent personality developments:"
                      "Your personality has been stable recently."
                      update_line _ u Hu).
        find_occurrence.
      * find_occurrence.
  - split; [| split].
    + split; [intros _; now apply Hnone | reflexivity].
    + discriminate.
    + discriminate.
Qed.

(** X25 at an awake controller with the default persona in its context. *)
Lemma getAwakeningPrompt_spec_witness :
  exists prompt : string,
    getAwakeningPrompt
      (LTMSQL.mk AwakeningService.no_options None None (Some ctx_default) true)
    = inr prompt
    /\ occurs Persona.default_biography prompt.
Proof.
  set (t := LTMSQL.mk AwakeningService.no_options None None (Some ctx_default)
              true).
  exists (match getAwakeningPrompt t with inr p => p | inl _ => "" end).
  assert (H : getAwakeningPrompt t
              = inr (match getAwakeningPrompt t with
                     | inr p => p
                     | inl _ => ""
                     end))
    by (vm_compute; reflexivity).
  split; [exact H |].
  apply (proj2 (proj2 (getAwakeningPrompt_spec t ctx_default eq_refl eq_refl
                         ltac:(repeat constructor; discriminate)
                         ltac:(repeat constructor; discriminate)))
           _ H).
Defined.

Lemma ensures_ret {S A : Type} (Q : A -> Prop) (a : A) :
  Q a -> ensures Q (@ret S A a).
Proof. intros H s b s' Hrun. unfold ret in Hrun. congruence. Qed.

Lemma ensures_bind {S A B : Type} (Q : B -> Prop) (m : M S A)
    (k : A -> M S B) :
  (forall a, ensures Q (k a)) -> ensures Q (bind m k).
Proof.
  intros H s b s' Hrun. unfold bind in Hrun.
  destruct (m s) as [[a | e] s1]; [| discriminate].
  exact (H a s1 b s' Hrun).
Qed.

(** The persona of the awakening context is the one that [ensureExists]
    gives. *)
Lemma awaken_persona (opts : AwakeningService.options) (w w1 w' : World)
    (p : Persona.t) (ctx : AwakeningService.context) :
  Persona.ensureExists w = (Return p, w1) ->
  AwakeningService.awaken opts w = (Return ctx, w') ->
  AwakeningService.persona ctx
  = AwakeningService.mkPersonaView (Persona.personaId p) (Persona.traits p)
      (Persona.values p) (Persona.preferences p) (Persona.biography p).
Proof.
  intros Hp. unfold AwakeningService.awaken. unfold bind at 1. rewrite Hp.
  match goal with
  | |- ?m w1 = _ -> _ =>
      assert (He : ensures
                     (fun ctx =>
                        AwakeningService.persona ctx
                        = AwakeningService.mkPersonaView (Persona.personaId p)
                            (Persona.traits p) (Persona.values p)
                            (Persona.preferences p) (Persona.biography p))
                     m)
        by (repeat (apply ensures_bind; intros ?); apply ensures_ret; reflexivity)
  end.
  intros Hrun. exact (He w1 ctx w' Hrun).
Qed.

(** X26. The prompt before and after the first awakening.  Asleep, asking
    for the prompt throws [System is not awake. Call awaken() first].  After
    [awaken], with limits that can be bound, on an installation without a
    persona, the prompt is returned, and it holds the biography of the
    default persona. *)
Theorem prompt_after_awaken (opts o : AwakeningService.options)
    (p : option Persona.t) (cur : option Conversation.t)
    (ctx0 : option AwakeningService.context) (w : World) :
  persona_table w = [] ->
  bindable_limits (AwakeningService.merge o opts) ->
  getAwakeningPrompt (LTMSQL.mk o p cur ctx0 false)
  = inl (Thrown (Error "System is not awake. Call awaken() first"))
  /\ exists (ctx : AwakeningService.context) (s1 : LTMSQL.Sys)
            (prompt : string),
       LTMSQL.awaken opts (LTMSQL.mk o p cur ctx0 false, w)
       = (Return (Some ctx), s1)
       /\ getAwakeningPrompt (fst s1) = inr prompt
       /\ occurs Persona.default_biography prompt.
Proof.
  intros Hempty Hlimits. split; [reflexivity |].
  destruct (createDefault_run w) as (dp & wd & Hcreate & _ & Htraits & _ & _ & Hbio & _).
  assert (Hp : Persona.ensureExists w = (Return dp, wd)).
  { unfold Persona.ensureExists, bind.
    rewrite (loadMostRecent_empty w Hempty). exact Hcreate. }
  destruct (AwakeningService_awaken_run (AwakeningService.merge o opts) w
              Hlimits)
    as (ctx & w1 & Hctx & _).
  pose proof (awaken_persona _ w wd w1 dp ctx Hp Hctx) as Hpersona.
  assert (Hawake : exists (c : Conversation.t) (w2 : World),
             LTMSQL.awaken opts (LTMSQL.mk o p cur ctx0 false, w)
             = (Return (Some ctx), (LTMSQL.mk o p (Some c) (Some ctx) true, w2))).
  { destruct cur as [c0 |]; do 2 eexists.
    - exact (awaken_run_open opts o p c0 ctx0 ctx w w1 Hctx).
    - exact (awaken_run opts o p ctx0 ctx w w1 Hctx). }
  destruct Hawake as (c & w2 & Hawake).
  assert (Hdesc : personaDesc (AwakeningService.persona ctx) <> None).
  { intros Hnone. apply personaDesc_None in Hnone.
    destruct Hnone as (k & Hk & Hget).
    rewrite Hpersona in Hget. cbn [AwakeningService.pv_traits] in Hget.
    rewrite Htraits in Hget. simpl in Hk.
    destruct Hk as [<- | [<- | [<- | [<- | [<- | []]]]]]; discriminate Hget. }
  destruct (personaDesc (AwakeningService.persona ctx)) as [desc |] eqn:Hd;
    [| now contradiction Hdesc].
  exists ctx. do 2 eexists. split; [exact Hawake |].
  cbn [fst]. unfold getAwakeningPrompt.
  cbn [LTMSQL.isAwake LTMSQL.awakeningContext].
  unfold generateAwakeningPrompt. rewrite Hd.
  split; [reflexivity |].
  pose proof (personaDesc_biography _ desc Hd) as Hocc.
  rewrite Hpersona in Hocc. cbn [AwakeningService.pv_biography] in Hocc.
  rewrite Hbio in Hocc.
  change (Persona.biography default_persona) with Persona.default_biography
    in Hocc.
  find_occurrence.
Qed.

(** X26 at a new controller on the empty world. *)
Lemma prompt_after_awaken_witness :
  exists (ctx : AwakeningService.context) (s1 : LTMSQL.Sys) (prompt : string),
    LTMSQL.awaken AwakeningService.no_options
      (LTMSQL.mk (LTMSQL.options (LTMSQL.new AwakeningService.no_options))
         None None None false, w0)
    = (Return (Some ctx), s1)
    /\ getAwakeningPrompt (fst s1) = inr prompt
    /\ occurs Persona.default_biography prompt.
Proof.
  apply (proj2 (prompt_after_awaken AwakeningService.no_options
                  (LTMSQL.options (LTMSQL.new AwakeningService.no_options))
                  None None None w0 eq_refl
                  ltac:(repeat split))).
Defined.

(** ** The queries of the controller *)

Lemma read_only_liftW {A : Type} (m : M World A) :
  returns m -> preserves stored m -> read_only (LTMSQL.liftW m).
Proof.
  intros Hr Hp [t w]. destruct (Hr w) as (a & w' & Hrun).
  specialize (Hp w). rewrite Hrun in Hp.
  exists a, w'. split; [| exact Hp].
  unfold LTMSQL.liftW. cbn [fst snd]. rewrite Hrun. reflexivity.
Qed.

Lemma harmless_liftW {A : Type} (m : M World A) :
  preserves stored m -> harmless (LTMSQL.liftW m).
Proof.
  intros Hp [t w]. specialize (Hp w). unfold LTMSQL.liftW. cbn [fst snd].
  destruct (m w) as [r w']. split; [reflexivity | exact Hp].
Qed.

Lemma searchByTags_stored (tags : list string) (limit : Z) :
  preserves stored (Memory.searchByTags tags limit).
Proof.
  unfold Memory.searchByTags, Memory.of_row, Memory.new.
  frame_with ltac:(apply or_else_preserves; leaf).
Qed.

Lemma searchByTags_returns (tags : list string) (limit : Z) :
  Forall short_tag tags -> returns (Memory.searchByTags tags limit).
Proof.
  intros Hshort w. rewrite (searchByTags_rows tags limit w Hshort).
  apply (returns_mapM Memory.of_row _ of_row_returns).
Qed.

Lemma DreamstateUpdate_getRecent_stored (limit : Z) :
  preserves stored (DreamstateUpdate.getRecent limit).
Proof.
  unfold DreamstateUpdate.getRecent, DreamstateUpdate.of_row,
    DreamstateUpdate.new.
  frame_with ltac:(apply or_else_preserves; leaf).
Qed.

Lemma DreamstateUpdate_getRecent_returns (limit : Z) :
  bindable limit -> returns (DreamstateUpdate.getRecent limit).
Proof.
  intros H. unfold DreamstateUpdate.getRecent. rewrite H. cbn [negb].
  unfold DreamstateUpdate.of_row, DreamstateUpdate.new.
  frame_with ltac:(apply or_else_returns; leaf).
Qed.

Lemma searchRelevantMemories_stored (query : string) (tags : list string)
    (opts : AwakeningService.search_options) :
  preserves stored (AwakeningService.searchRelevantMemories query tags opts).
Proof.
  unfold AwakeningService.searchRelevantMemories.
  destruct (0 <? List.length tags)%nat;
    [apply searchByTags_stored | apply getRecent_stored].
Qed.

(** X27. The queries of the controller only read: [searchMemories],
    [getPersona], [getRecentMemories], [getImportantMemories],
    [getRecentUpdates] and [getStatus] leave the controller and all four
    tables as they are, whether they return or throw; in particular
    [getPersona] never creates a persona.  They return from every state
    when the tags that are searched for are short and the limit that is
    bound to a query can be bound. *)
Theorem queries_read_only :
  ((forall query tags opts, harmless (LTMSQL.searchMemories query tags opts))
   /\ harmless LTMSQL.getPersona
   /\ (forall limit, harmless (LTMSQL.getRecentMemories limit))
   /\ (forall threshold limit,
         harmless (LTMSQL.getImportantMemories threshold limit))
   /\ (forall limit, harmless (LTMSQL.getRecentUpdates limit))
   /\ harmless LTMSQL.getStatus)
  /\
  ((forall query tags opts,
       Forall short_tag tags ->
       (tags = [] ->
        bindable (AwakeningService.default 5 (AwakeningService.limit opts))) ->
       read_only (LTMSQL.searchMemories query tags opts))
   /\ read_only LTMSQL.getPersona
   /\ (forall limit, bindable limit -> read_only (LTMSQL.getRecentMemories limit))
   /\ (forall threshold limit,
         bindable limit ->
         read_only (LTMSQL.getImportantMemories threshold limit))
   /\ (forall limit, bindable limit -> read_only (LTMSQL.getRecentUpdates limit))
   /\ read_only LTMSQL.getStatus).
Proof.
  assert (Hpersona : read_only LTMSQL.getPersona).
  { intros [[o p cur ctx awake] w]. unfold LTMSQL.getPersona.
    destruct p as [p |].
    + exists (Some p), w. split; reflexivity.
    + destruct (read_only_liftW Persona.loadMostRecent loadMostRecent_returns
                  loadMostRecent_stored (LTMSQL.mk o None cur ctx awake, w))
        as (a & w' & Hrun & Hst).
      exists a, w'. split; [| exact Hst].
      unfold bind, LTMSQL.this, gets. cbn [fst snd LTMSQL.persona] in *.
      exact Hrun. }
  assert (Hharmless : forall (A : Type) (m : M LTMSQL.Sys A),
            read_only m -> harmless m).
  { intros A m H s. destruct (H s) as (a & w' & Hrun & Hst).
    rewrite Hrun. split; [reflexivity | exact Hst]. }
  split.
  - split; [| split; [| split; [| split; [| split]]]].
    + intros query tags opts. apply harmless_liftW.
      apply searchRelevantMemories_stored.
    + apply Hharmless, Hpersona.
    + intros limit. apply harmless_liftW, getRecent_stored.
    + intros threshold limit. apply harmless_liftW, getImportant_stored.
    + intros limit. apply harmless_liftW, DreamstateUpdate_getRecent_stored.
    + intros [t w]. split; reflexivity.
  - split; [| split; [| split; [| split; [| split]]]].
    + intros query tags opts Hshort Hlimit. unfold LTMSQL.searchMemories.
      apply read_only_liftW; [| apply searchRelevantMemories_stored].
      unfold AwakeningService.searchRelevantMemories.
      destruct tags as [| tag tags].
      * apply getRecent_returns. now apply Hlimit.
      * apply searchByTags_returns. exact Hshort.
    + exact Hpersona.
    + intros limit Hlimit. apply read_only_liftW;
        [apply getRecent_returns; exact Hlimit | apply getRecent_stored].
    + intros threshold limit Hlimit. apply read_only_liftW;
        [apply getImportant_returns; exact Hlimit | apply getImportant_stored].
    + intros limit Hlimit. apply read_only_liftW;
        [apply DreamstateUpdate_getRecent_returns; exact Hlimit
        | apply DreamstateUpdate_getRecent_stored].
    + intros [t w]. do 2 eexists. split; reflexivity.
Qed.

(** X27 at a search for [help] and at the five most recent memories. *)
Lemma queries_read_only_witness :
  read_only
    (LTMSQL.searchMemories "anything" ["help"]
       (AwakeningService.mkSearchOptions None))
  /\ read_only (LTMSQL.getRecentMemories 5).
Proof.
  split.
  - apply (proj1 (proj2 queries_read_only) "anything" ["help"]
             (AwakeningService.mkSearchOptions None)).
    + repeat constructor. unfold short_tag. simpl. lia.
    + discriminate.
  - apply (proj1 (proj2 (proj2 (proj2 queries_read_only))) 5).
    reflexivity.
Defined.
